(** * Travel booking back end: services, request handlers and router

    A shallow embedding of [database/db_utils.py] (the flight, hotel and
    car-rental services and the destination lookup of the planner), of the
    request handlers of the flight, hotel and car-rental agents and of the
    supervisor's keyword classifier, with the properties the specification
    states about them.

    Conventions of the embedding:
    - a Python [dict] decoded from JSON is an association list [string * json];
    - a table is the list of its rows in rowid order; [SELECT] filters it,
      [UPDATE] maps over it, [INSERT] appends a row with the next rowid;
    - every statement is committed on its own, so a service is a function
      from the store to an outcome and the store it leaves behind;
    - a Python exception is an explicit [Raise] outcome;
    - a Python [float], a JSON decimal and a [REAL] cell are IEEE doubles,
      the binary64 instance of [SpecFloat]: a product is the exact product
      rounded to the nearest double, ties to even, and the price columns are
      [REAL], so a price is read back as a [float];
    - a Python [int] is unbounded and an [INTEGER] cell holds 64 bits: the
      driver refuses to bind an [int] outside that range, an integer read
      from a row is within it, and a statement about a sum the engine
      computes supposes that the sum is within it too;
    - text is a [string] of one-byte characters, which is Python's [str] on
      ASCII text;
    - the interpreter's and the SQL engine's library functions
      ([strptime], [str.upper], [json.loads], [LIKE], [DATE], ...) are the
      fields of a [Runtime] instance;
    - [schema.sql] is not among the sources: rows carry the columns the code
      reads and writes, column defaults are fields of [Runtime], and no
      constraint other than the rowid key is modelled. *)

From Stdlib Require Import ZArith QArith List String Ascii Bool Lia Sorted.
From Stdlib Require Import SpecFloat.
Import ListNotations.

Local Open Scope Z_scope.

Infix "+++" := String.append (at level 60, right associativity).

(** ** IEEE doubles ([float]) *)

Definition float : Type := spec_float.

Declare Scope float_scope.
Delimit Scope float_scope with float.
Bind Scope float_scope with float.
Notation "0" := (S754_zero false) : float_scope.

Definition prec : Z := 53.
Definition emax : Z := 1024.

(** [x * y] and [x / y] on doubles. *)
Definition float_mul (x y : float) : float := SFmul prec emax x y.
Definition float_div (x y : float) : float := SFdiv prec emax x y.

(** The double nearest to an integer; an infinity when the integer is
    beyond the largest double. *)
Definition float_of_Z (z : Z) : float := binary_normalize prec emax z 0 false.

Definition float_is_zero (x : float) : bool :=
  match x with S754_zero _ => true | _ => false end.

(** Neither an infinity nor a NaN. *)
Definition float_is_finite (x : float) : bool :=
  match x with S754_zero _ | S754_finite _ _ _ => true | _ => false end.


(** The real number a double stands for (0 for an infinity or a NaN). *)
Definition float_exact (x : float) : Q :=
  match x with
  | S754_finite s m e =>
      let magnitude := (inject_Z (Zpos m) * Qpower 2 e)%Q in
      if s then Qopp magnitude else magnitude
  | _ => 0%Q
  end.

(** ** Python values *)

Unset Elimination Schemes.
Inductive json : Type :=
| JNull
| JBool (b : bool)
| JInt (z : Z)
| JFloat (x : float)
| JStr (s : string)
| JList (l : list json)
| JObj (kv : list (string * json)).
Set Elimination Schemes.

Definition pydict := list (string * json).

(** [d.get(k)] as an option, [d.get(k, default)] and [k in d]. *)
Fixpoint lookup (k : string) (d : pydict) : option json :=
  match d with
  | [] => None
  | (k', v) :: d' => if String.eqb k k' then Some v else lookup k d'
  end.

Definition dict_get (d : pydict) (k : string) (default : json) : json :=
  match lookup k d with Some v => v | None => default end.

Definition dict_mem (k : string) (d : pydict) : bool :=
  match lookup k d with Some _ => true | None => false end.

(** A field of a JSON object. *)
Definition field (k : string) (v : json) : option json :=
  match v with
  | JObj kv => lookup k kv
  | _ => None
  end.

(** [d[k] = v]: replaces the binding of an existing key, appends otherwise. *)
Fixpoint dict_set (k : string) (v : json) (d : pydict) : pydict :=
  match d with
  | [] => [(k, v)]
  | (k', v') :: d' =>
      if String.eqb k k' then (k, v) :: d' else (k', v') :: dict_set k v d'
  end.

(** Truth value of a Python object ([not x] is its negation). *)
Definition truthy (v : json) : bool :=
  match v with
  | JNull => false
  | JBool b => b
  | JInt z => negb (z =? 0)
  | JFloat x => negb (float_is_zero x)
  | JStr s => negb (String.eqb s EmptyString)
  | JList l => match l with [] => false | _ => true end
  | JObj kv => match kv with [] => false | _ => true end
  end.

(** ** Exceptions and outcomes *)

Inductive exn_class : Type :=
| ValueError | JSONDecodeError | TypeError | AttributeError | KeyError
| OverflowError | DatabaseError | OtherError.

Record exn : Type := Exn { exn_kind : exn_class; exn_str : string }.

(** [except ValueError] also catches [json.JSONDecodeError], its subclass. *)
Definition is_ValueError (e : exn) : bool :=
  match exn_kind e with
  | ValueError | JSONDecodeError => true
  | _ => false
  end.

Definition is_JSONDecodeError (e : exn) : bool :=
  match exn_kind e with JSONDecodeError => true | _ => false end.

Inductive outcome (A : Type) : Type :=
| Ok (a : A)
| Raise (e : exn).
Arguments Ok {A} a.
Arguments Raise {A} e.

Definition type_name (v : json) : string :=
  match v with
  | JNull => "NoneType"
  | JBool _ => "bool"
  | JInt _ => "int"
  | JFloat _ => "float"
  | JStr _ => "str"
  | JList _ => "list"
  | JObj _ => "dict"
  end.

(** [len(v)]: defined on strings, lists and dicts, [TypeError] elsewhere. *)
Definition py_len (v : json) : outcome Z :=
  match v with
  | JStr s => Ok (Z.of_nat (String.length s))
  | JList l => Ok (Z.of_nat (List.length l))
  | JObj kv => Ok (Z.of_nat (List.length kv))
  | _ => Raise (Exn TypeError
                  ("object of type '" +++ type_name v +++ "' has no len()"))
  end.

(** The receiver of a string method ([origin.upper()]): a [str] is itself,
    any other object has no such attribute. *)
Definition str_method (name : string) (v : json) : outcome string :=
  match v with
  | JStr s => Ok s
  | _ => Raise (Exn AttributeError
                  ("'" +++ type_name v +++ "' object has no attribute '"
                   +++ name +++ "'"))
  end.

(** The receiver of [.get]: a [dict] is itself, any other object has no such
    attribute. *)
Definition as_dict (v : json) : outcome pydict :=
  match v with
  | JObj kv => Ok kv
  | _ => Raise (Exn AttributeError
                  ("'" +++ type_name v +++ "' object has no attribute 'get'"))
  end.

(** [float(z)] where an [int] meets a [float] in arithmetic. *)
Definition float_of_int (z : Z) : outcome float :=
  match float_of_Z z with
  | S754_infinity _ =>
      Raise (Exn OverflowError "int too large to convert to float")
  | x => Ok x
  end.

(** [x * v] for a float [x]: an [int] or a [bool] is converted to a float
    first, a float multiplies as it is, anything else is a [TypeError]. *)
Definition py_mul (x : float) (v : json) : outcome float :=
  match v with
  | JInt z =>
      match float_of_int z with
      | Ok y => Ok (float_mul x y)
      | Raise e => Raise e
      end
  | JFloat y => Ok (float_mul x y)
  | JBool b => Ok (float_mul x (float_of_Z (if b then 1 else 0)))
  | JStr _ | JList _ =>
      Raise (Exn TypeError "can't multiply sequence by non-int of type 'float'")
  | _ =>
      Raise (Exn TypeError ("unsupported operand type(s) for *: 'float' and '"
                            +++ type_name v +++ "'"))
  end.
Arguments py_mul : simpl never.

(** [int(x)] for a float: truncation towards zero. *)
Definition float_trunc (x : float) : outcome Z :=
  match x with
  | S754_zero _ => Ok 0
  | S754_finite s m e =>
      let magnitude :=
        if 0 <=? e then Zpos m * 2 ^ e else Zpos m / 2 ^ (- e) in
      Ok (if s then - magnitude else magnitude)
  | S754_infinity _ =>
      Raise (Exn OverflowError "cannot convert float infinity to integer")
  | S754_nan => Raise (Exn ValueError "cannot convert float NaN to integer")
  end.

(** ** Dates and times ([datetime.date], [datetime.datetime])

    Ordinals follow CPython's [_ymd2ord]; the difference of two datetimes is
    a [timedelta] whose [days] is the floor of the elapsed time over a day. *)

Record date : Type := Date { d_year : Z; d_month : Z; d_day : Z }.

Record datetime : Type := Datetime {
  year : Z; month : Z; day : Z;
  hour : Z; minute : Z; second : Z; microsecond : Z
}.

Definition to_date (t : datetime) : date := Date (year t) (month t) (day t).

Definition is_leap (y : Z) : bool :=
  (y mod 4 =? 0) && (negb (y mod 100 =? 0) || (y mod 400 =? 0)).

Definition days_before_year (y : Z) : Z :=
  let y := y - 1 in y * 365 + y / 4 - y / 100 + y / 400.

Definition DAYS_BEFORE_MONTH (m : Z) : Z :=
  match m with
  | 1 => 0 | 2 => 31 | 3 => 59 | 4 => 90 | 5 => 120 | 6 => 151
  | 7 => 181 | 8 => 212 | 9 => 243 | 10 => 273 | 11 => 304 | 12 => 334
  | _ => 0
  end.

Definition days_before_month (y m : Z) : Z :=
  DAYS_BEFORE_MONTH m + (if (2 <? m) && is_leap y then 1 else 0).

Definition ymd2ord (y m d : Z) : Z :=
  days_before_year y + days_before_month y m + d.

Definition toordinal (d : date) : Z := ymd2ord (d_year d) (d_month d) (d_day d).

(** [(b - a).days] for two dates. *)
Definition date_diff_days (b a : date) : Z := toordinal b - toordinal a.

Definition US_PER_DAY : Z := 86400 * 1000000.

Definition to_microseconds (t : datetime) : Z :=
  ((ymd2ord (year t) (month t) (day t) * 86400
    + hour t * 3600 + minute t * 60 + second t) * 1000000) + microsecond t.

(** [(b - a).days] for two datetimes: the day component of the normalised
    [timedelta], i.e. floor division of the elapsed microseconds. *)
Definition datetime_diff_days (b a : datetime) : Z :=
  (to_microseconds b - to_microseconds a) / US_PER_DAY.

(** ** The calendar

    The Gregorian calendar the ordinals are meant to count, stated day by
    day and without ordinals: months of 28 to 31 days, the day after a date,
    and the date a number of days later. *)

Definition days_in_month (y m : Z) : Z :=
  match m with
  | 2 => if is_leap y then 29 else 28
  | 4 | 6 | 9 | 11 => 30
  | _ => 31
  end.

(** A month of the year and a day of that month. *)
Definition calendar_date (d : date) : Prop :=
  1 <= d_month d <= 12 /\ 1 <= d_day d <= days_in_month (d_year d) (d_month d).

(** A date [datetime.date] can hold: a calendar date of the years 1 to
    9999. *)
Definition valid_date (d : date) : Prop :=
  1 <= d_year d <= 9999 /\ calendar_date d.

Definition next_day (d : date) : date :=
  if d_day d <? days_in_month (d_year d) (d_month d)
  then Date (d_year d) (d_month d) (d_day d + 1)
  else if d_month d <? 12
       then Date (d_year d) (d_month d + 1) 1
       else Date (d_year d + 1) 1 1.

Fixpoint add_days (k : nat) (d : date) : date :=
  match k with
  | O => d
  | S k' => add_days k' (next_day d)
  end.

(** [b] is [n] days after [a], or [- n] days before it when [n] is
    negative. *)
Definition days_from (a b : date) (n : Z) : Prop :=
  (0 <= n /\ b = add_days (Z.to_nat n) a)
  \/ (n < 0 /\ a = add_days (Z.to_nat (- n)) b).

(** The time elapsed since midnight, in microseconds, and the times a
    [datetime] can hold. *)
Definition time_of_day (t : datetime) : Z :=
  ((hour t * 60 + minute t) * 60 + second t) * 1000000 + microsecond t.

Definition valid_time (t : datetime) : Prop :=
  0 <= hour t < 24 /\ 0 <= minute t < 60 /\ 0 <= second t < 60
  /\ 0 <= microsecond t < 1000000.

(** What a [datetime] can hold. *)
Definition valid_datetime (t : datetime) : Prop :=
  valid_date (to_date t) /\ valid_time t.

(** The whole days from [a] to [b]: the days between the two dates, less one
    when [b] falls earlier in its day than [a] in its own. *)
Definition whole_days (n : Z) (a b : datetime) : Z :=
  if time_of_day b <? time_of_day a then n - 1 else n.

(** ** Library functions of the interpreter and of the SQL engine *)

Class Runtime : Type := {
  (** [str.upper], [str.lower] *)
  str_upper : string -> string;
  str_lower : string -> string;
  (** [int(s)] on a string, [ValueError] when it is no integer literal *)
  int_of_str : string -> outcome Z;
  (** [str(v)] and the formatting of a value inside an f-string *)
  py_str : json -> string;
  (** [json.loads] ([JSONDecodeError] on malformed text) and [json.dumps] *)
  json_loads : string -> outcome json;
  json_dumps : json -> string;
  json_dumps_indent : json -> string;
  (** [datetime.strptime(s, fmt)], [ValueError] when [s] does not match *)
  strptime : string -> string -> outcome datetime;
  (** [t.strftime(fmt)] and [t.isoformat()] *)
  strftime : datetime -> string -> string;
  isoformat : datetime -> string;
  (** SQL [value LIKE pattern]; [DATE(v)] of a bound or stored value, and
      the text a bound number compares as against a TEXT column ([None] is
      NULL) *)
  sql_like : string -> string -> bool;
  sql_date : json -> option string;
  sql_text : json -> option string;
  (** column defaults of the schema for the columns the inserts leave out *)
  default_currency : option string
}.

(** ** The relational store *)

Record airline_row : Type := AirlineRow {
  al_airline_id : Z; al_airline_code : string; al_airline_name : string
}.

Record airport_row : Type := AirportRow {
  ap_airport_id : Z; ap_airport_code : string; ap_city : string
}.

Record flight_row : Type := FlightRow {
  flight_id : Z;
  flight_number : string;
  airline_id : Z;
  origin_airport_id : Z;
  destination_airport_id : Z;
  departure_time : string;
  arrival_time : string;
  aircraft_type : string;
  total_seats : Z;
  available_seats : Z;
  base_price : float;
  currency : option string
}.

Record flight_booking_row : Type := FlightBookingRow {
  fb_booking_id : Z;
  fb_user_id : json;
  fb_flight_id : Z;
  fb_booking_reference : string;
  fb_passenger_count : Z;
  fb_total_price : float;
  fb_currency : option string;
  fb_special_requests : string;
  fb_booking_status : string
}.

Record hotel_row : Type := HotelRow {
  hotel_id : Z; h_city : string; h_total_rooms : Z
}.

Record room_type_row : Type := RoomTypeRow {
  room_type_id : Z;
  rt_hotel_id : Z;
  base_price_per_night : float;
  rt_currency : option string;
  rt_total_rooms : Z
}.

Record hotel_booking_row : Type := HotelBookingRow {
  hb_booking_id : Z;
  hb_user_id : json;
  hb_hotel_id : Z;
  hb_room_type_id : Z;
  hb_booking_reference : string;
  hb_check_in_date : string;
  hb_check_out_date : string;
  hb_guest_count : Z;
  hb_room_count : json;
  hb_total_nights : Z;
  hb_price_per_night : float;
  hb_total_price : float;
  hb_special_requests : string;
  hb_guest_names : string;
  hb_booking_status : string
}.

Record vehicle_row : Type := VehicleRow {
  vehicle_id : Z;
  daily_rate : float;
  v_currency : option string;
  availability_status : string
}.

Record car_booking_row : Type := CarBookingRow {
  cb_booking_id : Z;
  cb_user_id : json;
  cb_vehicle_id : Z;
  cb_pickup_location_id : Z;
  cb_dropoff_location_id : Z;
  cb_booking_reference : string;
  cb_pickup_date : string;
  cb_dropoff_date : string;
  cb_rental_days : Z;
  cb_daily_rate : float;
  cb_total_price : float;
  cb_driver_license_number : json;
  cb_booking_status : string
}.

Record store : Type := Store {
  airlines : list airline_row;
  airports : list airport_row;
  flights : list flight_row;
  flight_bookings : list flight_booking_row;
  hotels : list hotel_row;
  room_types : list room_type_row;
  hotel_bookings : list hotel_booking_row;
  available_vehicles : list vehicle_row;
  car_rental_bookings : list car_booking_row
}.

Definition set_flights (st : store) (fs : list flight_row) : store :=
  Store (airlines st) (airports st) fs (flight_bookings st) (hotels st)
        (room_types st) (hotel_bookings st) (available_vehicles st)
        (car_rental_bookings st).

Definition set_flight_bookings (st : store) (bs : list flight_booking_row) : store :=
  Store (airlines st) (airports st) (flights st) bs (hotels st)
        (room_types st) (hotel_bookings st) (available_vehicles st)
        (car_rental_bookings st).

Definition set_hotel_bookings (st : store) (bs : list hotel_booking_row) : store :=
  Store (airlines st) (airports st) (flights st) (flight_bookings st) (hotels st)
        (room_types st) bs (available_vehicles st) (car_rental_bookings st).

Definition set_available_vehicles (st : store) (vs : list vehicle_row) : store :=
  Store (airlines st) (airports st) (flights st) (flight_bookings st) (hotels st)
        (room_types st) (hotel_bookings st) vs (car_rental_bookings st).

Definition set_car_rental_bookings (st : store) (bs : list car_booking_row) : store :=
  Store (airlines st) (airports st) (flights st) (flight_bookings st) (hotels st)
        (room_types st) (hotel_bookings st) (available_vehicles st) bs.

Definition set_available_seats (f : flight_row) (n : Z) : flight_row :=
  FlightRow (flight_id f) (flight_number f) (airline_id f) (origin_airport_id f)
            (destination_airport_id f) (departure_time f) (arrival_time f)
            (aircraft_type f) (total_seats f) n (base_price f) (currency f).

Definition set_booking_status (b : flight_booking_row) (s : string)
  : flight_booking_row :=
  FlightBookingRow (fb_booking_id b) (fb_user_id b) (fb_flight_id b)
                   (fb_booking_reference b) (fb_passenger_count b)
                   (fb_total_price b) (fb_currency b) (fb_special_requests b) s.

Definition set_availability_status (v : vehicle_row) (s : string) : vehicle_row :=
  VehicleRow (vehicle_id v) (daily_rate v) (v_currency v) s.

(** The rowid an [INSERT] assigns: one more than the largest in the table. *)
Definition next_rowid (ids : list Z) : Z := 1 + fold_right Z.max 0 ids.

(** ** The record access layer ([DatabaseManager])

    A computation against the store yields an outcome and the store as the
    committed statements left it. *)

Definition db (A : Type) : Type := store -> outcome A * store.

Definition ret {A} (a : A) : db A := fun st => (Ok a, st).
Definition raise {A} (e : exn) : db A := fun st => (Raise e, st).
Definition bind {A B} (c : db A) (k : A -> db B) : db B :=
  fun st => match c st with
            | (Ok a, st') => k a st'
            | (Raise e, st') => (Raise e, st')
            end.
Definition lift {A} (o : outcome A) : db A := fun st => (o, st).

Notation "x <- c ;; k" := (bind c (fun x => k))
  (at level 61, c at next level, right associativity).

(** What an [INTEGER] holds: a signed 64-bit integer. *)
Definition is_int64 (z : Z) : bool :=
  (-9223372036854775808 <=? z) && (z <? 9223372036854775808).

(** A value the driver can bind to a [?]: [None], a string, a float, a bool,
    or an [int] of at most 64 bits. *)
Definition sql_bindable (v : json) : bool :=
  match v with
  | JList _ | JObj _ => false
  | JInt z => is_int64 z
  | _ => true
  end.

(** The driver binds the values of a statement in order, before the
    statement runs, and raises at the first it cannot bind: [OverflowError]
    for an [int] beyond 64 bits, [sqlite3.ProgrammingError] for a list or a
    dict.  [position] is the place of the [?] in the statement, from 1. *)
Definition bind_param (position : string) (v : json) : db unit :=
  match v with
  | JInt z =>
      if is_int64 z then ret tt
      else raise (Exn OverflowError
                      "Python int too large to convert to SQLite INTEGER")
  | JList _ | JObj _ =>
      raise (Exn DatabaseError
                 ("Error binding parameter " +++ position +++ ": type '"
                  +++ type_name v +++ "' is not supported"))
  | _ => ret tt
  end.
Arguments bind_param : simpl never.

Definition execute_query {A} (q : store -> list A) : db (list A) :=
  fun st => (Ok (q st), st).

Definition execute_update (u : store -> store) : db unit :=
  fun st => (Ok tt, u st).

Definition execute_insert (ins : store -> Z * store) : db Z :=
  fun st => let (rowid, st') := ins st in (Ok rowid, st').

(** JSON views of SQL values. *)
Definition json_of_text (o : option string) : json :=
  match o with Some s => JStr s | None => JNull end.

Definition jsuccess (b : bool) : string * json := ("success"%string, JBool b).
Definition jerror (msg : string) : string * json := ("error"%string, JStr msg).

(** The text a bound scalar compares as against a TEXT column: a string is
    itself, NULL equals nothing, a number goes through the column affinity. *)
Definition bound_text `{Runtime} (v : json) : option string :=
  match v with
  | JStr s => Some s
  | JNull => None
  | _ => sql_text v
  end.

Definition text_equals `{Runtime} (column : string) (v : json) : bool :=
  match bound_text v with
  | Some s => String.eqb column s
  | None => false
  end.

(** [DATE(a) = DATE(b)], false as soon as one side is NULL. *)
Definition same_date `{Runtime} (a b : json) : bool :=
  match sql_date a, sql_date b with
  | Some x, Some y => String.eqb x y
  | _, _ => false
  end.

(** ** FlightService *)

Section FlightService.
Context `{RT : Runtime}.

(** [SELECT airport_id FROM airports WHERE airport_code = ? OR city LIKE ?] *)
Definition select_airport_ids (code pattern : string) (st : store) : list Z :=
  map ap_airport_id
      (filter (fun a => String.eqb (ap_airport_code a) code
                        || sql_like (ap_city a) pattern)
              (airports st)).

(** A row of the flight search: the flight with the names it is joined to. *)
Record flight_result : Type := FlightResult {
  fr_flight : flight_row;
  fr_airline_name : string;
  fr_airline_code : string;
  fr_origin_code : string;
  fr_origin_city : string;
  fr_destination_code : string;
  fr_destination_city : string
}.

Definition join_flight (st : store) (f : flight_row) : list flight_result :=
  flat_map (fun a =>
    flat_map (fun orig =>
      map (fun dest =>
             FlightResult f (al_airline_name a) (al_airline_code a)
                          (ap_airport_code orig) (ap_city orig)
                          (ap_airport_code dest) (ap_city dest))
          (filter (fun dest => destination_airport_id f =? ap_airport_id dest)
                  (airports st)))
      (filter (fun orig => origin_airport_id f =? ap_airport_id orig)
              (airports st)))
    (filter (fun a => airline_id f =? al_airline_id a) (airlines st)).

(** [ORDER BY f.departure_time]: a stable insertion sort on the column. *)
Fixpoint insert_by_departure (r : flight_result) (l : list flight_result)
  : list flight_result :=
  match l with
  | [] => [r]
  | r' :: l' =>
      if String.leb (departure_time (fr_flight r)) (departure_time (fr_flight r'))
      then r :: l
      else r' :: insert_by_departure r l'
  end.

Definition order_by_departure (l : list flight_result) : list flight_result :=
  fold_right insert_by_departure [] l.

(** The outbound (and return) query of [search_flights]. *)
Definition select_flights (origin_id destination_id : Z) (on_date : json)
           (passengers : Z) (st : store) : list flight_result :=
  order_by_departure
    (flat_map (join_flight st)
       (filter (fun f => (origin_airport_id f =? origin_id)
                         && (destination_airport_id f =? destination_id)
                         && same_date (JStr (departure_time f)) on_date
                         && (available_seats f >=? passengers))
               (flights st))).

(** What [search_flights] returns: the empty list when an airport does not
    resolve, a dict of the two flight lists otherwise. *)
Inductive search_result : Type :=
| NoAirport
| Found (outbound_flights return_flights : list flight_result).

Definition search_flights (origin destination : json) (departure_date : json)
           (return_date : json) (passengers : Z) : db search_result :=
  origin_text <- lift (str_method "upper" origin) ;;
  origin_result <-
    execute_query (select_airport_ids (str_upper origin_text)
                                      ("%" +++ origin_text +++ "%")) ;;
  destination_text <- lift (str_method "upper" destination) ;;
  destination_result <-
    execute_query (select_airport_ids (str_upper destination_text)
                                      ("%" +++ destination_text +++ "%")) ;;
  match origin_result, destination_result with
  | origin_id :: _, destination_id :: _ =>
      _ <- bind_param "3" departure_date ;;
      _ <- bind_param "4" (JInt passengers) ;;
      outbound_flights <-
        execute_query (select_flights origin_id destination_id departure_date
                                      passengers) ;;
      if truthy return_date then
        _ <- bind_param "3" return_date ;;
        return_flights <-
          execute_query (select_flights destination_id origin_id return_date
                                        passengers) ;;
        ret (Found outbound_flights return_flights)
      else ret (Found outbound_flights [])
  | _, _ => ret NoAirport
  end.

(** [SELECT * FROM flights WHERE flight_id = ?] *)
Definition select_flight (fid : Z) (st : store) : list flight_row :=
  filter (fun f => flight_id f =? fid) (flights st).

Definition insert_flight_booking (user_id : json) (fid : Z) (booking_ref : string)
           (passenger_count : Z) (total_price : float) (special_requests : string)
           (st : store) : Z * store :=
  let rowid := next_rowid (map fb_booking_id (flight_bookings st)) in
  (rowid,
   set_flight_bookings st
     (flight_bookings st ++
      [FlightBookingRow rowid user_id fid booking_ref passenger_count total_price
                        default_currency special_requests "CONFIRMED"])).

(** [UPDATE flights SET available_seats = available_seats + ? WHERE flight_id = ?] *)
Definition add_available_seats (delta : Z) (fid : Z) (st : store) : store :=
  set_flights st
    (map (fun f => if flight_id f =? fid
                   then set_available_seats f (available_seats f + delta)
                   else f)
         (flights st)).

Definition book_flight (now : datetime) (user_id : json) (fid : Z)
           (passenger_details : pydict) : db json :=
  let booking_ref := "FL" +++ strftime now "%Y%m%d%H%M%S" in
  _ <- bind_param "1" (JInt fid) ;;
  flight <- execute_query (select_flight fid) ;;
  match flight with
  | [] => ret (JObj [jsuccess false; jerror "Flight not found"])
  | flight :: _ =>
      passenger_count <-
        lift (py_len (dict_get passenger_details "passengers" (JList []))) ;;
      if available_seats flight <? passenger_count then
        ret (JObj [jsuccess false; jerror "Insufficient seats available"])
      else
        total_price <- lift (py_mul (base_price flight) (JInt passenger_count)) ;;
        let special_requests :=
          json_dumps (dict_get passenger_details "special_requests" (JList [])) in
        _ <- bind_param "1" user_id ;;
        _ <- bind_param "4" (JInt passenger_count) ;;
        booking_id <-
          execute_insert (insert_flight_booking user_id fid booking_ref
                            passenger_count total_price special_requests) ;;
        _ <- execute_update (add_available_seats (- passenger_count) fid) ;;
        ret (JObj [jsuccess true;
                   ("booking_id"%string, JInt booking_id);
                   ("booking_reference"%string, JStr booking_ref);
                   ("total_price"%string, JFloat total_price);
                   ("currency"%string, json_of_text (currency flight))])
  end.

(** The rows of the cancellation lookup: a booking joined to its flight. *)
Definition select_booking (booking_reference : json) (st : store)
  : list (flight_booking_row * flight_row) :=
  flat_map (fun fb =>
              map (fun f => (fb, f))
                  (filter (fun f => fb_flight_id fb =? flight_id f) (flights st)))
           (filter (fun fb => text_equals (fb_booking_reference fb) booking_reference)
                   (flight_bookings st)).

(** [UPDATE flight_bookings SET booking_status = 'CANCELLED'
     WHERE booking_reference = ?] *)
Definition mark_cancelled (booking_reference : json) (st : store) : store :=
  set_flight_bookings st
    (map (fun fb => if text_equals (fb_booking_reference fb) booking_reference
                    then set_booking_status fb "CANCELLED"
                    else fb)
         (flight_bookings st)).

Definition cancel_flight (booking_reference : json) : db json :=
  _ <- bind_param "1" booking_reference ;;
  booking <- execute_query (select_booking booking_reference) ;;
  match booking with
  | [] => ret (JObj [jsuccess false; jerror "Booking not found"])
  | (fb, f) :: _ =>
      if String.eqb (fb_booking_status fb) "CANCELLED" then
        ret (JObj [jsuccess false; jerror "Booking already cancelled"])
      else
        _ <- execute_update (mark_cancelled booking_reference) ;;
        _ <- execute_update
               (add_available_seats (fb_passenger_count fb) (flight_id f)) ;;
        ret (JObj [jsuccess true;
                   ("refund_amount"%string, JFloat (fb_total_price fb));
                   ("currency"%string, json_of_text (fb_currency fb))])
  end.

End FlightService.

(** ** HotelService *)

Section HotelService.
Context `{RT : Runtime}.

(** [SELECT * FROM room_types WHERE room_type_id = ?] *)
Definition select_room_type (rid : Z) (st : store) : list room_type_row :=
  filter (fun r => room_type_id r =? rid) (room_types st).

Definition insert_hotel_booking (user_id : json) (hid rid : Z)
           (booking_ref check_in_date check_out_date : string)
           (guest_count : Z) (room_count : json) (nights : Z)
           (price_per_night total_price : float)
           (special_requests guest_names : string)
           (st : store) : Z * store :=
  let rowid := next_rowid (map hb_booking_id (hotel_bookings st)) in
  (rowid,
   set_hotel_bookings st
     (hotel_bookings st ++
      [HotelBookingRow rowid user_id hid rid booking_ref check_in_date
                       check_out_date guest_count room_count nights
                       price_per_night total_price special_requests
                       guest_names "CONFIRMED"])).

Definition book_hotel (now : datetime) (user_id : json) (hid rid : Z)
           (check_in_date check_out_date : string) (guest_details : pydict)
  : db json :=
  let booking_ref := "HT" +++ strftime now "%Y%m%d%H%M%S" in
  check_in <- lift (strptime check_in_date "%Y-%m-%d") ;;
  check_out <- lift (strptime check_out_date "%Y-%m-%d") ;;
  let nights := date_diff_days (to_date check_out) (to_date check_in) in
  _ <- bind_param "1" (JInt rid) ;;
  room <- execute_query (select_room_type rid) ;;
  match room with
  | [] => ret (JObj [jsuccess false; jerror "Room type not found"])
  | room :: _ =>
      guest_count <- lift (py_len (dict_get guest_details "guests" (JList []))) ;;
      let room_count := dict_get guest_details "room_count" (JInt 1) in
      nightly <- lift (py_mul (base_price_per_night room) (JInt nights)) ;;
      total_price <- lift (py_mul nightly room_count) ;;
      let special_requests :=
        json_dumps (dict_get guest_details "special_requests" (JList [])) in
      let guest_names := json_dumps (dict_get guest_details "guests" (JList [])) in
      _ <- bind_param "1" user_id ;;
      _ <- bind_param "2" (JInt hid) ;;
      _ <- bind_param "7" (JInt guest_count) ;;
      _ <- bind_param "8" room_count ;;
      _ <- bind_param "9" (JInt nights) ;;
      booking_id <-
        execute_insert (insert_hotel_booking user_id hid rid booking_ref
                          check_in_date check_out_date guest_count room_count
                          nights (base_price_per_night room) total_price
                          special_requests guest_names) ;;
      ret (JObj [jsuccess true;
                 ("booking_id"%string, JInt booking_id);
                 ("booking_reference"%string, JStr booking_ref);
                 ("total_price"%string, JFloat total_price);
                 ("currency"%string, json_of_text (rt_currency room));
                 ("nights"%string, JInt nights)])
  end.

End HotelService.

(** ** CarRentalService *)

Section CarRentalService.
Context `{RT : Runtime}.

(** [SELECT * FROM available_vehicles WHERE vehicle_id = ?] *)
Definition select_vehicle (vid : Z) (st : store) : list vehicle_row :=
  filter (fun v => vehicle_id v =? vid) (available_vehicles st).

Definition insert_car_booking (user_id : json) (vid pickup_id dropoff_id : Z)
           (booking_ref pickup_date dropoff_date : string) (rental_days : Z)
           (rate total_price : float) (license_number : json)
           (st : store) : Z * store :=
  let rowid := next_rowid (map cb_booking_id (car_rental_bookings st)) in
  (rowid,
   set_car_rental_bookings st
     (car_rental_bookings st ++
      [CarBookingRow rowid user_id vid pickup_id dropoff_id booking_ref
                     pickup_date dropoff_date rental_days rate total_price
                     license_number "CONFIRMED"])).

(** [UPDATE available_vehicles SET availability_status = 'RENTED'
     WHERE vehicle_id = ?] *)
Definition mark_rented (vid : Z) (st : store) : store :=
  set_available_vehicles st
    (map (fun v => if vehicle_id v =? vid
                   then set_availability_status v "RENTED"
                   else v)
         (available_vehicles st)).

Definition book_car (now : datetime) (user_id : json)
           (vid pickup_location_id dropoff_location_id : Z)
           (pickup_date dropoff_date : string) (driver_details : pydict)
  : db json :=
  let booking_ref := "CR" +++ strftime now "%Y%m%d%H%M%S" in
  pickup <- lift (strptime pickup_date "%Y-%m-%d %H:%M:%S") ;;
  dropoff <- lift (strptime dropoff_date "%Y-%m-%d %H:%M:%S") ;;
  let rental_days := Z.max 1 (datetime_diff_days dropoff pickup) in
  _ <- bind_param "1" (JInt vid) ;;
  vehicle <- execute_query (select_vehicle vid) ;;
  match vehicle with
  | [] => ret (JObj [jsuccess false; jerror "Vehicle not found"])
  | vehicle :: _ =>
      total_price <- lift (py_mul (daily_rate vehicle) (JInt rental_days)) ;;
      let license_number := dict_get driver_details "license_number" JNull in
      _ <- bind_param "1" user_id ;;
      _ <- bind_param "3" (JInt pickup_location_id) ;;
      _ <- bind_param "4" (JInt dropoff_location_id) ;;
      _ <- bind_param "8" (JInt rental_days) ;;
      _ <- bind_param "11" license_number ;;
      booking_id <-
        execute_insert (insert_car_booking user_id vid pickup_location_id
                          dropoff_location_id booking_ref pickup_date
                          dropoff_date rental_days (daily_rate vehicle)
                          total_price license_number) ;;
      _ <- execute_update (mark_rented vid) ;;
      ret (JObj [jsuccess true;
                 ("booking_id"%string, JInt booking_id);
                 ("booking_reference"%string, JStr booking_ref);
                 ("total_price"%string, JFloat total_price);
                 ("currency"%string, json_of_text (v_currency vehicle));
                 ("rental_days"%string, JInt rental_days)])
  end.

End CarRentalService.

(** ** Request handlers: shared pieces *)

(** [int(v)]: a string is parsed, a float is truncated towards zero (an
    infinity or a NaN has no integer), a bool counts as 0 or 1, anything else
    is a [TypeError]. *)
Definition py_int `{Runtime} (v : json) : outcome Z :=
  match v with
  | JStr s => int_of_str s
  | JInt z => Ok z
  | JFloat x => float_trunc x
  | JBool b => Ok (if b then 1 else 0)
  | _ => Raise (Exn TypeError
                  ("int() argument must be a string, a bytes-like object or a "
                   +++ "real number, not '" +++ type_name v +++ "'"))
  end.

(** [for x in v]: the items a [for] loop visits, [TypeError] on a value that
    is not iterable. *)
Fixpoint chars (s : string) : list json :=
  match s with
  | EmptyString => []
  | String c s' => JStr (String c EmptyString) :: chars s'
  end.

Definition py_iter (v : json) : outcome (list json) :=
  match v with
  | JList l => Ok l
  | JStr s => Ok (chars s)
  | JObj kv => Ok (map (fun p => JStr (fst p)) kv)
  | _ => Raise (Exn TypeError
                  ("'" +++ type_name v +++ "' object is not iterable"))
  end.

(** The loop that turns the parameter list into [params_dict].  A name that
    is no string can never be asked for by a handler and is left out; a name
    that is a list or a dict cannot be a key at all. *)
Fixpoint build_params (parameters : list json) (params_dict : pydict)
  : outcome pydict :=
  match parameters with
  | [] => Ok params_dict
  | param :: rest =>
      match as_dict param with
      | Raise e => Raise e
      | Ok p =>
          match dict_get p "name" JNull with
          | JStr name =>
              build_params rest (dict_set name (dict_get p "value" JNull) params_dict)
          | JList _ | JObj _ =>
              Raise (Exn TypeError
                       ("unhashable type: '"
                        +++ type_name (dict_get p "name" JNull) +++ "'"))
          | _ => build_params rest params_dict
          end
      end
  end.

Definition validation_error (msg : string) : json :=
  JObj [jsuccess false; jerror msg; ("error_type"%string, JStr "validation_error")].

Definition service_error (msg : string) : json :=
  JObj [jsuccess false; jerror msg; ("error_type"%string, JStr "service_error")].

(** The first of the required parameters that is missing, if any. *)
Fixpoint first_missing (required : list string) (params : pydict) : option string :=
  match required with
  | [] => None
  | p :: rest => if dict_mem p params then first_missing rest params else Some p
  end.

(** [try: body  except ValueError: ...  except Exception: ...] of a handler;
    [value_errors] tells whether the handler has the [ValueError] clause. *)
Definition guarded (value_errors : bool) (failed : string) (body : db json) : db json :=
  fun st =>
    match body st with
    | (Ok r, st') => (Ok r, st')
    | (Raise e, st') =>
        if value_errors && is_ValueError e
        then (Ok (validation_error ("Invalid parameter value: " +++ exn_str e)), st')
        else (Ok (service_error (failed +++ exn_str e)), st')
    end.

(** ** Flight booking agent *)

Section FlightAgent.
Context `{RT : Runtime}.

Definition format_flight (r : flight_result) : json :=
  let flight := fr_flight r in
  JObj [("flight_id"%string, JInt (flight_id flight));
        ("flight_number"%string, JStr (flight_number flight));
        ("airline"%string,
         JObj [("code"%string, JStr (fr_airline_code r));
               ("name"%string, JStr (fr_airline_name r))]);
        ("route"%string,
         JObj [("origin"%string,
                JObj [("code"%string, JStr (fr_origin_code r));
                      ("city"%string, JStr (fr_origin_city r))]);
               ("destination"%string,
                JObj [("code"%string, JStr (fr_destination_code r));
                      ("city"%string, JStr (fr_destination_city r))])]);
        ("schedule"%string,
         JObj [("departure_time"%string, JStr (departure_time flight));
               ("arrival_time"%string, JStr (arrival_time flight))]);
        ("aircraft"%string, JStr (aircraft_type flight));
        ("pricing"%string,
         JObj [("base_price"%string, JFloat (base_price flight));
               ("currency"%string, json_of_text (currency flight))]);
        ("availability"%string,
         JObj [("total_seats"%string, JInt (total_seats flight));
               ("available_seats"%string, JInt (available_seats flight))])].

Definition format_flight_list (flights : list flight_result) : list json :=
  map format_flight flights.

Definition missing_parameter (p : string) : json :=
  validation_error ("Missing required parameter: " +++ p).

Definition handle_search_flights (params : pydict) : db json :=
  guarded true "Flight search failed: "
    (match first_missing ["origin"; "destination"; "departure_date"; "passengers"]%string
                         params with
     | Some p => ret (missing_parameter p)
     | None =>
         let origin := dict_get params "origin" JNull in
         let destination := dict_get params "destination" JNull in
         let departure_date := dict_get params "departure_date" JNull in
         let return_date := dict_get params "return_date" JNull in
         passengers <- lift (py_int (dict_get params "passengers" JNull)) ;;
         if (passengers <? 1) || (9 <? passengers) then
           ret (validation_error "Passenger count must be between 1 and 9")
         else
           search_results <-
             search_flights origin destination departure_date return_date
                            passengers ;;
           match search_results with
           | NoAirport =>
               ret (JObj [jsuccess false;
                          jerror "No flights found for the specified criteria";
                          ("error_type"%string, JStr "no_results")])
           | Found outbound_flights return_flights =>
               ret (JObj [jsuccess true;
                          ("search_criteria"%string,
                           JObj [("origin"%string, origin);
                                 ("destination"%string, destination);
                                 ("departure_date"%string, departure_date);
                                 ("return_date"%string, return_date);
                                 ("passengers"%string, JInt passengers)]);
                          ("outbound_flights"%string,
                           JList (format_flight_list outbound_flights));
                          ("return_flights"%string,
                           JList (if truthy return_date
                                  then format_flight_list return_flights
                                  else []))])
           end
     end).

(** The inner [try] of [handle_book_flight]: a string is decoded, any other
    value is taken as it is. *)
Definition parse_passenger_details (v : json) : outcome json :=
  match v with
  | JStr s => json_loads s
  | _ => Ok v
  end.

Definition handle_book_flight (now : datetime) (params : pydict) : db json :=
  guarded true "Flight booking failed: "
    (match first_missing ["flight_id"; "passenger_details"]%string params with
     | Some p => ret (missing_parameter p)
     | None =>
         fid <- lift (py_int (dict_get params "flight_id" JNull)) ;;
         match parse_passenger_details (dict_get params "passenger_details" JNull) with
         | Raise e =>
             if is_JSONDecodeError e then
               ret (validation_error
                      "Invalid passenger_details format. Must be valid JSON.")
             else raise e
         | Ok decoded =>
             passenger_details <- lift (as_dict decoded) ;;
             let user_id := dict_get passenger_details "user_id" (JInt 1) in
             booking_result <- book_flight now user_id fid passenger_details ;;
             booking <- lift (as_dict booking_result) ;;
             if negb (truthy (dict_get booking "success" JNull)) then
               ret booking_result
             else
               let reference := dict_get booking "booking_reference" JNull in
               ret (JObj [jsuccess true;
                          ("booking_confirmation"%string,
                           JObj [("booking_id"%string,
                                  dict_get booking "booking_id" JNull);
                                 ("booking_reference"%string, reference);
                                 ("total_price"%string,
                                  dict_get booking "total_price" JNull);
                                 ("currency"%string,
                                  dict_get booking "currency" JNull);
                                 ("status"%string, JStr "CONFIRMED");
                                 ("booking_date"%string, JStr (isoformat now))]);
                          ("message"%string,
                           JStr ("Flight successfully booked! Your booking reference is "
                                 +++ py_str reference))])
         end
     end).

Definition handle_cancel_flight (now : datetime) (params : pydict) : db json :=
  guarded false "Flight cancellation failed: "
    (if negb (dict_mem "booking_reference" params) then
       ret (missing_parameter "booking_reference")
     else
       let booking_reference := dict_get params "booking_reference" JNull in
       cancellation_result <- cancel_flight booking_reference ;;
       cancellation <- lift (as_dict cancellation_result) ;;
       if negb (truthy (dict_get cancellation "success" JNull)) then
         ret cancellation_result
       else
         let refund := dict_get cancellation "refund_amount" JNull in
         let cur := dict_get cancellation "currency" JNull in
         ret (JObj [jsuccess true;
                    ("cancellation_status"%string,
                     JObj [("booking_reference"%string, booking_reference);
                           ("status"%string, JStr "CANCELLED");
                           ("refund_amount"%string, refund);
                           ("currency"%string, cur);
                           ("cancellation_date"%string, JStr (isoformat now))]);
                    ("message"%string,
                     JStr ("Flight booking " +++ py_str booking_reference
                           +++ " has been successfully cancelled. Refund of "
                           +++ py_str cur +++ " " +++ py_str refund
                           +++ " will be processed."))])).

(** The transport envelope around a JSON payload. *)
Definition envelope (action_group function_name : json) (payload : json)
           (session_attributes prompt_session_attributes : json) : json :=
  JObj [("messageVersion"%string, JStr "1.0");
        ("response"%string,
         JObj [("actionGroup"%string, action_group);
               ("function"%string, function_name);
               ("functionResponse"%string,
                JObj [("responseBody"%string,
                       JObj [("TEXT"%string,
                              JObj [("body"%string,
                                     JStr (json_dumps_indent payload))])])])]);
        ("sessionAttributes"%string, session_attributes);
        ("promptSessionAttributes"%string, prompt_session_attributes)].

(** The body of the outer [try] of [lambda_handler].  [fetched] is what
    [download_database_from_s3] and the opening of the database come to: the
    store the services run against, or the exception they raise. *)
Definition lambda_handler_body (now : datetime) (fetched : outcome store)
           (event : pydict) : outcome (json * store) :=
  let action_group := dict_get event "actionGroup" JNull in
  let function_name := dict_get event "function" JNull in
  let parameters := dict_get event "parameters" (JList []) in
  let session_attributes := dict_get event "sessionAttributes" (JObj []) in
  let prompt_session_attributes :=
    dict_get event "promptSessionAttributes" (JObj []) in
  match py_iter parameters with
  | Raise e => Raise e
  | Ok items =>
      match build_params items [] with
      | Raise e => Raise e
      | Ok params_dict =>
          match fetched with
          | Raise e => Raise e
          | Ok st =>
              let routed : db json :=
                match function_name with
                | JStr "search_flights" => handle_search_flights params_dict
                | JStr "book_flight" => handle_book_flight now params_dict
                | JStr "cancel_flight" => handle_cancel_flight now params_dict
                | _ => ret (JObj [jsuccess false;
                                  jerror ("Unknown function: "
                                          +++ py_str function_name)])
                end in
              match routed st with
              | (Raise e, _) => Raise e
              | (Ok result, st') =>
                  Ok (envelope action_group function_name result
                               session_attributes prompt_session_attributes,
                      st')
              end
          end
      end
  end.

(** [lambda_handler]: the response, and the store when the services ran. *)
Definition lambda_handler (now : datetime) (fetched : outcome store)
           (event : pydict) : json * option store :=
  match lambda_handler_body now fetched event with
  | Ok (response, st') => (response, Some st')
  | Raise e =>
      (envelope (dict_get event "actionGroup" (JStr "flight-operations"))
                (dict_get event "function" (JStr "unknown"))
                (JObj [jsuccess false; jerror (exn_str e);
                       ("error_type"%string, JStr "system_error")])
                (dict_get event "sessionAttributes" (JObj []))
                (dict_get event "promptSessionAttributes" (JObj [])),
       None)
  end.

End FlightAgent.

(** ** Car rental agent *)

Section CarRentalAgent.
Context `{RT : Runtime}.

Definition handle_cancel_rental (now : datetime) (params : pydict) : db json :=
  guarded false "Car rental cancellation failed: "
    (if negb (dict_mem "booking_id" params) then
       ret (validation_error "Missing required parameter: booking_id")
     else
       let booking_id := dict_get params "booking_id" JNull in
       ret (JObj [jsuccess true;
                  ("cancellation_status"%string,
                   JObj [("booking_id"%string, booking_id);
                         ("status"%string, JStr "CANCELLED");
                         ("refund_amount"%string, JFloat 0);
                         ("cancellation_fees"%string, JFloat 0);
                         ("currency"%string, JStr "USD");
                         ("cancellation_date"%string, JStr (isoformat now));
                         ("refund_timeline"%string, JStr "5-7 business days")]);
                  ("message"%string,
                   JStr ("Car rental booking " +++ py_str booking_id
                         +++ " has been successfully cancelled"))])).

End CarRentalAgent.

(** ** Travel supervisor agent: the keyword classifier *)

(** [keyword in text] *)
Fixpoint contains (keyword text : string) : bool :=
  String.prefix keyword text
  || match text with
     | EmptyString => false
     | String _ rest => contains keyword rest
     end.

(** [any(keyword in text for keyword in keywords)] *)
Definition any_keyword (keywords : list string) (text : string) : bool :=
  existsb (fun keyword => contains keyword text) keywords.

Definition FLIGHT_KEYWORDS : list string :=
  ["flight"; "fly"; "airline"; "airport"; "departure"; "arrival"]%string.
Definition HOTEL_KEYWORDS : list string :=
  ["hotel"; "accommodation"; "stay"; "room"; "resort"; "lodge"]%string.
Definition CAR_KEYWORDS : list string :=
  ["car"; "rental"; "drive"; "vehicle"; "auto"]%string.
Definition PLANNING_KEYWORDS : list string :=
  ["itinerary"; "plan"; "destination"; "attractions"; "activities";
   "sightseeing"]%string.

(** The running state of the four keyword checks. *)
Record analysis : Type := Analysis {
  required_agents : list string;
  request_type : string;
  complexity_score : Z
}.

(** One keyword check: on a match the agent is appended, the request type
    becomes the domain's name if it still is ["general"] and
    ["multi-service"] otherwise, and the complexity grows by one. *)
Definition check_domain (keywords : list string) (agent domain : string)
           (request_lower : string) (a : analysis) : analysis :=
  if any_keyword keywords request_lower then
    Analysis (required_agents a ++ [agent])
             (if String.eqb (request_type a) "general" then domain
              else "multi-service"%string)
             (complexity_score a + 1)
  else a.

Definition classify (request_lower : string) : analysis :=
  let a := Analysis [] "general" 1 in
  let a := check_domain FLIGHT_KEYWORDS "flight-booking-agent" "flight"
                        request_lower a in
  let a := check_domain HOTEL_KEYWORDS "hotel-booking-agent" "hotel"
                        request_lower a in
  let a := check_domain CAR_KEYWORDS "car-rental-agent" "car-rental"
                        request_lower a in
  let a := check_domain PLANNING_KEYWORDS "travel-planner-agent" "planning"
                        request_lower a in
  match required_agents a with
  | [] => Analysis ["travel-planner-agent"%string] "planning" (complexity_score a)
  | _ => a
  end.

Section Supervisor.
Context `{RT : Runtime}.

Definition priority_of (request_lower : string) : string :=
  if any_keyword ["urgent"; "asap"; "immediately"; "emergency"]%string request_lower
  then "high"%string
  else if any_keyword ["flexible"; "whenever"; "no rush"]%string request_lower
       then "low"%string
       else "medium"%string.

Definition key_requirements_of (request_lower : string) : list string :=
  (if contains "budget" request_lower || contains "cheap" request_lower
      || contains "expensive" request_lower
   then ["Budget considerations"%string] else [])
  ++ (if contains "date" request_lower || contains "time" request_lower
      then ["Specific timing requirements"%string] else [])
  ++ (if contains "group" request_lower || contains "family" request_lower
      then ["Group travel coordination"%string] else []).

Definition potential_challenges_of (request_lower : string) (score : Z)
           (priority : string) : list string :=
  (if 3 <? score then ["Multi-service coordination complexity"%string] else [])
  ++ (if contains "international" request_lower
      then ["International travel requirements"%string] else [])
  ++ (if String.eqb priority "high"
      then ["Time-sensitive booking requirements"%string] else []).

Definition mem_string (x : string) (l : list string) : bool :=
  existsb (String.eqb x) l.

Definition jstrings (l : list string) : json := JList (map JStr l).

Definition analyze_travel_request (user_request : string) : json :=
  let request_lower := str_lower user_request in
  let a := classify request_lower in
  let agents := required_agents a in
  let score := complexity_score a in
  let priority := priority_of request_lower in
  let estimated_duration :=
    py_str (JInt (score * 5)) +++ "-" +++ py_str (JInt (score * 10)) +++ " minutes" in
  let planner := mem_string "travel-planner-agent" agents in
  let agent_sequence :=
    if planner then ["travel-planner-agent"%string] else [] in
  let parallel_agents :=
    filter (fun agent => negb (String.eqb agent "travel-planner-agent")) agents in
  let parallel_tasks :=
    match parallel_agents with [] => [] | _ => [jstrings parallel_agents] end in
  let dependencies :=
    fold_left (fun d agent =>
                 dict_set agent
                   (if planner then jstrings ["travel-planner-agent"%string]
                    else JList []) d)
              parallel_agents
              (if planner then [("travel-planner-agent"%string, JList [])] else []) in
  JObj [("request_type"%string, JStr (request_type a));
        ("complexity_score"%string, JInt score);
        ("priority"%string, JStr priority);
        ("required_agents"%string, jstrings agents);
        ("estimated_duration"%string, JStr estimated_duration);
        ("key_requirements"%string, jstrings (key_requirements_of request_lower));
        ("potential_challenges"%string,
         jstrings (potential_challenges_of request_lower score priority));
        ("recommended_approach"%string,
         JStr ("Coordinate " +++ py_str (JInt (Z.of_nat (List.length agents)))
               +++ " specialist agents with "
               +++ (if (1 <? Z.of_nat (List.length agent_sequence))
                    then "sequential" else "parallel")
               +++ " execution"));
        ("agent_sequence"%string, jstrings agent_sequence);
        ("parallel_tasks"%string, JList parallel_tasks);
        ("dependencies"%string, JObj dependencies)].

End Supervisor.

(** ** Car rental and hotel agents: the booking handlers *)

(** [key in v]: a key of a dict, an item of a list, a substring of a string;
    [TypeError] on a value that is no container. *)
Definition py_contains (key : string) (v : json) : outcome bool :=
  match v with
  | JObj kv => Ok (dict_mem key kv)
  | JList l =>
      Ok (existsb (fun x => match x with
                            | JStr s => String.eqb s key
                            | _ => false
                            end) l)
  | JStr s => Ok (contains key s)
  | _ => Raise (Exn TypeError
                  ("argument of type '" +++ type_name v +++ "' is not iterable"))
  end.

(** The first argument of [datetime.strptime] must be a [str]. *)
Definition strptime_argument (v : json) : exn :=
  Exn TypeError ("strptime() argument 1 must be str, not " +++ type_name v).

Section BookingAgents.
Context `{RT : Runtime}.

(** [book_car] as the handler calls it, with the two dates as they came in
    the request: the pickup date is parsed first, then the dropoff date. *)
Definition call_book_car (now : datetime) (user_id : json)
           (vid pickup_id dropoff_id : Z) (pickup_date dropoff_date : json)
           (driver_details : pydict) : db json :=
  match pickup_date, dropoff_date with
  | JStr p, JStr d =>
      book_car now user_id vid pickup_id dropoff_id p d driver_details
  | JStr p, _ =>
      match strptime p "%Y-%m-%d %H:%M:%S" with
      | Raise e => raise e
      | Ok _ => raise (strptime_argument dropoff_date)
      end
  | _, _ => raise (strptime_argument pickup_date)
  end.

Definition handle_book_car (now : datetime) (params : pydict) : db json :=
  guarded true "Car rental booking failed: "
    (match first_missing ["car_id"; "pickup_location_id"; "dropoff_location_id";
                          "pickup_date"; "dropoff_date"; "driver_details"]%string
                         params with
     | Some p => ret (missing_parameter p)
     | None =>
         car_id <- lift (py_int (dict_get params "car_id" JNull)) ;;
         pickup_location_id <-
           lift (py_int (dict_get params "pickup_location_id" JNull)) ;;
         dropoff_location_id <-
           lift (py_int (dict_get params "dropoff_location_id" JNull)) ;;
         let pickup_date := dict_get params "pickup_date" JNull in
         let dropoff_date := dict_get params "dropoff_date" JNull in
         match parse_passenger_details (dict_get params "driver_details" JNull) with
         | Raise e =>
             if is_JSONDecodeError e then
               ret (validation_error
                      "Invalid driver_details format. Must be valid JSON.")
             else raise e
         | Ok decoded =>
             licensed <- lift (py_contains "license_number" decoded) ;;
             if negb licensed then
               ret (validation_error "Driver license number is required")
             else
               driver_details <- lift (as_dict decoded) ;;
               let user_id := dict_get driver_details "user_id" (JInt 1) in
               booking_result <-
                 call_book_car now user_id car_id pickup_location_id
                               dropoff_location_id pickup_date dropoff_date
                               driver_details ;;
               booking <- lift (as_dict booking_result) ;;
               if negb (truthy (dict_get booking "success" JNull)) then
                 ret booking_result
               else
                 let reference := dict_get booking "booking_reference" JNull in
                 ret (JObj [jsuccess true;
                            ("rental_confirmation"%string,
                             JObj [("booking_id"%string,
                                    dict_get booking "booking_id" JNull);
                                   ("booking_reference"%string, reference);
                                   ("total_price"%string,
                                    dict_get booking "total_price" JNull);
                                   ("currency"%string,
                                    dict_get booking "currency" JNull);
                                   ("rental_days"%string,
                                    dict_get booking "rental_days" JNull);
                                   ("pickup_date"%string, pickup_date);
                                   ("dropoff_date"%string, dropoff_date);
                                   ("status"%string, JStr "CONFIRMED");
                                   ("booking_date"%string, JStr (isoformat now))]);
                            ("pickup_instructions"%string,
                             JObj [("location"%string,
                                    JStr "Pickup location details will be provided");
                                   ("requirements"%string,
                                    JList [JStr "Valid driver's license";
                                           JStr "Credit card in driver's name";
                                           JStr "Proof of insurance (if applicable)"]);
                                   ("contact"%string,
                                    JStr "Rental location phone number will be provided")]);
                            ("message"%string,
                             JStr ("Car rental successfully booked! Your booking reference is "
                                   +++ py_str reference))])
         end
     end).

(** [book_hotel] as the handler calls it: the check-in date is parsed first,
    then the check-out date. *)
Definition call_book_hotel (now : datetime) (user_id : json) (hid rid : Z)
           (check_in_date check_out_date : json) (guest_details : pydict)
  : db json :=
  match check_in_date, check_out_date with
  | JStr i, JStr o => book_hotel now user_id hid rid i o guest_details
  | JStr i, _ =>
      match strptime i "%Y-%m-%d" with
      | Raise e => raise e
      | Ok _ => raise (strptime_argument check_out_date)
      end
  | _, _ => raise (strptime_argument check_in_date)
  end.

Definition handle_book_hotel (now : datetime) (params : pydict) : db json :=
  guarded true "Hotel booking failed: "
    (match first_missing ["hotel_id"; "room_type_id"; "check_in_date";
                          "check_out_date"; "guest_details"]%string params with
     | Some p => ret (missing_parameter p)
     | None =>
         hid <- lift (py_int (dict_get params "hotel_id" JNull)) ;;
         rid <- lift (py_int (dict_get params "room_type_id" JNull)) ;;
         let check_in_date := dict_get params "check_in_date" JNull in
         let check_out_date := dict_get params "check_out_date" JNull in
         match parse_passenger_details (dict_get params "guest_details" JNull) with
         | Raise e =>
             if is_JSONDecodeError e then
               ret (validation_error
                      "Invalid guest_details format. Must be valid JSON.")
             else raise e
         | Ok decoded =>
             guest_details <- lift (as_dict decoded) ;;
             let user_id := dict_get guest_details "user_id" (JInt 1) in
             booking_result <-
               call_book_hotel now user_id hid rid check_in_date check_out_date
                               guest_details ;;
             booking <- lift (as_dict booking_result) ;;
             if negb (truthy (dict_get booking "success" JNull)) then
               ret booking_result
             else
               let reference := dict_get booking "booking_reference" JNull in
               ret (JObj [jsuccess true;
                          ("reservation_confirmation"%string,
                           JObj [("booking_id"%string,
                                  dict_get booking "booking_id" JNull);
                                 ("booking_reference"%string, reference);
                                 ("total_price"%string,
                                  dict_get booking "total_price" JNull);
                                 ("currency"%string,
                                  dict_get booking "currency" JNull);
                                 ("nights"%string, dict_get booking "nights" JNull);
                                 ("check_in_date"%string, check_in_date);
                                 ("check_out_date"%string, check_out_date);
                                 ("status"%string, JStr "CONFIRMED");
                                 ("booking_date"%string, JStr (isoformat now))]);
                          ("check_in_instructions"%string,
                           JObj [("check_in_time"%string, JStr "15:00");
                                 ("check_out_time"%string, JStr "11:00");
                                 ("instructions"%string,
                                  JStr "Please bring a valid ID and credit card for check-in")]);
                          ("message"%string,
                           JStr ("Hotel successfully booked! Your booking reference is "
                                 +++ py_str reference))])
         end
     end).

End BookingAgents.

(** ** Travel supervisor agent: the analysis handler *)


Section SupervisorAgent.
Context `{RT : Runtime}.


End SupervisorAgent.

(** ** TravelPlannerService

    The planner's tables stand beside the booking tables; the operation
    modelled here only reads them. *)








Section TravelPlannerService.
Context `{RT : Runtime}.




End TravelPlannerService.

(** ** Invariants of the store *)

(** Every flight has between zero and [total_seats] seats available. *)
Definition seats_in_range (st : store) : Prop :=
  forall f, In f (flights st) -> 0 <= available_seats f <= total_seats f.

(** [flight_id] is the key of the flights table. *)
Definition flight_ids_unique (st : store) : Prop :=
  NoDup (map flight_id (flights st)).

(** The row [book_flight] inserts for [n] passengers at the price [total]. *)
Definition new_flight_booking `{Runtime} (now : datetime) (user_id : json)
           (fid : Z) (passenger_details : pydict) (n : Z) (total : float)
           (st : store) : flight_booking_row :=
  FlightBookingRow (next_rowid (map fb_booking_id (flight_bookings st)))
                   user_id fid ("FL" +++ strftime now "%Y%m%d%H%M%S") n
                   total default_currency
                   (json_dumps (dict_get passenger_details "special_requests"
                                         (JList [])))
                   "CONFIRMED".


(** A list of search rows in [ORDER BY departure_time] order. *)
Definition departs_in_order (rows : list flight_result) : Prop :=
  Sorted (fun a b => String.leb (departure_time (fr_flight a))
                                (departure_time (fr_flight b)) = true)
         rows.



(** ** A reference runtime

    An instance of [Runtime] to run the model on concrete requests.  It
    follows CPython and SQLite on ASCII text, on decimal integer literals
    and on zero-padded ISO dates and timestamps, which is what the examples
    below feed it; it decodes no JSON document other than the empty object
    and the empty list, and its [json.dumps] and [str] print scalars only. *)

Module Reference.

Definition is_between (lo hi c : ascii) : bool :=
  (nat_of_ascii lo <=? nat_of_ascii c)%nat && (nat_of_ascii c <=? nat_of_ascii hi)%nat.

Definition upper_ascii (c : ascii) : ascii :=
  if is_between "a" "z" c then ascii_of_nat (nat_of_ascii c - 32) else c.

Definition lower_ascii (c : ascii) : ascii :=
  if is_between "A" "Z" c then ascii_of_nat (nat_of_ascii c + 32) else c.

Fixpoint map_string (f : ascii -> ascii) (s : string) : string :=
  match s with
  | EmptyString => EmptyString
  | String c s' => String (f c) (map_string f s')
  end.

Definition digit_of (c : ascii) : option Z :=
  if is_between "0" "9" c then Some (Z.of_nat (nat_of_ascii c - 48)) else None.

(** The value of a non-empty run of decimal digits. *)
Fixpoint digits_from (acc : Z) (s : string) : option Z :=
  match s with
  | EmptyString => Some acc
  | String c s' =>
      match digit_of c with
      | Some d => digits_from (acc * 10 + d) s'
      | None => None
      end
  end.

Definition number (s : string) : option Z :=
  match s with
  | EmptyString => None
  | _ => digits_from 0 s
  end.

Definition int_literal (s : string) : outcome Z :=
  let bad := Raise (Exn ValueError
                      ("invalid literal for int() with base 10: '" +++ s +++ "'")) in
  match s with
  | String "-" s' => match number s' with Some z => Ok (- z) | None => bad end
  | String "+" s' => match number s' with Some z => Ok z | None => bad end
  | _ => match number s with Some z => Ok z | None => bad end
  end.

Definition digit_char (d : Z) : ascii := ascii_of_nat (48 + Z.to_nat d).

(** [z] in decimal on exactly [width] digits (the low ones if it is larger). *)
Fixpoint padded (width : nat) (z : Z) (acc : string) : string :=
  match width with
  | O => acc
  | S w => padded w (z / 10) (String (digit_char (z mod 10)) acc)
  end.

(** Decimal print of an integer of at most twenty digits. *)
Fixpoint strip_zeros (s : string) : string :=
  match s with
  | EmptyString => s
  | String c s' =>
      if Ascii.eqb c "0" && negb (String.eqb s' EmptyString)
      then strip_zeros s' else s
  end.

Definition decimal (z : Z) : string :=
  if z <? 0 then "-" +++ strip_zeros (padded 20 (- z) "")
  else strip_zeros (padded 20 z "").

Definition str_of (v : json) : string :=
  match v with
  | JNull => "None"
  | JBool true => "True"
  | JBool false => "False"
  | JInt z => decimal z
  | JStr s => s
  | _ => "..."
  end.

Definition quote : ascii := ascii_of_nat 34.

Definition dumps (v : json) : string :=
  match v with
  | JNull => "null"
  | JBool true => "true"
  | JBool false => "false"
  | JInt z => decimal z
  | JStr s => String quote (s +++ String quote EmptyString)
  | JList [] => "[]"
  | JObj [] => "{}"
  | _ => "..."
  end.

Definition loads (s : string) : outcome json :=
  if String.eqb s "{}" then Ok (JObj [])
  else if String.eqb s "[]" then Ok (JList [])
  else Raise (Exn JSONDecodeError "Expecting value: line 1 column 1 (char 0)").

Definition char_at (n : nat) (s : string) (c : ascii) : bool :=
  match String.get n s with
  | Some c' => Ascii.eqb c c'
  | None => false
  end.

(** [YYYY-MM-DD] at the head of [s]. *)
Definition read_date (s : string) : option (Z * Z * Z) :=
  match number (substring 0 4 s), number (substring 5 2 s),
        number (substring 8 2 s) with
  | Some y, Some m, Some d =>
      if char_at 4 s "-" && char_at 7 s "-"
         && (1 <=? y) && (y <=? 9999) && (1 <=? m) && (m <=? 12)
         && (1 <=? d) && (d <=? days_in_month y m)
      then Some (y, m, d) else None
  | _, _, _ => None
  end.

(** [HH:MM:SS] from position 11 of [s]. *)
Definition read_time (s : string) : option (Z * Z * Z) :=
  match number (substring 11 2 s), number (substring 14 2 s),
        number (substring 17 2 s) with
  | Some h, Some mi, Some sec =>
      if char_at 10 s " " && char_at 13 s ":" && char_at 16 s ":"
         && (h <? 24) && (mi <? 60) && (sec <? 60)
      then Some (h, mi, sec) else None
  | _, _, _ => None
  end.

Definition parse_time (s fmt : string) : outcome datetime :=
  let bad := Raise (Exn ValueError
                      ("time data '" +++ s +++ "' does not match format '"
                       +++ fmt +++ "'")) in
  if String.eqb fmt "%Y-%m-%d" then
    match read_date s with
    | Some (y, m, d) =>
        if (String.length s =? 10)%nat then Ok (Datetime y m d 0 0 0 0) else bad
    | None => bad
    end
  else if String.eqb fmt "%Y-%m-%d %H:%M:%S" then
    match read_date s, read_time s with
    | Some (y, m, d), Some (h, mi, sec) =>
        if (String.length s =? 19)%nat then Ok (Datetime y m d h mi sec 0) else bad
    | _, _ => bad
    end
  else bad.

Definition iso_date (t : datetime) : string :=
  padded 4 (year t) "" +++ "-" +++ padded 2 (month t) "" +++ "-"
  +++ padded 2 (day t) "".

Definition format_time (t : datetime) (fmt : string) : string :=
  if String.eqb fmt "%Y%m%d%H%M%S" then
    padded 4 (year t) "" +++ padded 2 (month t) "" +++ padded 2 (day t) ""
    +++ padded 2 (hour t) "" +++ padded 2 (minute t) "" +++ padded 2 (second t) ""
  else fmt.

Definition iso_format (t : datetime) : string :=
  iso_date t +++ "T" +++ padded 2 (hour t) "" +++ ":" +++ padded 2 (minute t) ""
  +++ ":" +++ padded 2 (second t) ""
  +++ (if microsecond t =? 0 then "" else "." +++ padded 6 (microsecond t) "").

(** SQL [LIKE]: [%] matches any run of characters, [_] any single one, and
    letters match without regard to ASCII case. *)
Fixpoint like_match (pattern : string) : string -> bool :=
  match pattern with
  | EmptyString => fun s => match s with EmptyString => true | _ => false end
  | String "%" pattern' =>
      fix skip (s : string) : bool :=
        like_match pattern' s
        || match s with
           | EmptyString => false
           | String _ s' => skip s'
           end
  | String c pattern' =>
      fun s => match s with
               | EmptyString => false
               | String d s' =>
                   (Ascii.eqb c "_" || Ascii.eqb (upper_ascii c) (upper_ascii d))
                   && like_match pattern' s'
               end
  end.

Definition date_of (v : json) : option string :=
  match v with
  | JStr s =>
      match read_date s with
      | Some _ => Some (substring 0 10 s)
      | None => None
      end
  | _ => None
  end.

Definition text_of (v : json) : option string :=
  match v with
  | JInt z => Some (decimal z)
  | JBool b => Some (if b then "1" else "0")%string
  | _ => None
  end.

#[export] Instance runtime : Runtime := {|
  str_upper := map_string upper_ascii;
  str_lower := map_string lower_ascii;
  int_of_str := int_literal;
  py_str := str_of;
  json_loads := loads;
  json_dumps := dumps;
  json_dumps_indent := dumps;
  strptime := parse_time;
  strftime := format_time;
  isoformat := iso_format;
  sql_like := fun value pattern => like_match pattern value;
  sql_date := date_of;
  sql_text := text_of;
  default_currency := Some "USD"%string
|}.

End Reference.

(** ** Sample data *)

Module Sample.
Import Reference.

(** The double a decimal price denotes: the nearest to [cents / 100]. *)
Definition dollars (cents : Z) : float :=
  float_div (float_of_Z cents) (float_of_Z 100).

Definition jfk : airport_row := AirportRow 1 "JFK" "New York".
Definition lax : airport_row := AirportRow 2 "LAX" "Los Angeles".

Definition aa100 : flight_row :=
  FlightRow 1 "AA100" 1 1 2 "2024-03-01 08:00:00" "2024-03-01 11:30:00"
            "Boeing 737" 180 150 (dollars 29999) (Some "USD"%string).

Definition cancelled_booking : flight_booking_row :=
  FlightBookingRow 1 (JInt 1) 1 "FL20240110120000" 2 (dollars 59998)
                   (Some "USD"%string) "[]" "CANCELLED".

Definition confirmed_booking : flight_booking_row :=
  FlightBookingRow 2 (JInt 1) 1 "FL20240111093000" 3 (dollars 89997)
                   (Some "USD"%string) "[]" "CONFIRMED".

Definition plaza : hotel_row := HotelRow 1 "New York" 282.
Definition standard_king : room_type_row :=
  RoomTypeRow 1 1 (dollars 45000) (Some "USD"%string) 50.

Definition harbour_view : room_type_row :=
  RoomTypeRow 2 1 (dollars 29999) (Some "USD"%string) 20.

Definition versa : vehicle_row :=
  VehicleRow 1 (dollars 3599) (Some "USD"%string) "RENTED".

Definition corolla : vehicle_row :=
  VehicleRow 2 (dollars 7599) (Some "USD"%string) "AVAILABLE".

Definition db0 : store :=
  Store [AirlineRow 1 "AA" "American Airlines"] [jfk; lax] [aa100]
        [cancelled_booking; confirmed_booking] [plaza]
        [standard_king; harbour_view] [] [versa; corolla] [].

Definition noon : datetime := Datetime 2024 1 20 12 0 0 0.

(** The search the flight agent's own test event asks for, on a date with
    no flight. *)
Definition search_params : pydict :=
  [("origin", JStr "JFK"); ("destination", JStr "LAX");
   ("departure_date", JStr "2024-02-15"); ("passengers", JStr "2")]%string.

End Sample.

(** ** Sample requests *)

Module Scenario.
Import Reference Sample.

Definition two_passengers : pydict :=
  [("passengers", JList [JStr "Ann"; JStr "Bob"])]%string.



Definition book_flight_params (flight : string) : pydict :=
  [("flight_id", JStr flight); ("passenger_details", JObj two_passengers)]%string.


Definition driver : pydict := [("license_number", JStr "D1234567")]%string.


(** The same request for another car. *)
Definition car_params_for (car pickup_date dropoff_date : string)
           (details : pydict) : pydict :=
  [("car_id", JStr car); ("pickup_location_id", JStr "1");
   ("dropoff_location_id", JStr "1"); ("pickup_date", JStr pickup_date);
   ("dropoff_date", JStr dropoff_date); ("driver_details", JObj details)]%string.

(** A day of flights between JFK and LAX, entered in no particular order:
    three that leave JFK on 2024-03-01 with seats to spare, one that day
    with a single seat, one the day after, and the way back. *)
Definition flight_at (id : Z) (number : string) (origin destination : Z)
           (departure arrival : string) (seats : Z) : flight_row :=
  FlightRow id number 1 origin destination departure arrival "Boeing 737" 180
            seats (dollars 29999) (Some "USD"%string).

Definition db_trips : store :=
  set_flights db0
    [flight_at 1 "AA100" 1 2 "2024-03-01 17:00:00" "2024-03-01 20:30:00" 150;
     flight_at 2 "AA102" 1 2 "2024-03-01 08:00:00" "2024-03-01 11:30:00" 150;
     flight_at 3 "AA104" 1 2 "2024-03-01 12:30:00" "2024-03-01 16:00:00" 1;
     flight_at 4 "AA106" 1 2 "2024-03-01 12:45:00" "2024-03-01 16:15:00" 40;
     flight_at 5 "AA108" 1 2 "2024-03-02 09:00:00" "2024-03-02 12:30:00" 150;
     flight_at 6 "AA101" 2 1 "2024-03-05 21:00:00" "2024-03-06 05:10:00" 90;
     flight_at 7 "AA103" 2 1 "2024-03-05 06:15:00" "2024-03-05 14:25:00" 90;
     flight_at 8 "AA105" 2 1 "2024-03-01 10:00:00" "2024-03-01 18:10:00" 90].

Definition hotel_params (check_in_date check_out_date : string) : pydict :=
  [("hotel_id", JStr "1"); ("room_type_id", JStr "1");
   ("check_in_date", JStr check_in_date);
   ("check_out_date", JStr check_out_date);
   ("guest_details", JObj [("guests", JList [JStr "Ann"])])]%string.

End Scenario.

(** * Properties *)

(** ** The ordinals count the days of the calendar *)

Lemma days_before_next_year (y : Z) :
  days_before_year (y + 1)
  = days_before_year y + (if is_leap y then 366 else 365).
Proof.
  unfold days_before_year, is_leap.
  replace (y + 1 - 1) with y by lia.
  destruct (y mod 4 =? 0) eqn:E4, (y mod 100 =? 0) eqn:E100,
           (y mod 400 =? 0) eqn:E400; simpl;
    rewrite ?Z.eqb_eq, ?Z.eqb_neq in *; Z.div_mod_to_equations; lia.
Qed.

Lemma days_in_month_positive (y m : Z) : 28 <= days_in_month y m <= 31.
Proof.
  unfold days_in_month.
  repeat match goal with
         | |- context [match ?x with _ => _ end] => destruct x
         end; lia.
Qed.

Lemma calendar_next_day (d : date) : calendar_date d -> calendar_date (next_day d).
Proof.
  destruct d as [y m dd]. unfold calendar_date, next_day; simpl.
  intros [Hm Hd].
  destruct (dd <? days_in_month y m) eqn:E; simpl.
  - apply Z.ltb_lt in E. lia.
  - destruct (m <? 12) eqn:E12; simpl.
    + apply Z.ltb_lt in E12. pose proof (days_in_month_positive y (m + 1)). lia.
    + lia.
Qed.

Lemma toordinal_next_day (d : date) :
  calendar_date d -> toordinal (next_day d) = toordinal d + 1.
Proof.
  destruct d as [y m dd]. unfold calendar_date, next_day, toordinal, ymd2ord; simpl.
  intros [Hm Hd].
  destruct (dd <? days_in_month y m) eqn:E; simpl; [lia|].
  apply Z.ltb_ge in E. assert (dd = days_in_month y m) by lia. subst dd.
  destruct (m <? 12) eqn:E12; simpl.
  - apply Z.ltb_lt in E12.
    assert (Hcases : m = 1 \/ m = 2 \/ m = 3 \/ m = 4 \/ m = 5 \/ m = 6 \/ m = 7
                     \/ m = 8 \/ m = 9 \/ m = 10 \/ m = 11) by lia.
    unfold days_before_month, days_in_month.
    repeat (destruct Hcases as [-> | Hcases]); try subst m; simpl;
      destruct (is_leap y); simpl; lia.
  - apply Z.ltb_ge in E12. assert (m = 12) by lia. subst m.
    rewrite days_before_next_year. unfold days_before_month; simpl.
    destruct (is_leap y); simpl; lia.
Qed.

Lemma calendar_add_days (k : nat) (d : date) :
  calendar_date d -> calendar_date (add_days k d).
Proof.
  revert d. induction k as [|k IH]; intros d Hd; simpl; [exact Hd|].
  apply IH, calendar_next_day, Hd.
Qed.

Lemma toordinal_add_days (k : nat) (d : date) :
  calendar_date d -> toordinal (add_days k d) = toordinal d + Z.of_nat k.
Proof.
  revert d. induction k as [|k IH]; intros d Hd.
  - simpl. lia.
  - cbn [add_days]. rewrite IH by (apply calendar_next_day, Hd).
    rewrite toordinal_next_day by exact Hd. lia.
Qed.

(** The difference of two ordinals is the number of days between the two
    dates. *)
Lemma days_from_toordinal (a b : date) (n : Z) :
  calendar_date a -> calendar_date b -> days_from a b n ->
  toordinal b - toordinal a = n.
Proof.
  intros Ha Hb [[Hn ->] | [Hn ->]].
  - rewrite toordinal_add_days by exact Ha. lia.
  - rewrite toordinal_add_days by exact Hb. lia.
Qed.

Lemma toordinal_range (d : date) : valid_date d -> 1 <= toordinal d <= 3652060.
Proof.
  destruct d as [y m dd]. unfold valid_date, calendar_date, toordinal, ymd2ord; simpl.
  intros [Hy [Hm Hd]].
  pose proof (days_in_month_positive y m) as Hdim.
  assert (Hbm : 0 <= days_before_month y m <= 335).
  { unfold days_before_month.
    assert (Hcases : m = 1 \/ m = 2 \/ m = 3 \/ m = 4 \/ m = 5 \/ m = 6 \/ m = 7
                     \/ m = 8 \/ m = 9 \/ m = 10 \/ m = 11 \/ m = 12) by lia.
    repeat (destruct Hcases as [-> | Hcases]); try subst m; simpl;
      destruct (is_leap y); simpl; lia. }
  assert (Hby : 0 <= days_before_year y <= 3651694).
  { unfold days_before_year. Z.div_mod_to_equations. lia. }
  lia.
Qed.

Lemma to_microseconds_split (t : datetime) :
  to_microseconds t = toordinal (to_date t) * US_PER_DAY + time_of_day t.
Proof.
  unfold to_microseconds, toordinal, to_date, time_of_day, US_PER_DAY; simpl. lia.
Qed.

Lemma time_of_day_range (t : datetime) :
  valid_time t -> 0 <= time_of_day t < US_PER_DAY.
Proof.
  unfold valid_time, time_of_day, US_PER_DAY. intros (Hh & Hm & Hs & Hu). lia.
Qed.

(** The day component of [b - a] is the number of whole days from [a] to
    [b]. *)
Lemma datetime_diff_whole_days (a b : datetime) (n : Z) :
  calendar_date (to_date a) -> calendar_date (to_date b) ->
  valid_time a -> valid_time b ->
  days_from (to_date a) (to_date b) n ->
  datetime_diff_days b a = whole_days n a b.
Proof.
  intros Ha Hb Hta Htb Hn.
  pose proof (days_from_toordinal _ _ _ Ha Hb Hn) as Hord.
  pose proof (time_of_day_range a Hta) as Hra.
  pose proof (time_of_day_range b Htb) as Hrb.
  unfold datetime_diff_days, whole_days.
  rewrite !to_microseconds_split.
  assert (Hday : 0 < US_PER_DAY) by (unfold US_PER_DAY; lia).
  destruct (time_of_day b <? time_of_day a) eqn:E.
  - apply Z.ltb_lt in E. symmetry.
    apply (Z.div_unique_pos _ _ _ (US_PER_DAY + time_of_day b - time_of_day a)); nia.
  - apply Z.ltb_ge in E. symmetry.
    apply (Z.div_unique_pos _ _ _ (time_of_day b - time_of_day a)); nia.
Qed.

(** ** Binding values and multiplying doubles *)

(** The day component of the difference of two datetimes fits an
    [INTEGER]. *)
Lemma datetime_diff_days_range (a b : datetime) :
  valid_datetime a -> valid_datetime b ->
  -3652061 <= datetime_diff_days b a <= 3652061.
Proof.
  intros [Hda Hta] [Hdb Htb].
  pose proof (toordinal_range _ Hda). pose proof (toordinal_range _ Hdb).
  pose proof (time_of_day_range a Hta). pose proof (time_of_day_range b Htb).
  unfold datetime_diff_days. rewrite !to_microseconds_split.
  assert (Hday : 0 < US_PER_DAY) by (unfold US_PER_DAY; lia).
  split.
  - apply Z.div_le_lower_bound; [exact Hday|]. nia.
  - apply Z.div_le_upper_bound; [exact Hday|]. nia.
Qed.

Lemma is_int64_intro (z : Z) :
  -9223372036854775808 <= z < 9223372036854775808 -> is_int64 z = true.
Proof.
  intros H. unfold is_int64. apply andb_true_iff.
  split; [apply Z.leb_le|apply Z.ltb_lt]; lia.
Qed.

Lemma bind_param_bindable (position : string) (v : json) (st : store) :
  sql_bindable v = true -> bind_param position v st = (Ok tt, st).
Proof.
  unfold bind_param. destruct v; simpl; intros H; try reflexivity;
    try discriminate H.
  rewrite H. reflexivity.
Qed.

Lemma bind_param_int (position : string) (z : Z) (st : store) :
  is_int64 z = true -> bind_param position (JInt z) st = (Ok tt, st).
Proof. intros H. apply bind_param_bindable. exact H. Qed.

(** Binding a value either goes through or raises, and never writes. *)
Lemma bind_param_outcome (position : string) (v : json) (st : store) :
  bind_param position v st = (Ok tt, st)
  \/ exists e, bind_param position v st = (Raise e, st).
Proof.
  unfold bind_param.
  destruct v; simpl; try (left; reflexivity); try (right; eexists; reflexivity).
  destruct (is_int64 z); [left|right; eexists]; reflexivity.
Qed.



Lemma float_mul_no_passengers (x : float) :
  float_is_finite x = true ->
  py_mul x (JInt 0) = Ok (float_mul x (float_of_Z 0))
  /\ float_is_zero (float_mul x (float_of_Z 0)) = true.
Proof.
  destruct x; simpl; intros H; try discriminate H; split; reflexivity.
Qed.

(** ** An integer of 64 bits has a double *)

Lemma digits2_pos_size (p : positive) : digits2_pos p = Pos.size p.
Proof. induction p; simpl; congruence. Qed.

Lemma Zdigits2_log2 (p : positive) : Zdigits2 (Zpos p) = Z.log2 (Zpos p) + 1.
Proof.
  unfold Zdigits2. rewrite digits2_pos_size.
  destruct p; simpl; lia.
Qed.

(** A number below [2 ^ k] has at most [k] binary digits. *)
Lemma Zdigits2_bound (a k : Z) : 0 <= a < 2 ^ k -> 0 <= k -> Zdigits2 a <= k.
Proof.
  intros [Ha Hk] Hk0. destruct a as [|p|p]; [simpl; lia| |lia].
  rewrite Zdigits2_log2.
  assert (Z.log2 (Zpos p) < k) by (apply Z.log2_lt_pow2; lia). lia.
Qed.

Lemma shr_1_bound (mrs : shr_record) :
  0 <= shr_m mrs -> 0 <= shr_m (shr_1 mrs) <= shr_m mrs.
Proof.
  destruct mrs as [m r s]. simpl. intros Hm.
  destruct m as [|[p|p|]|p]; simpl; lia.
Qed.

Lemma iter_shr_1_bound (p : positive) (mrs : shr_record) :
  0 <= shr_m mrs -> 0 <= shr_m (iter_pos shr_1 p mrs) <= shr_m mrs.
Proof.
  revert mrs. induction p as [p IH|p IH|]; intros mrs Hm; simpl.
  - pose proof (shr_1_bound mrs Hm).
    pose proof (IH (shr_1 mrs) ltac:(lia)).
    pose proof (IH (iter_pos shr_1 p (shr_1 mrs)) ltac:(lia)). lia.
  - pose proof (IH mrs Hm).
    pose proof (IH (iter_pos shr_1 p mrs) ltac:(lia)). lia.
  - apply shr_1_bound, Hm.
Qed.

(** What rounding to the format leaves of a mantissa and an exponent. *)
Lemma shr_fexp_bound (m e : Z) (l : location) :
  0 <= m ->
  let (mrs, e') := shr_fexp prec emax m e l in
  0 <= shr_m mrs <= m /\ e' = Z.max e (fexp prec emax (Zdigits2 m + e)).
Proof.
  intros Hm. unfold shr_fexp, shr.
  assert (Hrec : shr_m (shr_record_of_loc m l) = m)
    by (destruct l as [|[]]; reflexivity).
  destruct (fexp prec emax (Zdigits2 m + e) - e) as [|p|p] eqn:E.
  - rewrite Hrec. lia.
  - pose proof (iter_shr_1_bound p (shr_record_of_loc m l)) as H.
    rewrite Hrec in H. specialize (H Hm). lia.
  - rewrite Hrec. lia.
Qed.

Lemma round_nearest_even_bound (m : Z) (l : location) :
  0 <= m -> 0 <= round_nearest_even m l <= m + 1.
Proof.
  intros Hm. unfold round_nearest_even.
  destruct l as [|[]]; try destruct (Z.even m); lia.
Qed.

Lemma fexp_le (x b : Z) : x <= b + 53 -> -1074 <= b -> fexp prec emax x <= b.
Proof. unfold fexp, emin, prec, emax. lia. Qed.

(** Rounding a mantissa below [2 ^ 117] at an exponent of at most 0 does
    not overflow. *)
Lemma binary_round_aux_finite (s : bool) (m e : Z) (l : location) :
  0 <= m < 2 ^ 117 -> e <= 0 ->
  forall s', binary_round_aux prec emax s m e l <> S754_infinity s'.
Proof.
  intros [Hm0 Hm] He s'. unfold binary_round_aux.
  pose proof (shr_fexp_bound m e l Hm0) as H1.
  destruct (shr_fexp prec emax m e l) as [mrs' e'].
  destruct H1 as [Hm' He'].
  pose proof (round_nearest_even_bound (shr_m mrs') (loc_of_shr_record mrs')
                ltac:(lia)) as Hr.
  set (m1 := round_nearest_even (shr_m mrs') (loc_of_shr_record mrs')) in *.
  pose proof (shr_fexp_bound m1 e' loc_Exact ltac:(lia)) as H2.
  destruct (shr_fexp prec emax m1 e' loc_Exact) as [mrs'' e''].
  destruct H2 as [Hm'' He''].
  assert (Hd : Zdigits2 m <= 117) by (apply Zdigits2_bound; lia).
  assert (Hd1 : Zdigits2 m1 <= 118).
  { apply Zdigits2_bound; [|lia].
    change (2 ^ 118) with (2 * 2 ^ 117). lia. }
  assert (Hb' : e' <= 64).
  { rewrite He'. apply Z.max_lub; [lia|]. apply fexp_le; lia. }
  assert (Hb'' : e'' <= 971).
  { rewrite He''. apply Z.max_lub; [lia|]. apply fexp_le; lia. }
  destruct (shr_m mrs''); try discriminate.
  apply Z.leb_le in Hb''. change (emax - prec) with 971. rewrite Hb''. discriminate.
Qed.

Lemma shl_align_bound (m : positive) (k : Z) :
  Zpos m < 2 ^ 64 -> -53 <= k ->
  let (mz, ez) := shl_align m 0 k in
  Zpos mz < 2 ^ 117 /\ ez <= 0.
Proof.
  intros Hm Hk. unfold shl_align.
  destruct (k - 0) as [|d|d] eqn:E; [lia|lia|].
  split; [|lia].
  change (Pos.iter xO m d) with (shift_pos d m).
  rewrite shift_pos_correct.
  change (Zpower_pos 2 d) with (2 ^ Zpos d).
  assert (Hpow : 0 < 2 ^ Zpos d <= 2 ^ 53).
  { split; [apply Z.pow_pos_nonneg; lia|apply Z.pow_le_mono_r; lia]. }
  change (2 ^ 117) with (2 ^ 53 * 2 ^ 64).
  assert (2 ^ Zpos d * Zpos m <= 2 ^ 53 * Zpos m)
    by (apply Z.mul_le_mono_nonneg_r; lia).
  assert (2 ^ 53 * Zpos m < 2 ^ 53 * 2 ^ 64)
    by (apply Z.mul_lt_mono_pos_l; lia).
  lia.
Qed.

(** Binding goes through exactly for the values the driver can bind. *)
Lemma bind_param_cases (position : string) (v : json) (st : store) :
  (sql_bindable v = true /\ bind_param position v st = (Ok tt, st))
  \/ (sql_bindable v = false
      /\ exists e, bind_param position v st = (Raise e, st)).
Proof.
  unfold bind_param.
  destruct v; simpl; try (left; split; reflexivity);
    try (right; split; [reflexivity|eexists; reflexivity]).
  destruct (is_int64 z); [left|right]; split; try reflexivity.
  eexists; reflexivity.
Qed.

Lemma float_of_Z_finite (z : Z) :
  is_int64 z = true -> forall s, float_of_Z z <> S754_infinity s.
Proof.
  unfold is_int64. intros H s. apply andb_true_iff in H.
  destruct H as [Hlo Hhi]. apply Z.leb_le in Hlo. apply Z.ltb_lt in Hhi.
  unfold float_of_Z, binary_normalize.
  assert (Hround : forall sign m, Zpos m < 2 ^ 64 ->
                     binary_round prec emax sign m 0 <> S754_infinity s).
  { intros sign m Hm. unfold binary_round.
    assert (Hk : -53 <= fexp prec emax (Zpos (digits2_pos m) + 0)).
    { unfold fexp, emin, prec, emax. lia. }
    pose proof (shl_align_bound m _ Hm Hk) as Hal.
    destruct (shl_align m 0 _) as [mz ez]. destruct Hal as [Hmz Hez].
    apply binary_round_aux_finite; lia. }
  destruct z as [|m|m]; [discriminate| |]; apply Hround; lia.
Qed.

(** [float(z)] succeeds on every integer an [INTEGER] cell can hold. *)
Lemma float_of_int_int64 (z : Z) :
  is_int64 z = true -> float_of_int z = Ok (float_of_Z z).
Proof.
  intros H. unfold float_of_int.
  pose proof (float_of_Z_finite z H) as Hfin.
  destruct (float_of_Z z) as [| s | |]; try reflexivity.
  exfalso. exact (Hfin s eq_refl).
Qed.

Lemma py_mul_int64 (x : float) (z : Z) :
  is_int64 z = true -> py_mul x (JInt z) = Ok (float_mul x (float_of_Z z)).
Proof.
  intros H. unfold py_mul. rewrite float_of_int_int64 by exact H. reflexivity.
Qed.

(** ** Statements commute with the updates *)

Section StoreLemmas.
Context `{RT : Runtime}.

Lemma select_flight_add_available_seats (delta fid : Z) (st : store) :
  select_flight fid (add_available_seats delta fid st)
  = map (fun f => set_available_seats f (available_seats f + delta))
        (select_flight fid st).
Proof.
  unfold select_flight, add_available_seats; simpl.
  induction (flights st) as [|f fs IH]; simpl; [reflexivity|].
  destruct (flight_id f =? fid) eqn:E; simpl; rewrite ?E, IH; reflexivity.
Qed.

Lemma select_flight_set_flight_bookings (fid : Z) (st : store) bs :
  select_flight fid (set_flight_bookings st bs) = select_flight fid st.
Proof. reflexivity. Qed.

Lemma add_zero_seats (fid : Z) (st : store) :
  add_available_seats (- 0) fid st = st.
Proof.
  unfold add_available_seats.
  rewrite (map_ext _ (fun f => f)), map_id; [destruct st; reflexivity|].
  intros f. destruct (flight_id f =? fid); [|reflexivity].
  destruct f; unfold set_available_seats; simpl. f_equal. lia.
Qed.




Lemma select_flight_id (fid : Z) (st : store) flight others :
  select_flight fid st = flight :: others -> flight_id flight = fid.
Proof.
  intros Hsel.
  assert (Hin : In flight (select_flight fid st)) by (rewrite Hsel; left; reflexivity).
  apply filter_In in Hin. apply Z.eqb_eq. tauto.
Qed.


End StoreLemmas.

(** ** Flight bookings *)

Section FlightProperties.
Context `{RT : Runtime}.


(** C10.  On an existing flight with a non-negative seat count and a finite
    price, a request whose passenger list is empty or absent succeeds: a
    CONFIRMED booking row with passenger count 0 and a total price of zero
    is added, and the flights table, hence the flight's seat count, is
    unchanged. *)
Theorem book_flight_without_passengers
        (now : datetime) (user_id : json) (fid : Z) (passenger_details : pydict)
        (st : store) (flight : flight_row) (others : list flight_row) :
  is_int64 fid = true ->
  select_flight fid st = flight :: others ->
  0 <= available_seats flight ->
  float_is_finite (base_price flight) = true ->
  lookup "passengers" passenger_details = None
  \/ lookup "passengers" passenger_details = Some (JList []) ->
  sql_bindable user_id = true ->
  exists (booking : flight_booking_row) (reported : pydict) (st' : store),
    book_flight now user_id fid passenger_details st = (Ok (JObj reported), st')
    /\ lookup "success" reported = Some (JBool true)
    /\ flight_bookings st' = flight_bookings st ++ [booking]
    /\ lookup "total_price" reported = Some (JFloat (fb_total_price booking))
    /\ fb_flight_id booking = fid
    /\ fb_passenger_count booking = 0
    /\ float_is_zero (fb_total_price booking) = true
    /\ fb_booking_status booking = "CONFIRMED"%string
    /\ flights st' = flights st
    /\ select_flight fid st' = flight :: others.
Proof.
  intros Hfid Hsel Hseats Hprice Hnone Hbind.
  assert (Hlen : py_len (dict_get passenger_details "passengers" (JList [])) = Ok 0).
  { unfold dict_get. destruct Hnone as [-> | ->]; reflexivity. }
  destruct (float_mul_no_passengers _ Hprice) as [Hmul Hzero].
  unfold book_flight, bind, execute_query, lift.
  rewrite (bind_param_int "1" fid st Hfid), Hsel, Hlen.
  assert (Hcap : (available_seats flight <? 0) = false) by (apply Z.ltb_ge; lia).
  rewrite Hcap, Hmul.
  rewrite (bind_param_bindable "1" user_id st Hbind).
  rewrite (bind_param_int "4" 0 _ eq_refl).
  unfold ret, execute_insert, execute_update, insert_flight_booking.
  rewrite add_zero_seats.
  eexists _, _, _.
  split; [reflexivity|].
  repeat (split; [reflexivity|]).
  split; [exact Hzero|].
  repeat (split; [reflexivity|]).
  exact Hsel.
Qed.


End FlightProperties.

(** ** Hotel bookings *)

Section HotelProperties.
Context `{RT : Runtime}.

(** What a hotel booking on an existing room type comes to. *)
Lemma book_hotel_existing
      (now : datetime) (user_id : json) (hid rid : Z)
      (check_in_date check_out_date : string) (guest_details : pydict)
      (st : store) (room : room_type_row) (others : list room_type_row)
      (check_in check_out : datetime) (guest_count : Z) (total : float) :
  strptime check_in_date "%Y-%m-%d" = Ok check_in ->
  strptime check_out_date "%Y-%m-%d" = Ok check_out ->
  is_int64 rid = true ->
  select_room_type rid st = room :: others ->
  py_len (dict_get guest_details "guests" (JList [])) = Ok guest_count ->
  let nights := date_diff_days (to_date check_out) (to_date check_in) in
  is_int64 nights = true ->
  py_mul (float_mul (base_price_per_night room) (float_of_Z nights))
         (dict_get guest_details "room_count" (JInt 1)) = Ok total ->
  sql_bindable user_id = true ->
  is_int64 hid = true ->
  is_int64 guest_count = true ->
  sql_bindable (dict_get guest_details "room_count" (JInt 1)) = true ->
  let booking_id := next_rowid (map hb_booking_id (hotel_bookings st)) in
  let booking_ref := "HT" +++ strftime now "%Y%m%d%H%M%S" in
  book_hotel now user_id hid rid check_in_date check_out_date guest_details st
  = (Ok (JObj [jsuccess true;
               ("booking_id"%string, JInt booking_id);
               ("booking_reference"%string, JStr booking_ref);
               ("total_price"%string, JFloat total);
               ("currency"%string, json_of_text (rt_currency room));
               ("nights"%string, JInt nights)]),
     set_hotel_bookings st
       (hotel_bookings st ++
        [HotelBookingRow booking_id user_id hid rid booking_ref check_in_date
                         check_out_date guest_count
                         (dict_get guest_details "room_count" (JInt 1)) nights
                         (base_price_per_night room) total
                         (json_dumps (dict_get guest_details "special_requests"
                                               (JList [])))
                         (json_dumps (dict_get guest_details "guests" (JList [])))
                         "CONFIRMED"])).
Proof.
  intros Hin Hout Hrid Hroom Hguests nights Hnights Htotal Hu Hhid Hgc Hrc
         booking_id booking_ref.
  unfold book_hotel, bind, lift, execute_query.
  rewrite Hin, Hout, (bind_param_int "1" rid st Hrid), Hroom, Hguests.
  fold nights. rewrite (py_mul_int64 _ _ Hnights), Htotal.
  rewrite (bind_param_bindable "1" user_id st Hu), (bind_param_int "2" hid st Hhid),
    (bind_param_int "7" guest_count st Hgc), (bind_param_bindable "8" _ st Hrc),
    (bind_param_int "9" nights st Hnights).
  reflexivity.
Qed.

(** The nights of a stay between two dates [datetime.date] can hold fit an
    [INTEGER]. *)
Lemma date_diff_days_int64 (a b : date) :
  valid_date a -> valid_date b -> is_int64 (date_diff_days b a) = true.
Proof.
  intros Ha Hb. pose proof (toordinal_range a Ha). pose proof (toordinal_range b Hb).
  apply is_int64_intro. unfold date_diff_days. lia.
Qed.

(** C4, as the code has it.  For a hotel booking whose room type exists and
    whose two dates parse (with a countable guest list, a room count that
    multiplies a float, and values the driver can bind): the nights are the
    days from the check-in date to the check-out date, counted on the
    calendar; the total price, reported and stored, is the double
    [(base_price_per_night * nights) * room_count], each of the two
    products rounded to the nearest double; one CONFIRMED row is added to
    the hotel bookings, and the hotels and room types tables, with their
    room counters, are left as they were. *)
Theorem book_hotel_price_and_inventory
        (now : datetime) (user_id : json) (hid rid : Z)
        (check_in_date check_out_date : string) (guest_details : pydict)
        (st : store) (room : room_type_row) (others : list room_type_row)
        (check_in check_out : datetime) (guest_count nights : Z)
        (total : float) :
  strptime check_in_date "%Y-%m-%d" = Ok check_in ->
  strptime check_out_date "%Y-%m-%d" = Ok check_out ->
  valid_date (to_date check_in) ->
  valid_date (to_date check_out) ->
  days_from (to_date check_in) (to_date check_out) nights ->
  is_int64 rid = true ->
  select_room_type rid st = room :: others ->
  py_len (dict_get guest_details "guests" (JList [])) = Ok guest_count ->
  py_mul (float_mul (base_price_per_night room) (float_of_Z nights))
         (dict_get guest_details "room_count" (JInt 1)) = Ok total ->
  sql_bindable user_id = true ->
  is_int64 hid = true ->
  is_int64 guest_count = true ->
  sql_bindable (dict_get guest_details "room_count" (JInt 1)) = true ->
  exists (booking : hotel_booking_row) (reported : pydict) (st' : store),
    book_hotel now user_id hid rid check_in_date check_out_date guest_details st
    = (Ok (JObj reported), st')
    /\ lookup "success" reported = Some (JBool true)
    /\ lookup "nights" reported = Some (JInt nights)
    /\ lookup "total_price" reported = Some (JFloat total)
    /\ hotel_bookings st' = hotel_bookings st ++ [booking]
    /\ hb_total_nights booking = nights
    /\ hb_total_price booking = total
    /\ hb_booking_status booking = "CONFIRMED"%string
    /\ room_types st' = room_types st
    /\ hotels st' = hotels st.
Proof.
  intros Hin Hout Hvi Hvo Hdays Hrid Hroom Hguests Htotal Hu Hhid Hgc Hrc.
  assert (Hnights : date_diff_days (to_date check_out) (to_date check_in) = nights).
  { unfold date_diff_days.
    apply days_from_toordinal; [apply Hvi|apply Hvo|exact Hdays]. }
  assert (Hrange : is_int64 nights = true).
  { rewrite <- Hnights. apply date_diff_days_int64; assumption. }
  rewrite (book_hotel_existing now user_id hid rid check_in_date check_out_date
             guest_details st room others check_in check_out guest_count total);
    rewrite ?Hnights; try assumption.
  eexists _, _, _. split; [reflexivity|].
  repeat (split; [reflexivity|]). reflexivity.
Qed.

(** Whatever the request and whatever its outcome, [book_hotel] leaves the
    hotels and the room types untouched. *)
Lemma book_hotel_frame
      (now : datetime) (user_id : json) (hid rid : Z)
      (check_in_date check_out_date : string) (guest_details : pydict)
      (st : store) :
  let st' := snd (book_hotel now user_id hid rid check_in_date check_out_date
                             guest_details st) in
  room_types st' = room_types st /\ hotels st' = hotels st.
Proof.
  unfold book_hotel, bind, lift, execute_query, ret, raise,
    execute_insert, insert_hotel_booking.
  destruct (strptime check_in_date _); [|split; reflexivity].
  destruct (strptime check_out_date _); [|split; reflexivity].
  destruct (bind_param_outcome "1" (JInt rid) st) as [-> | [e ->]];
    [|split; reflexivity].
  destruct (select_room_type rid st); [split; reflexivity|].
  destruct (py_len _) as [guest_count|]; [|split; reflexivity].
  destruct (py_mul _ _); [|split; reflexivity].
  destruct (py_mul _ _); [|split; reflexivity].
  destruct (bind_param_outcome "1" user_id st) as [-> | [e ->]];
    [|split; reflexivity].
  destruct (bind_param_outcome "2" (JInt hid) st) as [-> | [e ->]];
    [|split; reflexivity].
  destruct (bind_param_outcome "7" (JInt guest_count) st) as [-> | [e ->]];
    [|split; reflexivity].
  destruct (bind_param_outcome "8" (dict_get guest_details "room_count" (JInt 1)) st)
    as [-> | [e ->]]; [|split; reflexivity].
  match goal with
  | |- context [bind_param "9" ?v st] =>
      destruct (bind_param_outcome "9" v st) as [-> | [e ->]]
  end; split; reflexivity.
Qed.

End HotelProperties.

(** ** Car rentals *)

Section CarProperties.
Context `{RT : Runtime}.

Lemma select_vehicle_mark_rented (vid : Z) (st : store) :
  select_vehicle vid (mark_rented vid st)
  = map (fun v => set_availability_status v "RENTED") (select_vehicle vid st).
Proof.
  unfold select_vehicle, mark_rented; simpl.
  induction (available_vehicles st) as [|v vs IH]; simpl; [reflexivity|].
  destruct (vehicle_id v =? vid) eqn:E; simpl; rewrite ?E, IH; reflexivity.
Qed.

(** The rental days of two timestamps [datetime] can hold fit an
    [INTEGER]. *)
Lemma rental_days_int64 (pickup dropoff : datetime) :
  valid_datetime pickup -> valid_datetime dropoff ->
  is_int64 (Z.max 1 (datetime_diff_days dropoff pickup)) = true.
Proof.
  intros Hp Hd. pose proof (datetime_diff_days_range pickup dropoff Hp Hd).
  apply is_int64_intro. lia.
Qed.

(** What a car booking on an existing vehicle comes to, once the two
    timestamps are parsed and the driver can bind every value. *)
Lemma book_car_existing
      (now : datetime) (user_id : json) (vid pickup_id dropoff_id : Z)
      (pickup_date dropoff_date : string) (driver_details : pydict)
      (st : store) (vehicle : vehicle_row) (others : list vehicle_row)
      (pickup dropoff : datetime) :
  strptime pickup_date "%Y-%m-%d %H:%M:%S" = Ok pickup ->
  strptime dropoff_date "%Y-%m-%d %H:%M:%S" = Ok dropoff ->
  valid_datetime pickup ->
  valid_datetime dropoff ->
  is_int64 vid = true ->
  select_vehicle vid st = vehicle :: others ->
  sql_bindable user_id = true ->
  is_int64 pickup_id = true ->
  is_int64 dropoff_id = true ->
  sql_bindable (dict_get driver_details "license_number" JNull) = true ->
  let rental_days := Z.max 1 (datetime_diff_days dropoff pickup) in
  let total := float_mul (daily_rate vehicle) (float_of_Z rental_days) in
  let booking_id := next_rowid (map cb_booking_id (car_rental_bookings st)) in
  let booking_ref := "CR" +++ strftime now "%Y%m%d%H%M%S" in
  book_car now user_id vid pickup_id dropoff_id pickup_date dropoff_date
           driver_details st
  = (Ok (JObj [jsuccess true;
               ("booking_id"%string, JInt booking_id);
               ("booking_reference"%string, JStr booking_ref);
               ("total_price"%string, JFloat total);
               ("currency"%string, json_of_text (v_currency vehicle));
               ("rental_days"%string, JInt rental_days)]),
     mark_rented vid
       (set_car_rental_bookings st
          (car_rental_bookings st ++
           [CarBookingRow booking_id user_id vid pickup_id dropoff_id booking_ref
                          pickup_date dropoff_date rental_days
                          (daily_rate vehicle) total
                          (dict_get driver_details "license_number" JNull)
                          "CONFIRMED"]))).
Proof.
  intros Hp Hd Hvp Hvd Hvid Hv Hu Hfrom Hto Hl rental_days total booking_id
         booking_ref.
  pose proof (rental_days_int64 pickup dropoff Hvp Hvd) as Hdays.
  fold rental_days in Hdays.
  unfold book_car, bind, lift, execute_query.
  rewrite Hp, Hd, (bind_param_int "1" vid st Hvid), Hv.
  fold rental_days. rewrite (py_mul_int64 _ _ Hdays).
  rewrite (bind_param_bindable "1" user_id st Hu),
    (bind_param_int "3" pickup_id st Hfrom), (bind_param_int "4" dropoff_id st Hto),
    (bind_param_int "8" rental_days st Hdays), (bind_param_bindable "11" _ st Hl).
  reflexivity.
Qed.

(** The rental days, counted on the calendar: one at least, and otherwise
    the whole days from the pickup to the dropoff. *)
Lemma rental_days_whole_days (pickup dropoff : datetime) (n : Z) :
  valid_datetime pickup -> valid_datetime dropoff ->
  days_from (to_date pickup) (to_date dropoff) n ->
  Z.max 1 (datetime_diff_days dropoff pickup)
  = Z.max 1 (whole_days n pickup dropoff).
Proof.
  intros [[_ Hcp] Htp] [[_ Hcd] Htd] Hn.
  rewrite (datetime_diff_whole_days pickup dropoff n); auto.
Qed.

(** C5.  For a car booking on an existing vehicle whose pickup and dropoff
    timestamps parse (and whose values the driver can bind): with [n] the
    days from the pickup date to the dropoff date, counted on the calendar,
    the elapsed whole days are [n], less one when the dropoff falls earlier
    in its day than the pickup in its own; the rental days are the larger
    of 1 and that number; the total price, reported and stored, is
    [daily_rate * rental_days], the product of the two as doubles.  In
    particular a pickup on 2024-02-15 10:00:00 and a dropoff on 2024-02-18
    10:00:00 give 3 rental days and a total of [daily_rate * 3]. *)
Theorem book_car_rental_days
        (now : datetime) (user_id : json) (vid pickup_id dropoff_id : Z)
        (pickup_date dropoff_date : string) (driver_details : pydict)
        (st : store) (vehicle : vehicle_row) (others : list vehicle_row)
        (pickup dropoff : datetime) (n : Z) :
  strptime pickup_date "%Y-%m-%d %H:%M:%S" = Ok pickup ->
  strptime dropoff_date "%Y-%m-%d %H:%M:%S" = Ok dropoff ->
  valid_datetime pickup ->
  valid_datetime dropoff ->
  days_from (to_date pickup) (to_date dropoff) n ->
  is_int64 vid = true ->
  select_vehicle vid st = vehicle :: others ->
  sql_bindable user_id = true ->
  is_int64 pickup_id = true ->
  is_int64 dropoff_id = true ->
  sql_bindable (dict_get driver_details "license_number" JNull) = true ->
  let rental_days := Z.max 1 (whole_days n pickup dropoff) in
  let total := float_mul (daily_rate vehicle) (float_of_Z rental_days) in
  (exists (booking : car_booking_row) (reported : pydict) (st' : store),
      book_car now user_id vid pickup_id dropoff_id pickup_date dropoff_date
               driver_details st
      = (Ok (JObj reported), st')
      /\ lookup "success" reported = Some (JBool true)
      /\ lookup "rental_days" reported = Some (JInt rental_days)
      /\ lookup "total_price" reported = Some (JFloat total)
      /\ car_rental_bookings st' = car_rental_bookings st ++ [booking]
      /\ cb_rental_days booking = rental_days
      /\ cb_total_price booking = total)
  /\ (pickup = Datetime 2024 2 15 10 0 0 0 ->
      dropoff = Datetime 2024 2 18 10 0 0 0 ->
      n = 3 /\ rental_days = 3
      /\ total = float_mul (daily_rate vehicle) (float_of_Z 3)).
Proof.
  intros Hp Hd Hvp Hvd Hn Hvid Hv Hu Hfrom Hto Hl rental_days total.
  pose proof (rental_days_whole_days pickup dropoff n Hvp Hvd Hn) as Hdays.
  fold rental_days in Hdays.
  split.
  - rewrite (book_car_existing now user_id vid pickup_id dropoff_id pickup_date
               dropoff_date driver_details st vehicle others pickup dropoff)
      by assumption.
    rewrite Hdays. fold total.
    eexists _, _, _. split; [reflexivity|].
    repeat (split; [reflexivity|]). reflexivity.
  - intros Hpickup Hdropoff.
    assert (Hthree : n = 3).
    { rewrite <- (days_from_toordinal (to_date pickup) (to_date dropoff) n);
        [|apply Hvp|apply Hvd|exact Hn].
      rewrite Hpickup, Hdropoff. reflexivity. }
    unfold total, rental_days. rewrite Hthree, Hpickup, Hdropoff.
    repeat split.
Qed.

(** C9, as the code has it.  Once the two timestamps parse (and the driver
    can bind the ids, the user id and the licence number), [book_car]
    returns the not-found failure when no vehicle has the id and succeeds
    for every existing vehicle, whatever its availability status, RENTED
    included; afterwards the vehicle is found with the status RENTED, as is
    every vehicle of that id.  A timestamp that does not parse raises
    before the store is read, and nothing is written. *)
Theorem book_car_no_availability_check
        (now : datetime) (user_id : json) (vid pickup_id dropoff_id : Z)
        (pickup_date dropoff_date : string) (driver_details : pydict)
        (st : store) :
  is_int64 vid = true ->
  is_int64 pickup_id = true ->
  is_int64 dropoff_id = true ->
  sql_bindable user_id = true ->
  sql_bindable (dict_get driver_details "license_number" JNull) = true ->
  (forall pickup dropoff,
      strptime pickup_date "%Y-%m-%d %H:%M:%S" = Ok pickup ->
      strptime dropoff_date "%Y-%m-%d %H:%M:%S" = Ok dropoff ->
      valid_datetime pickup ->
      valid_datetime dropoff ->
      (select_vehicle vid st = [] ->
       book_car now user_id vid pickup_id dropoff_id pickup_date dropoff_date
                driver_details st
       = (Ok (JObj [jsuccess false; jerror "Vehicle not found"]), st))
      /\
      (forall vehicle others,
          select_vehicle vid st = vehicle :: others ->
          exists (reported : pydict) (st' : store)
                 (vehicle' : vehicle_row) (others' : list vehicle_row),
            book_car now user_id vid pickup_id dropoff_id pickup_date
                     dropoff_date driver_details st
            = (Ok (JObj reported), st')
            /\ lookup "success" reported = Some (JBool true)
            /\ select_vehicle vid st' = vehicle' :: others'
            /\ vehicle_id vehicle' = vehicle_id vehicle
            /\ daily_rate vehicle' = daily_rate vehicle
            /\ availability_status vehicle' = "RENTED"%string
            /\ Forall (fun v => availability_status v = "RENTED"%string)
                      (select_vehicle vid st')))
  /\
  (forall e,
      strptime pickup_date "%Y-%m-%d %H:%M:%S" = Raise e ->
      book_car now user_id vid pickup_id dropoff_id pickup_date dropoff_date
               driver_details st
      = (Raise e, st))
  /\
  (forall pickup e,
      strptime pickup_date "%Y-%m-%d %H:%M:%S" = Ok pickup ->
      strptime dropoff_date "%Y-%m-%d %H:%M:%S" = Raise e ->
      book_car now user_id vid pickup_id dropoff_id pickup_date dropoff_date
               driver_details st
      = (Raise e, st)).
Proof.
  intros Hvid Hfrom Hto Hu Hl. split; [|split].
  - intros pickup dropoff Hp Hd Hvp Hvd. split.
    + intros Hnone. unfold book_car, bind, lift, execute_query.
      rewrite Hp, Hd, (bind_param_int "1" vid st Hvid), Hnone. reflexivity.
    + intros vehicle others Hv.
      rewrite (book_car_existing now user_id vid pickup_id dropoff_id pickup_date
                 dropoff_date driver_details st vehicle others pickup dropoff)
        by assumption.
      eexists _, _, _, _. split; [reflexivity|]. split; [reflexivity|].
      rewrite select_vehicle_mark_rented.
      change (select_vehicle vid (set_car_rental_bookings st _))
        with (select_vehicle vid st).
      rewrite Hv. simpl map. split; [reflexivity|].
      repeat (split; [reflexivity|]).
      constructor; [reflexivity|].
      apply Forall_forall. intros v Hin.
      apply in_map_iff in Hin. destruct Hin as [v0 [<- _]]. reflexivity.
  - intros e Hp. unfold book_car, bind, lift. rewrite Hp. reflexivity.
  - intros pickup e Hp Hd. unfold book_car, bind, lift. rewrite Hp, Hd. reflexivity.
Qed.

End CarProperties.

(** ** Request handlers *)

Section HandlerProperties.
Context `{RT : Runtime}.

(** Once both airports resolve, a search with a valid passenger count and
    bindable dates is answered with [success: true], whatever the flight
    rows: the dict [search_flights] returns is never empty, so the handler's
    [not search_results] test only fires when an airport is unknown. *)
Lemma handle_search_flights_resolved
      (params : pydict) (st : store) (origin destination : string)
      (passengers : Z) (o d : Z) (os ds : list Z) :
  first_missing ["origin"; "destination"; "departure_date"; "passengers"]%string
                params = None ->
  dict_get params "origin" JNull = JStr origin ->
  dict_get params "destination" JNull = JStr destination ->
  py_int (dict_get params "passengers" JNull) = Ok passengers ->
  1 <= passengers <= 9 ->
  sql_bindable (dict_get params "departure_date" JNull) = true ->
  sql_bindable (dict_get params "return_date" JNull) = true ->
  select_airport_ids (str_upper origin) ("%" +++ origin +++ "%") st = o :: os ->
  select_airport_ids (str_upper destination) ("%" +++ destination +++ "%") st
  = d :: ds ->
  exists reported,
    handle_search_flights params st = (Ok (JObj reported), st)
    /\ lookup "success" reported = Some (JBool true).
Proof.
  intros Hreq Ho Hd Hp Hrange Hdep Hret Hos Hds.
  unfold handle_search_flights, guarded. rewrite Hreq.
  unfold bind at 1. unfold lift. rewrite Hp.
  assert (Hr : ((passengers <? 1) || (9 <? passengers)) = false).
  { apply orb_false_iff. split; apply Z.ltb_ge; lia. }
  rewrite Hr.
  assert (Hfits : is_int64 passengers = true) by (apply is_int64_intro; lia).
  unfold search_flights, bind, lift, execute_query.
  rewrite Ho, Hd. simpl str_method. cbv iota beta.
  rewrite Hos, Hds, (bind_param_bindable "3" _ st Hdep),
    (bind_param_int "4" passengers st Hfits).
  unfold ret.
  destruct (truthy (dict_get params "return_date" JNull)).
  - rewrite (bind_param_bindable "3" _ st Hret). eexists. split; reflexivity.
  - eexists. split; reflexivity.
Qed.

(** C7.  The response of [lambda_handler] is an envelope whose
    [sessionAttributes] and [promptSessionAttributes] are the event's own
    (the empty dict when the event has none): on the path where the routed
    handler answers it is the envelope of that answer, on the outermost
    error path the envelope of a [system_error] payload, and both carry the
    two maps of the event. *)
Theorem lambda_handler_echoes_session_state
        (now : datetime) (fetched : outcome store) (event : pydict) :
  let response := fst (lambda_handler now fetched event) in
  let session_attributes := dict_get event "sessionAttributes" (JObj []) in
  let prompt_session_attributes :=
    dict_get event "promptSessionAttributes" (JObj []) in
  field "sessionAttributes" response = Some session_attributes
  /\ field "promptSessionAttributes" response = Some prompt_session_attributes
  /\ (forall payload st',
         lambda_handler_body now fetched event = Ok (payload, st') ->
         exists result,
           response
           = envelope (dict_get event "actionGroup" JNull)
                      (dict_get event "function" JNull) result
                      session_attributes prompt_session_attributes)
  /\ (forall e,
         lambda_handler_body now fetched event = Raise e ->
         response
         = envelope (dict_get event "actionGroup" (JStr "flight-operations"))
                    (dict_get event "function" (JStr "unknown"))
                    (JObj [jsuccess false; jerror (exn_str e);
                           ("error_type"%string, JStr "system_error")])
                    session_attributes prompt_session_attributes).
Proof.
  intros response sa psa. subst response.
  unfold lambda_handler.
  destruct (lambda_handler_body now fetched event)
    as [[payload st']|e] eqn:Hbody.
  - assert (Henv : exists result,
               payload = envelope (dict_get event "actionGroup" JNull)
                                  (dict_get event "function" JNull) result sa psa).
    { unfold lambda_handler_body in Hbody.
      destruct (py_iter _); [|discriminate].
      destruct (build_params _ _); [|discriminate].
      destruct fetched as [st|]; [|discriminate].
      match type of Hbody with
      | match ?c with _ => _ end = _ => destruct c as [[result|e] st1]
      end; [|discriminate].
      inversion Hbody; subst. eexists. reflexivity. }
    destruct Henv as [result ->]. simpl.
    split; [reflexivity|]. split; [reflexivity|]. split.
    + intros payload st'' H. exists result. reflexivity.
    + intros e H. discriminate H.
  - simpl. split; [reflexivity|]. split; [reflexivity|]. split.
    + intros payload st' H. discriminate H.
    + intros e' H. inversion H. reflexivity.
Qed.

(** C8.  A car-rental cancellation that names a [booking_id] is answered
    with [success: true], a refund amount of 0.00 and cancellation fees of
    0.00, whatever the store holds, and the store is left as it was. *)
Theorem handle_cancel_rental_is_a_stub
        (now : datetime) (params : pydict) (st : store) :
  dict_mem "booking_id" params = true ->
  exists (reported : pydict) (status : json),
    handle_cancel_rental now params st = (Ok (JObj reported), st)
    /\ lookup "success" reported = Some (JBool true)
    /\ lookup "cancellation_status" reported = Some status
    /\ field "booking_id" status = Some (dict_get params "booking_id" JNull)
    /\ field "status" status = Some (JStr "CANCELLED")
    /\ field "refund_amount" status = Some (JFloat 0)
    /\ field "cancellation_fees" status = Some (JFloat 0).
Proof.
  intros Hmem. unfold handle_cancel_rental, guarded. rewrite Hmem. simpl.
  eexists _, _. split; [reflexivity|].
  repeat (split; [reflexivity|]). reflexivity.
Qed.

End HandlerProperties.

(** ** The router's classifier *)

Section ClassifierProperties.
Context `{RT : Runtime}.





End ClassifierProperties.

(** ** Worked requests

    The statements above at concrete requests, run on the reference runtime
    against the sample store. *)

Section Worked.
Import Reference Sample.

(** A hypothesis that holds by running the model, and one about dates and
    times that holds by comparing numbers. *)
Local Notation "'computed'" := (ltac:(reflexivity)) (only parsing).
Local Notation "'checked'" :=
  (ltac:(repeat split; vm_compute; first [reflexivity | discriminate]))
  (only parsing).

(** C3, at the handler.  JFK and LAX both resolve and no flight leaves on
    2024-02-15, so [search_flights] returns a dict of two empty lists; the
    handler tests that dict with [not], finds it non-empty and answers
    [success: true] with empty lists where a [no_results] failure was
    meant. *)
Theorem handle_search_flights_no_rows_reports_success :
  select_airport_ids (str_upper "JFK") "%JFK%" db0 = [1]
  /\ select_airport_ids (str_upper "LAX") "%LAX%" db0 = [2]
  /\ select_flights 1 2 (JStr "2024-02-15") 2 db0 = []
  /\ handle_search_flights search_params db0
     = (Ok (JObj [jsuccess true;
                  ("search_criteria"%string,
                   JObj [("origin"%string, JStr "JFK");
                         ("destination"%string, JStr "LAX");
                         ("departure_date"%string, JStr "2024-02-15");
                         ("return_date"%string, JNull);
                         ("passengers"%string, JInt 2)]);
                  ("outbound_flights"%string, JList []);
                  ("return_flights"%string, JList [])]),
        db0).
Proof. repeat split; vm_compute; reflexivity. Qed.


Lemma book_flight_without_passengers_witness :
  select_flight 1 db0 = [aa100]
  /\ exists booking reported st',
       book_flight noon (JInt 1) 1 [] db0 = (Ok (JObj reported), st')
       /\ flight_bookings st' = flight_bookings db0 ++ [booking]
       /\ fb_passenger_count booking = 0
       /\ float_is_zero (fb_total_price booking) = true
       /\ flights st' = flights db0.
Proof.
  split; [reflexivity|].
  destruct (book_flight_without_passengers
              (RT := runtime) noon (JInt 1) 1 [] db0 aa100 []
              computed computed ltac:(simpl; lia) computed
              ltac:(left; reflexivity) computed)
    as (booking & reported & st' & Hrun & _ & Hrows & _ & _ & Hcount & Hprice & _
        & Hflights & _).
  exists booking, reported, st'.
  repeat split; assumption.
Defined.


(** C4, as the claim has it, fails on a week in the harbour-view room at
    299.99 a night: the total reported is 2099.9300000000003, which is not
    the price as stored times 7 times 1. *)
Lemma book_hotel_total_is_rounded_counterexample :
  let guests := [("guests"%string, JList [JStr "Ann"]);
                 ("room_count"%string, JInt 1)] in
  select_room_type 2 db0 = [harbour_view]
  /\ exists reported st' total,
       book_hotel noon (JInt 1) 1 2 "2024-02-15" "2024-02-22" guests db0
       = (Ok (JObj reported), st')
       /\ lookup "success" reported = Some (JBool true)
       /\ lookup "nights" reported = Some (JInt 7)
       /\ lookup "total_price" reported = Some (JFloat total)
       /\ total = S754_finite false 4617794905031312 (-41)
       /\ ~ (float_exact total
             == float_exact (base_price_per_night harbour_view)
                * inject_Z 7 * inject_Z 1)%Q.
Proof.
  intros guests. split; [reflexivity|].
  eexists _, _, _. split; [vm_compute; reflexivity|].
  split; [reflexivity|]. split; [reflexivity|]. split; [reflexivity|].
  split; [reflexivity|].
  intros H. vm_compute in H. discriminate H.
Qed.

(** Four nights across the leap day of 2024 and three nights across the
    turn of the year. *)
Lemma book_hotel_price_and_inventory_witness :
  let guests := [("guests"%string, JList [JStr "Ann"; JStr "Bob"]);
                 ("room_count"%string, JInt 2)] in
  (exists reported st',
      book_hotel noon (JInt 1) 1 1 "2024-02-27" "2024-03-02" guests db0
      = (Ok (JObj reported), st')
      /\ lookup "nights" reported = Some (JInt 4)
      /\ lookup "total_price" reported = Some (JFloat (dollars 360000))
      /\ room_types st' = room_types db0
      /\ hotels st' = hotels db0)
  /\ (exists reported st',
         book_hotel noon (JInt 1) 1 2 "2023-12-30" "2024-01-02" guests db0
         = (Ok (JObj reported), st')
         /\ lookup "nights" reported = Some (JInt 3)
         /\ lookup "total_price" reported
            = Some (JFloat (float_mul (float_mul (dollars 29999) (float_of_Z 3))
                                      (float_of_Z 2)))).
Proof.
  intros guests. split.
  - destruct (book_hotel_price_and_inventory (RT := runtime) noon (JInt 1) 1 1
                "2024-02-27" "2024-03-02" guests db0 standard_king []
                (Datetime 2024 2 27 0 0 0 0) (Datetime 2024 3 2 0 0 0 0)
                2 4 (dollars 360000) computed computed checked checked
                ltac:(left; split; [lia|reflexivity]) computed computed computed
                computed computed computed computed computed)
      as (booking & reported & st' & Hrun & _ & Hnights & Hprice & _ & _ & _ & _
          & Hrooms & Hhotels).
    exists reported, st'. repeat split; assumption.
  - destruct (book_hotel_price_and_inventory (RT := runtime) noon (JInt 1) 1 2
                "2023-12-30" "2024-01-02" guests db0 harbour_view []
                (Datetime 2023 12 30 0 0 0 0) (Datetime 2024 1 2 0 0 0 0)
                2 3 (float_mul (float_mul (dollars 29999) (float_of_Z 3))
                               (float_of_Z 2))
                computed computed checked checked
                ltac:(left; split; [lia|reflexivity]) computed computed computed
                computed computed computed computed computed)
      as (booking & reported & st' & Hrun & _ & Hnights & Hprice & _).
    exists reported, st'. repeat split; assumption.
Defined.

(** The rental of the claim, and one across the leap day of 2024 that ends
    an hour short of its fourth day. *)
Lemma book_car_rental_days_witness :
  (exists reported st',
      book_car noon (JInt 1) 1 1 1 "2024-02-15 10:00:00" "2024-02-18 10:00:00"
               [] db0
      = (Ok (JObj reported), st')
      /\ lookup "rental_days" reported = Some (JInt 3)
      /\ lookup "total_price" reported
         = Some (JFloat (float_mul (dollars 3599) (float_of_Z 3))))
  /\ float_mul (dollars 7599) (float_of_Z 3)
     = S754_finite false 8020981305091030 (-45)
  /\ (exists reported st',
         book_car noon (JInt 1) 2 1 1 "2024-02-27 10:00:00" "2024-03-02 09:00:00"
                  [] db0
         = (Ok (JObj reported), st')
         /\ lookup "rental_days" reported = Some (JInt 3)
         /\ lookup "total_price" reported
            = Some (JFloat (float_mul (dollars 7599) (float_of_Z 3)))).
Proof.
  split; [|split; [reflexivity|]].
  - destruct (book_car_rental_days (RT := runtime) noon (JInt 1) 1 1 1
                "2024-02-15 10:00:00" "2024-02-18 10:00:00" [] db0 versa []
                (Datetime 2024 2 15 10 0 0 0) (Datetime 2024 2 18 10 0 0 0) 3
                computed computed checked checked
                ltac:(left; split; [lia|reflexivity]) computed computed computed
                computed computed computed)
      as ((booking & reported & st' & Hrun & _ & Hdays & Hprice & _) & _).
    exists reported, st'. repeat split; assumption.
  - destruct (book_car_rental_days (RT := runtime) noon (JInt 1) 2 1 1
                "2024-02-27 10:00:00" "2024-03-02 09:00:00" [] db0 corolla []
                (Datetime 2024 2 27 10 0 0 0) (Datetime 2024 3 2 9 0 0 0) 4
                computed computed checked checked
                ltac:(left; split; [lia|reflexivity]) computed computed computed
                computed computed computed)
      as ((booking & reported & st' & Hrun & _ & Hdays & Hprice & _) & _).
    exists reported, st'. repeat split; assumption.
Defined.

(** C9, as the claim has it, fails on a request whose pickup timestamp does
    not parse: the vehicle exists, yet [book_car] raises [ValueError], no
    booking is made and the store is left as it was. *)
Lemma book_car_unparsed_timestamp_counterexample :
  select_vehicle 1 db0 = [versa]
  /\ book_car noon (JInt 1) 1 1 1 "tomorrow" "2024-02-18 10:00:00" [] db0
     = (Raise (Exn ValueError
                 "time data 'tomorrow' does not match format '%Y-%m-%d %H:%M:%S'"),
        db0)
  /\ ~ (exists reported st',
           book_car noon (JInt 1) 1 1 1 "tomorrow" "2024-02-18 10:00:00" [] db0
           = (Ok (JObj reported), st')
           /\ lookup "success" reported = Some (JBool true)).
Proof.
  split; [reflexivity|]. split; [vm_compute; reflexivity|].
  intros (reported & st' & Hrun & _). vm_compute in Hrun. discriminate Hrun.
Qed.

(** A car that is AVAILABLE is RENTED after the booking, and a car that is
    RENTED already is booked all the same. *)
Lemma book_car_no_availability_check_witness :
  (availability_status corolla = "AVAILABLE"%string
   /\ exists reported st' vehicle' others',
        book_car noon (JInt 1) 2 1 1 "2024-02-15 10:00:00" "2024-02-18 10:00:00"
                 [] db0
        = (Ok (JObj reported), st')
        /\ lookup "success" reported = Some (JBool true)
        /\ select_vehicle 2 st' = vehicle' :: others'
        /\ availability_status vehicle' = "RENTED"%string)
  /\ (availability_status versa = "RENTED"%string
      /\ exists reported st',
           book_car noon (JInt 1) 1 1 1 "2024-02-15 10:00:00"
                    "2024-02-18 10:00:00" [] db0
           = (Ok (JObj reported), st')
           /\ lookup "success" reported = Some (JBool true)).
Proof.
  split; (split; [reflexivity|]).
  - destruct (book_car_no_availability_check (RT := runtime) noon (JInt 1) 2 1 1
                "2024-02-15 10:00:00" "2024-02-18 10:00:00" [] db0
                computed computed computed computed computed) as [Hparsed _].
    destruct (Hparsed (Datetime 2024 2 15 10 0 0 0) (Datetime 2024 2 18 10 0 0 0)
                      computed computed checked checked) as [_ Hexisting].
    destruct (Hexisting corolla [] computed)
      as (reported & st' & vehicle' & others' & Hrun & Hok & Hsel & _ & _ & Hstatus
          & _).
    exists reported, st', vehicle', others'. repeat split; assumption.
  - destruct (book_car_no_availability_check (RT := runtime) noon (JInt 1) 1 1 1
                "2024-02-15 10:00:00" "2024-02-18 10:00:00" [] db0
                computed computed computed computed computed) as [Hparsed _].
    destruct (Hparsed (Datetime 2024 2 15 10 0 0 0) (Datetime 2024 2 18 10 0 0 0)
                      computed computed checked checked) as [_ Hexisting].
    destruct (Hexisting versa [] computed)
      as (reported & st' & vehicle' & others' & Hrun & Hok & _).
    exists reported, st'. split; assumption.
Defined.

Lemma handle_cancel_rental_is_a_stub_witness :
  let params := [("booking_id"%string, JStr "CR20240120120000")] in
  exists reported status,
    handle_cancel_rental noon params db0 = (Ok (JObj reported), db0)
    /\ lookup "success" reported = Some (JBool true)
    /\ lookup "cancellation_status" reported = Some status
    /\ field "refund_amount" status = Some (JFloat 0)
    /\ field "cancellation_fees" status = Some (JFloat 0).
Proof.
  intros params.
  destruct (handle_cancel_rental_is_a_stub (RT := runtime) noon params db0 computed)
    as (reported & status & Hrun & Hok & Hstatus & _ & _ & Hrefund & Hfees).
  exists reported, status.
  repeat split; assumption.
Defined.


End Worked.

(** * Further properties *)

(** ** The flight service *)

Section FlightServiceProperties.
Context `{RT : Runtime}.

Lemma py_len_nonneg (v : json) (n : Z) : py_len v = Ok n -> 0 <= n.
Proof.
  destruct v; simpl; intros H; inversion H; subst; apply Nat2Z.is_nonneg.
Qed.

(** What a flight booking with enough seats comes to. *)
Lemma book_flight_existing
      (now : datetime) (user_id : json) (fid : Z) (passenger_details : pydict)
      (st : store) (flight : flight_row) (others : list flight_row) (n : Z) :
  is_int64 fid = true ->
  select_flight fid st = flight :: others ->
  py_len (dict_get passenger_details "passengers" (JList [])) = Ok n ->
  n <= available_seats flight ->
  is_int64 n = true ->
  sql_bindable user_id = true ->
  let total := float_mul (base_price flight) (float_of_Z n) in
  let booking := new_flight_booking now user_id fid passenger_details n total st in
  book_flight now user_id fid passenger_details st
  = (Ok (JObj [jsuccess true;
               ("booking_id"%string, JInt (fb_booking_id booking));
               ("booking_reference"%string, JStr (fb_booking_reference booking));
               ("total_price"%string, JFloat total);
               ("currency"%string, json_of_text (currency flight))]),
     add_available_seats (- n) fid
       (set_flight_bookings st (flight_bookings st ++ [booking]))).
Proof.
  intros Hfid Hsel Hlen Hcap Hn Hbind total booking.
  unfold book_flight, bind, execute_query, lift.
  rewrite (bind_param_int "1" fid st Hfid), Hsel, Hlen.
  apply Z.ltb_ge in Hcap. rewrite Hcap.
  rewrite (py_mul_int64 _ _ Hn).
  rewrite (bind_param_bindable "1" user_id st Hbind), (bind_param_int "4" n st Hn).
  reflexivity.
Qed.

(** X1.  [book_flight] writes only when it succeeds: whatever the request,
    either the store is left exactly as it was and the outcome is an
    exception or a result with [success: false], or the result has
    [success: true] and the bookings table has grown by exactly one
    CONFIRMED row for the requested flight. *)
Theorem book_flight_writes_only_on_success
        (now : datetime) (user_id : json) (fid : Z) (passenger_details : pydict)
        (st : store) :
  let run := book_flight now user_id fid passenger_details st in
  (snd run = st
   /\ forall reported, fst run = Ok (JObj reported) ->
                       lookup "success" reported = Some (JBool false))
  \/
  (exists reported booking,
      fst run = Ok (JObj reported)
      /\ lookup "success" reported = Some (JBool true)
      /\ flight_bookings (snd run) = flight_bookings st ++ [booking]
      /\ fb_flight_id booking = fid
      /\ fb_booking_status booking = "CONFIRMED"%string).
Proof.
  unfold book_flight, bind, execute_query, lift, ret, raise,
    execute_insert, execute_update, insert_flight_booking.
  destruct (bind_param_outcome "1" (JInt fid) st) as [-> | [e ->]]; simpl.
  2:{ left. split; [reflexivity|]. intros r H. discriminate H. }
  destruct (select_flight fid st) as [|flight others]; simpl.
  { left. split; [reflexivity|]. intros r H. inversion H. reflexivity. }
  destruct (py_len _) as [n|e]; simpl.
  2:{ left. split; [reflexivity|]. intros r H. discriminate H. }
  destruct (available_seats flight <? n); simpl.
  { left. split; [reflexivity|]. intros r H. inversion H. reflexivity. }
  destruct (py_mul _ _) as [total|e]; simpl.
  2:{ left. split; [reflexivity|]. intros r H. discriminate H. }
  destruct (bind_param_outcome "1" user_id st) as [-> | [e ->]]; simpl.
  2:{ left. split; [reflexivity|]. intros r H. discriminate H. }
  destruct (bind_param_outcome "4" (JInt n) st) as [-> | [e ->]]; simpl.
  2:{ left. split; [reflexivity|]. intros r H. discriminate H. }
  right. eexists _, _. repeat split.
Qed.

Lemma select_flight_add_available_seats_other (delta fid fid' : Z) (st : store) :
  fid' <> fid ->
  select_flight fid' (add_available_seats delta fid st) = select_flight fid' st.
Proof.
  intros Hne. unfold select_flight, add_available_seats; simpl.
  induction (flights st) as [|f fs IH]; simpl; [reflexivity|].
  destruct (flight_id f =? fid) eqn:E; simpl; rewrite IH; [|reflexivity].
  apply Z.eqb_eq in E.
  destruct (flight_id f =? fid') eqn:E'; [|reflexivity].
  apply Z.eqb_eq in E'. congruence.
Qed.

(** The store [book_flight] leaves behind: the one it found, or the one with
    the new booking and the seats taken. *)
Lemma book_flight_store
      (now : datetime) (user_id : json) (fid : Z) (passenger_details : pydict)
      (st : store) :
  let st' := snd (book_flight now user_id fid passenger_details st) in
  st' = st
  \/ exists booking n,
       0 <= n
       /\ (exists flight others,
              select_flight fid st = flight :: others /\ n <= available_seats flight)
       /\ st' = add_available_seats (- n) fid
                  (set_flight_bookings st (flight_bookings st ++ [booking])).
Proof.
  unfold book_flight, bind, execute_query, lift, ret, raise,
    execute_insert, execute_update, insert_flight_booking.
  destruct (bind_param_outcome "1" (JInt fid) st) as [-> | [e ->]]; simpl;
    [|left; reflexivity].
  destruct (select_flight fid st) as [|flight others] eqn:Hsel; simpl;
    [left; reflexivity|].
  destruct (py_len _) as [n|e] eqn:Hlen; simpl; [|left; reflexivity].
  destruct (available_seats flight <? n) eqn:Hcap; simpl; [left; reflexivity|].
  destruct (py_mul _ _) as [total|e]; simpl; [|left; reflexivity].
  destruct (bind_param_outcome "1" user_id st) as [-> | [e ->]]; simpl;
    [|left; reflexivity].
  destruct (bind_param_outcome "4" (JInt n) st) as [-> | [e ->]]; simpl;
    [|left; reflexivity].
  right. eexists _, n. split; [eapply py_len_nonneg; eassumption|].
  split; [|reflexivity].
  exists flight, others. split; [reflexivity|]. apply Z.ltb_ge. exact Hcap.
Qed.

(** X2.  A flight booking touches nothing but the bookings table and the
    seats of the requested flight: flights with another id read back
    unchanged, no flight row is added or removed, the bookings that were
    there are still there in order, and every other table is as it was. *)
Theorem book_flight_frame
        (now : datetime) (user_id : json) (fid : Z) (passenger_details : pydict)
        (st : store) :
  let st' := snd (book_flight now user_id fid passenger_details st) in
  (forall other, other <> fid -> select_flight other st' = select_flight other st)
  /\ map flight_id (flights st') = map flight_id (flights st)
  /\ (exists added, flight_bookings st' = flight_bookings st ++ added)
  /\ airlines st' = airlines st /\ airports st' = airports st
  /\ hotels st' = hotels st /\ room_types st' = room_types st
  /\ hotel_bookings st' = hotel_bookings st
  /\ available_vehicles st' = available_vehicles st
  /\ car_rental_bookings st' = car_rental_bookings st.
Proof.
  intros st'. subst st'.
  destruct (book_flight_store now user_id fid passenger_details st)
    as [-> | (booking & n & _ & _ & ->)].
  - split; [reflexivity|]. split; [reflexivity|].
    split; [exists []; symmetry; apply app_nil_r|]. repeat split.
  - split.
    { intros other Hne. rewrite select_flight_add_available_seats_other by exact Hne.
      reflexivity. }
    split.
    { unfold add_available_seats; simpl. rewrite map_map.
      apply map_ext. intros f. destruct (flight_id f =? fid); reflexivity. }
    split; [exists [booking]; reflexivity|]. repeat split.
Qed.

End FlightServiceProperties.

Section FlightInvariants.
Context `{RT : Runtime}.

Lemma NoDup_map_injective {A B : Type} (g : A -> B) (l : list A) (a b : A) :
  NoDup (map g l) -> In a l -> In b l -> g a = g b -> a = b.
Proof.
  induction l as [|x l IH]; simpl; intros Hnd Ha Hb Hg; [contradiction|].
  inversion Hnd as [|? ? Hnotin Hnd']; subst.
  destruct Ha as [-> | Ha], Hb as [-> | Hb]; try reflexivity.
  - exfalso. apply Hnotin. rewrite Hg. apply in_map. exact Hb.
  - exfalso. apply Hnotin. rewrite <- Hg. apply in_map. exact Ha.
  - apply IH; assumption.
Qed.

(** X3.  When [flight_id] is a key and every flight has between zero and
    [total_seats] seats available, the same holds after [book_flight],
    whatever the request and its outcome: the capacity check keeps the
    decrement from going below zero. *)
Theorem book_flight_keeps_seats_in_range
        (now : datetime) (user_id : json) (fid : Z) (passenger_details : pydict)
        (st : store) :
  flight_ids_unique st ->
  seats_in_range st ->
  let st' := snd (book_flight now user_id fid passenger_details st) in
  flight_ids_unique st' /\ seats_in_range st'.
Proof.
  intros Hkey Hrange st'. subst st'.
  destruct (book_flight_store now user_id fid passenger_details st)
    as [-> | (booking & n & Hn & (flight & others & Hsel & Hcap) & ->)];
    [split; assumption|].
  split.
  - unfold flight_ids_unique, add_available_seats in *; simpl.
    rewrite map_map.
    rewrite (map_ext _ flight_id); [exact Hkey|].
    intros f. destruct (flight_id f =? fid); reflexivity.
  - unfold seats_in_range, add_available_seats; simpl.
    intros f' Hin. apply in_map_iff in Hin. destruct Hin as [f [<- Hf]].
    specialize (Hrange f Hf).
    destruct (flight_id f =? fid) eqn:E; [|exact Hrange].
    assert (f = flight) as ->.
    { apply (NoDup_map_injective flight_id (flights st)); try assumption.
      - assert (Hin : In flight (select_flight fid st))
          by (rewrite Hsel; left; reflexivity).
        apply filter_In in Hin. tauto.
      - assert (Hin : In flight (select_flight fid st))
          by (rewrite Hsel; left; reflexivity).
        apply filter_In in Hin. destruct Hin as [_ Hid].
        apply Z.eqb_eq in E. apply Z.eqb_eq in Hid. congruence. }
    simpl. lia.
Qed.

End FlightInvariants.

Section FlightCancellation.
Context `{RT : Runtime}.

Lemma text_equals_str (column reference : string) :
  text_equals column (JStr reference) = String.eqb column reference.
Proof. reflexivity. Qed.

(** [cancel_flight] on a reference that is a string. *)
Lemma cancel_flight_str (reference : string) (st : store) :
  cancel_flight (JStr reference) st
  = match select_booking (JStr reference) st with
    | [] => (Ok (JObj [jsuccess false; jerror "Booking not found"]), st)
    | (fb, f) :: _ =>
        if String.eqb (fb_booking_status fb) "CANCELLED" then
          (Ok (JObj [jsuccess false; jerror "Booking already cancelled"]), st)
        else
          (Ok (JObj [jsuccess true;
                     ("refund_amount"%string, JFloat (fb_total_price fb));
                     ("currency"%string, json_of_text (fb_currency fb))]),
           add_available_seats (fb_passenger_count fb) (flight_id f)
             (mark_cancelled (JStr reference) st))
    end.
Proof.
  unfold cancel_flight, bind, bind_param, execute_query, execute_update, ret.
  simpl.
  destruct (select_booking (JStr reference) st) as [|[fb f] rest]; [reflexivity|].
  destruct (String.eqb (fb_booking_status fb) "CANCELLED"); reflexivity.
Qed.

Lemma joined_flights (fid : Z) (st : store) :
  filter (fun f => fid =? flight_id f) (flights st) = select_flight fid st.
Proof.
  unfold select_flight. apply filter_ext. intros f. apply Z.eqb_sym.
Qed.

(** The cancellation lookup when the only booking that carries the
    reference is the last row of the table. *)
Lemma select_booking_last (reference : string) (st : store)
      (earlier : list flight_booking_row) (booking : flight_booking_row) :
  flight_bookings st = earlier ++ [booking] ->
  (forall fb, In fb earlier -> fb_booking_reference fb <> reference) ->
  fb_booking_reference booking = reference ->
  select_booking (JStr reference) st
  = map (fun f => (booking, f)) (select_flight (fb_flight_id booking) st).
Proof.
  intros Hrows Hfresh Href. unfold select_booking.
  rewrite Hrows, filter_app.
  assert (E : filter (fun fb => text_equals (fb_booking_reference fb) (JStr reference))
                     earlier = []).
  { clear Hrows. induction earlier as [|fb l IH]; simpl; [reflexivity|].
    rewrite text_equals_str.
    destruct (String.eqb_spec (fb_booking_reference fb) reference) as [Heq|_].
    - exfalso. apply (Hfresh fb); [left; reflexivity|exact Heq].
    - apply IH. intros fb' Hin. apply Hfresh. right. exact Hin. }
  rewrite E. simpl. rewrite text_equals_str, Href, String.eqb_refl. simpl.
  rewrite app_nil_r, joined_flights. reflexivity.
Qed.

Lemma restore_seats (n fid : Z) (fs : list flight_row) :
  map (fun f => if flight_id f =? fid
                then set_available_seats f (available_seats f + n) else f)
      (map (fun f => if flight_id f =? fid
                     then set_available_seats f (available_seats f + - n) else f)
           fs)
  = fs.
Proof.
  rewrite map_map. rewrite (map_ext _ (fun f => f)); [apply map_id|].
  intros f. destruct (flight_id f =? fid) eqn:E; simpl; rewrite E; [|reflexivity].
  destruct f; unfold set_available_seats; simpl. f_equal. lia.
Qed.

(** X4.  Booking and cancelling compose to the identity on the flights:
    when no earlier booking carries the reference [book_flight] generates,
    cancelling that reference right after a successful booking succeeds,
    refunds the price that was charged, the double [base_price * n], leaves
    the booking in the table as CANCELLED, and gives every flight row back
    the seats it had before the booking. *)
Theorem book_then_cancel_restores_seats
        (now : datetime) (user_id : json) (fid : Z) (passenger_details : pydict)
        (st : store) (flight : flight_row) (others : list flight_row) (n : Z) :
  is_int64 fid = true ->
  select_flight fid st = flight :: others ->
  py_len (dict_get passenger_details "passengers" (JList [])) = Ok n ->
  n <= available_seats flight ->
  is_int64 n = true ->
  sql_bindable user_id = true ->
  (forall fb, In fb (flight_bookings st) ->
              fb_booking_reference fb <> "FL" +++ strftime now "%Y%m%d%H%M%S") ->
  let total := float_mul (base_price flight) (float_of_Z n) in
  exists booked st1 cancelled st2 booking,
    book_flight now user_id fid passenger_details st = (Ok (JObj booked), st1)
    /\ lookup "booking_reference" booked
       = Some (JStr ("FL" +++ strftime now "%Y%m%d%H%M%S"))
    /\ lookup "total_price" booked = Some (JFloat total)
    /\ cancel_flight (JStr ("FL" +++ strftime now "%Y%m%d%H%M%S")) st1
       = (Ok (JObj cancelled), st2)
    /\ lookup "success" cancelled = Some (JBool true)
    /\ lookup "refund_amount" cancelled = Some (JFloat total)
    /\ flights st2 = flights st
    /\ flight_bookings st2 = flight_bookings st ++ [booking]
    /\ fb_booking_status booking = "CANCELLED"%string
    /\ fb_total_price booking = total
    /\ fb_passenger_count booking = n.
Proof.
  intros Hfid Hsel Hlen Hcap Hn Hbind Hfresh total.
  set (reference := "FL" +++ strftime now "%Y%m%d%H%M%S") in *.
  pose (booking := new_flight_booking now user_id fid passenger_details n total st).
  pose (st1 := add_available_seats (- n) fid
                 (set_flight_bookings st (flight_bookings st ++ [booking]))).
  assert (Hlookup : select_booking (JStr reference) st1
                    = map (fun f => (booking, f))
                          (map (fun f => set_available_seats f (available_seats f + - n))
                               (flight :: others))).
  { rewrite (select_booking_last reference st1 (flight_bookings st) booking);
      [|reflexivity|exact Hfresh|reflexivity].
    change (fb_flight_id booking) with fid.
    unfold st1. rewrite select_flight_add_available_seats.
    rewrite select_flight_set_flight_bookings, Hsel. reflexivity. }
  eexists _, st1, _, _,
    (FlightBookingRow (fb_booking_id booking) user_id fid reference n total
                      default_currency (fb_special_requests booking) "CANCELLED").
  split.
  { apply (book_flight_existing now user_id fid passenger_details st flight others n);
      assumption. }
  split; [reflexivity|]. split; [reflexivity|].
  rewrite cancel_flight_str, Hlookup. simpl map.
  change (fb_booking_status booking) with "CONFIRMED"%string.
  change (String.eqb "CONFIRMED" "CANCELLED") with false. cbv iota.
  split; [reflexivity|]. split; [reflexivity|]. split; [reflexivity|].
  split.
  - unfold add_available_seats, mark_cancelled, st1; simpl.
    rewrite (select_flight_id fid st flight others Hsel).
    apply restore_seats.
  - split; [|repeat split].
    unfold add_available_seats, mark_cancelled, st1; simpl.
    rewrite map_app. simpl.
    rewrite text_equals_str. unfold reference. rewrite String.eqb_refl. f_equal.
    rewrite (map_ext_in _ (fun fb => fb)); [apply map_id|].
    intros fb Hin. rewrite text_equals_str.
    destruct (String.eqb_spec (fb_booking_reference fb)
                ("FL" +++ strftime now "%Y%m%d%H%M%S")) as [Heq|_]; [|reflexivity].
    exfalso. exact (Hfresh fb Hin Heq).
Qed.



End FlightCancellation.

(** ** The flight search *)

Section FlightSearchProperties.
Context `{RT : Runtime}.



Lemma insert_by_departure_sorted (x : flight_result) (l : list flight_result) :
  departs_in_order l -> departs_in_order (insert_by_departure x l).
Proof.
  unfold departs_in_order. induction l as [|y l IH]; simpl; intros Hs.
  - constructor; constructor.
  - destruct (String.leb (departure_time (fr_flight x))
                         (departure_time (fr_flight y))) eqn:E.
    + constructor; [exact Hs|]. constructor. exact E.
    + inversion Hs as [|? ? Hs' Hhd]; subst.
      constructor; [apply IH; exact Hs'|].
      assert (Hyx : String.leb (departure_time (fr_flight y))
                               (departure_time (fr_flight x)) = true).
      { destruct (String.leb_total (departure_time (fr_flight x))
                                   (departure_time (fr_flight y))) as [H | H];
          [congruence|exact H]. }
      destruct l as [|z l]; simpl.
      * constructor. exact Hyx.
      * destruct (String.leb (departure_time (fr_flight x))
                             (departure_time (fr_flight z)));
          constructor; [exact Hyx|].
        inversion Hhd; assumption.
Qed.

Lemma order_by_departure_sorted (l : list flight_result) :
  departs_in_order (order_by_departure l).
Proof.
  unfold order_by_departure. induction l as [|x l IH]; simpl.
  - constructor.
  - apply insert_by_departure_sorted. exact IH.
Qed.



(** The shape of a search that found both airports. *)
Lemma search_flights_found
      (origin destination departure_date return_date : json) (passengers : Z)
      (st st' : store) (out back : list flight_result) :
  search_flights origin destination departure_date return_date passengers st
  = (Ok (Found out back), st') ->
  exists o d oid oids did dids,
    origin = JStr o /\ destination = JStr d
    /\ select_airport_ids (str_upper o) ("%" +++ o +++ "%") st = oid :: oids
    /\ select_airport_ids (str_upper d) ("%" +++ d +++ "%") st = did :: dids
    /\ sql_bindable departure_date = true
    /\ is_int64 passengers = true
    /\ out = select_flights oid did departure_date passengers st
    /\ back = (if truthy return_date
               then select_flights did oid return_date passengers st else [])
    /\ (truthy return_date = true -> sql_bindable return_date = true)
    /\ st' = st.
Proof.
  unfold search_flights, bind, lift, execute_query, ret, raise.
  destruct origin as [| | | |o| |]; simpl; try discriminate.
  destruct destination as [| | | |d| |]; simpl; try discriminate.
  destruct (select_airport_ids (str_upper o) _ st) as [|oid oids] eqn:Ho;
    [discriminate|].
  destruct (select_airport_ids (str_upper d) _ st) as [|did dids] eqn:Hd;
    [discriminate|].
  destruct (bind_param_cases "3" departure_date st) as [[Hdep ->] | [_ [e ->]]];
    [|discriminate].
  destruct (bind_param_cases "4" (JInt passengers) st) as [[Hp ->] | [_ [e ->]]];
    [|discriminate].
  destruct (truthy return_date) eqn:Hret.
  - destruct (bind_param_cases "3" return_date st) as [[Hb ->] | [_ [e ->]]];
      [|discriminate].
    intros H. inversion H; subst.
    exists o, d, oid, oids, did, dids. repeat split; auto.
  - intros H. inversion H; subst.
    exists o, d, oid, oids, did, dids. repeat split; auto. discriminate.
Qed.




(** X8.  Both lists of a flight search come in [ORDER BY departure_time]
    order: each row departs no later than the row after it. *)
Theorem search_flights_orders_by_departure
        (origin destination departure_date return_date : json) (passengers : Z)
        (st st' : store) (out back : list flight_result) :
  search_flights origin destination departure_date return_date passengers st
  = (Ok (Found out back), st') ->
  departs_in_order out /\ departs_in_order back.
Proof.
  intros Hrun.
  destruct (search_flights_found _ _ _ _ _ _ _ _ _ Hrun)
    as (o & d & oid & oids & did & dids & _ & _ & _ & _ & _ & _ & -> & -> & _ & _).
  split; [apply order_by_departure_sorted|].
  destruct (truthy return_date); [apply order_by_departure_sorted|constructor].
Qed.

(** X9.  The return leg of a round-trip search is the one-way search in the
    opposite direction: when a search with a return date finds both
    airports, its return flights are exactly the outbound flights of the
    search from the destination to the origin on the return date. *)
Theorem search_flights_return_leg
        (origin destination departure_date return_date : json) (passengers : Z)
        (st st' : store) (out back : list flight_result) :
  search_flights origin destination departure_date return_date passengers st
  = (Ok (Found out back), st') ->
  truthy return_date = true ->
  search_flights destination origin return_date JNull passengers st
  = (Ok (Found back []), st).
Proof.
  intros Hrun Hret.
  destruct (search_flights_found _ _ _ _ _ _ _ _ _ Hrun)
    as (o & d & oid & oids & did & dids & -> & -> & Ho & Hd & _ & Hp & _ & ->
        & Hb & _).
  rewrite Hret. specialize (Hb Hret).
  unfold search_flights, bind, lift, execute_query, ret.
  simpl str_method. cbv iota beta.
  rewrite Hd, Ho, (bind_param_bindable "3" return_date st Hb),
    (bind_param_int "4" passengers st Hp).
  reflexivity.
Qed.

End FlightSearchProperties.

(** ** The flight booking agent *)

Section FlightAgentProperties.
Context `{RT : Runtime}.

Lemma search_flights_read_only
      (origin destination departure_date return_date : json) (passengers : Z)
      (st : store) :
  snd (search_flights origin destination departure_date return_date passengers st)
  = st.
Proof.
  unfold search_flights, bind, lift, execute_query, ret, raise.
  destruct (str_method "upper" origin); [|reflexivity].
  destruct (str_method "upper" destination); simpl; [|reflexivity].
  destruct (select_airport_ids _ _ st); [reflexivity|].
  destruct (select_airport_ids _ _ st); [reflexivity|].
  destruct (bind_param_outcome "3" departure_date st) as [-> | [e ->]];
    [|reflexivity].
  destruct (bind_param_outcome "4" (JInt passengers) st) as [-> | [e ->]];
    [|reflexivity].
  destruct (truthy return_date); [|reflexivity].
  destruct (bind_param_outcome "3" return_date st) as [-> | [e ->]]; reflexivity.
Qed.

(** X10.  A flight search never writes and never raises: whatever the
    parameters, [handle_search_flights] returns a dict and leaves the store
    as it was, and the dict either has [success: true] or has
    [success: false] with one of the error types [validation_error],
    [no_results] and [service_error]. *)
Theorem handle_search_flights_is_read_only (params : pydict) (st : store) :
  exists reported,
    handle_search_flights params st = (Ok (JObj reported), st)
    /\ (lookup "success" reported = Some (JBool true)
        \/ (lookup "success" reported = Some (JBool false)
            /\ exists kind,
                 lookup "error_type" reported = Some (JStr kind)
                 /\ In kind ["validation_error"; "no_results";
                             "service_error"]%string)).
Proof.
  unfold handle_search_flights, guarded.
  destruct (first_missing _ params) as [p|].
  { eexists. split; [reflexivity|]. right. split; [reflexivity|].
    eexists. split; [reflexivity|]. simpl; auto. }
  unfold bind at 1. unfold lift.
  destruct (py_int _) as [passengers|e].
  2:{ destruct (is_ValueError e); simpl;
        (eexists; split; [reflexivity|]; right; split; [reflexivity|];
         eexists; split; [reflexivity|]; simpl; auto). }
  destruct ((passengers <? 1) || (9 <? passengers)).
  { eexists. split; [reflexivity|]. right. split; [reflexivity|].
    eexists. split; [reflexivity|]. simpl; auto. }
  unfold bind.
  pose proof (search_flights_read_only
                (dict_get params "origin" JNull)
                (dict_get params "destination" JNull)
                (dict_get params "departure_date" JNull)
                (dict_get params "return_date" JNull) passengers st) as Hro.
  destruct (search_flights _ _ _ _ passengers st) as [[found|e] st1].
  - simpl in Hro. subst st1. destruct found as [|out back]; simpl.
    + eexists. split; [reflexivity|]. right. split; [reflexivity|].
      eexists. split; [reflexivity|]. simpl; auto.
    + eexists. split; [reflexivity|]. left. reflexivity.
  - simpl in Hro. subst st1.
    destruct (is_ValueError e); simpl;
      (eexists; split; [reflexivity|]; right; split; [reflexivity|];
       eexists; split; [reflexivity|]; simpl; auto).
Qed.

(** X11.  On a well-formed search (string airports, one to nine passengers,
    dates that can be bound) the [no_results] failure is the answer to an
    unknown airport and to nothing else: it is returned exactly when the
    origin or the destination matches no airport row. *)
Theorem handle_search_flights_no_results_iff_unknown_airport
        (params : pydict) (st : store) (origin destination : string)
        (passengers : Z) :
  first_missing ["origin"; "destination"; "departure_date"; "passengers"]%string
                params = None ->
  dict_get params "origin" JNull = JStr origin ->
  dict_get params "destination" JNull = JStr destination ->
  py_int (dict_get params "passengers" JNull) = Ok passengers ->
  1 <= passengers <= 9 ->
  sql_bindable (dict_get params "departure_date" JNull) = true ->
  sql_bindable (dict_get params "return_date" JNull) = true ->
  exists reported,
    handle_search_flights params st = (Ok (JObj reported), st)
    /\ (lookup "error_type" reported = Some (JStr "no_results")
        <-> select_airport_ids (str_upper origin) ("%" +++ origin +++ "%") st = []
            \/ select_airport_ids (str_upper destination)
                                  ("%" +++ destination +++ "%") st = []).
Proof.
  intros Hreq Ho Hd Hp Hrange Hdep Hret.
  unfold handle_search_flights, guarded. rewrite Hreq.
  unfold bind at 1. unfold lift. rewrite Hp.
  assert (Hr : ((passengers <? 1) || (9 <? passengers)) = false).
  { apply orb_false_iff. split; apply Z.ltb_ge; lia. }
  rewrite Hr.
  assert (Hfits : is_int64 passengers = true) by (apply is_int64_intro; lia).
  unfold search_flights, bind, lift, execute_query, ret.
  rewrite Ho, Hd. simpl str_method. cbv iota beta.
  destruct (select_airport_ids (str_upper origin) _ st) as [|oid oids].
  { eexists. split; [reflexivity|]. split; [auto|reflexivity]. }
  destruct (select_airport_ids (str_upper destination) _ st) as [|did dids].
  { eexists. split; [reflexivity|]. split; [auto|reflexivity]. }
  rewrite (bind_param_bindable "3" _ st Hdep),
    (bind_param_int "4" passengers st Hfits).
  destruct (truthy (dict_get params "return_date" JNull)).
  - rewrite (bind_param_bindable "3" _ st Hret). eexists. split; [reflexivity|].
    split; [discriminate|intros [H | H]; discriminate H].
  - eexists. split; [reflexivity|].
    split; [discriminate|intros [H | H]; discriminate H].
Qed.

(** X12.  A booking request goes through the handler to the service and
    back: with a flight id of at most 64 bits, passenger details that are a
    dict or decode to one, an existing flight and enough seats,
    [handle_book_flight] answers [success: true] with a CONFIRMED
    confirmation that carries the generated reference and the price
    [base_price * n], the product of the two as doubles, and the store it
    leaves holds the new booking and the flight with [n] seats fewer. *)
Theorem handle_book_flight_books
        (now : datetime) (params : pydict) (st : store) (fid : Z)
        (passenger_details : pydict)
        (flight : flight_row) (others : list flight_row) (n : Z) :
  first_missing ["flight_id"; "passenger_details"]%string params = None ->
  py_int (dict_get params "flight_id" JNull) = Ok fid ->
  is_int64 fid = true ->
  parse_passenger_details (dict_get params "passenger_details" JNull)
  = Ok (JObj passenger_details) ->
  select_flight fid st = flight :: others ->
  py_len (dict_get passenger_details "passengers" (JList [])) = Ok n ->
  n <= available_seats flight ->
  is_int64 n = true ->
  sql_bindable (dict_get passenger_details "user_id" (JInt 1)) = true ->
  exists reported confirmation st' booking flight' others',
    handle_book_flight now params st = (Ok (JObj reported), st')
    /\ lookup "success" reported = Some (JBool true)
    /\ lookup "booking_confirmation" reported = Some confirmation
    /\ field "status" confirmation = Some (JStr "CONFIRMED")
    /\ field "booking_reference" confirmation
       = Some (JStr ("FL" +++ strftime now "%Y%m%d%H%M%S"))
    /\ field "total_price" confirmation
       = Some (JFloat (float_mul (base_price flight) (float_of_Z n)))
    /\ flight_bookings st' = flight_bookings st ++ [booking]
    /\ fb_passenger_count booking = n
    /\ fb_booking_status booking = "CONFIRMED"%string
    /\ select_flight fid st' = flight' :: others'
    /\ flight_id flight' = fid
    /\ available_seats flight' = available_seats flight - n.
Proof.
  intros Hreq Hfid Hfits Hdetails Hsel Hlen Hcap Hn Hbind.
  unfold handle_book_flight, guarded. rewrite Hreq.
  unfold bind at 1. unfold lift at 1. rewrite Hfid.
  rewrite Hdetails.
  unfold bind at 1. unfold lift at 1. simpl as_dict. cbv iota beta.
  unfold bind at 1.
  rewrite (book_flight_existing now _ fid passenger_details st flight others n
             Hfits Hsel Hlen Hcap Hn Hbind).
  cbv iota beta. unfold bind, lift, ret. simpl.
  eexists _, _, _, _, _, _. split; [reflexivity|].
  repeat (split; [reflexivity|]).
  rewrite select_flight_add_available_seats, select_flight_set_flight_bookings,
    Hsel.
  simpl map. split; [reflexivity|].
  split; [exact (select_flight_id fid st flight others Hsel)|]. simpl. lia.
Qed.


Lemma lookup_dict_set_same (k : string) (v : json) (d : pydict) :
  lookup k (dict_set k v d) = Some v.
Proof.
  induction d as [|[k' v'] d IH]; simpl.
  - rewrite String.eqb_refl. reflexivity.
  - destruct (String.eqb k k') eqn:E; simpl.
    + rewrite String.eqb_refl. reflexivity.
    + rewrite E. exact IH.
Qed.

Lemma lookup_dict_set_other (k k' : string) (v : json) (d : pydict) :
  k' <> k -> lookup k' (dict_set k v d) = lookup k' d.
Proof.
  intros Hne. induction d as [|[k0 v0] d IH]; simpl.
  - apply String.eqb_neq in Hne. rewrite Hne. reflexivity.
  - destruct (String.eqb k k0) eqn:E; simpl.
    + apply String.eqb_eq in E. subst k0.
      apply String.eqb_neq in Hne. rewrite Hne. reflexivity.
    + destruct (String.eqb k' k0); [reflexivity|exact IH].
Qed.

Lemma build_params_app (items more : list json) (acc : pydict) :
  build_params (items ++ more) acc
  = match build_params items acc with
    | Ok params => build_params more params
    | Raise e => Raise e
    end.
Proof.
  revert acc. induction items as [|param items IH]; intros acc; simpl;
    [reflexivity|].
  destruct (as_dict param) as [p|e]; [|reflexivity].
  destruct (dict_get p "name" JNull); try apply IH; reflexivity.
Qed.

(** X15.  When a parameter name occurs more than once in the event, the
    last occurrence wins: the dict built from a parameter list that ends
    with a parameter called [name] maps [name] to that parameter's value
    (to [None] when it has no value), and maps every other name to what the
    preceding parameters gave it. *)
Theorem build_params_last_wins
        (items : list json) (last : pydict) (name : string) (earlier : pydict) :
  build_params items [] = Ok earlier ->
  dict_get last "name" JNull = JStr name ->
  exists params,
    build_params (items ++ [JObj last]) [] = Ok params
    /\ lookup name params = Some (dict_get last "value" JNull)
    /\ forall other, other <> name -> lookup other params = lookup other earlier.
Proof.
  intros Hitems Hname.
  rewrite build_params_app, Hitems. simpl. rewrite Hname.
  eexists. split; [reflexivity|]. split.
  - apply lookup_dict_set_same.
  - intros other Hne. apply lookup_dict_set_other. exact Hne.
Qed.

End FlightAgentProperties.


Section RouterProperties.
Context `{RT : Runtime}.


End RouterProperties.

(** ** The router's classifier, continued *)

Section ClassifierCounts.
Context `{RT : Runtime}.





(** X17.  The recommended approach never says "sequential": the agent
    sequence holds the planner at most, so its length is never above one and
    the text always reads "Coordinate <n> specialist agents with parallel
    execution", [n] being the number of required agents. *)
Theorem analyze_travel_request_always_parallel (user_request : string) :
  let agents := required_agents (classify (str_lower user_request)) in
  field "recommended_approach" (analyze_travel_request user_request)
  = Some (JStr ("Coordinate " +++ py_str (JInt (Z.of_nat (List.length agents)))
                +++ " specialist agents with parallel execution")).
Proof.
  intros agents. unfold analyze_travel_request. fold agents.
  destruct (mem_string "travel-planner-agent" agents); reflexivity.
Qed.



End ClassifierCounts.

(** ** The car rental service and its booking handler *)

Section CarRentalProperties.
Context `{RT : Runtime}.

(** X20.  Nothing stops a second rental of a rented car: after a successful
    booking of a vehicle, a second booking of the same vehicle, for any
    dates that parse, the same ones included, succeeds as well, and the
    table ends with two CONFIRMED bookings of that vehicle. *)
Theorem book_car_twice
        (now1 now2 : datetime) (user1 user2 : json)
        (vid from1 to1 from2 to2 : Z)
        (pickup_date1 dropoff_date1 pickup_date2 dropoff_date2 : string)
        (driver1 driver2 : pydict) (st : store)
        (vehicle : vehicle_row) (others : list vehicle_row)
        (pickup1 dropoff1 pickup2 dropoff2 : datetime) :
  strptime pickup_date1 "%Y-%m-%d %H:%M:%S" = Ok pickup1 ->
  strptime dropoff_date1 "%Y-%m-%d %H:%M:%S" = Ok dropoff1 ->
  strptime pickup_date2 "%Y-%m-%d %H:%M:%S" = Ok pickup2 ->
  strptime dropoff_date2 "%Y-%m-%d %H:%M:%S" = Ok dropoff2 ->
  valid_datetime pickup1 -> valid_datetime dropoff1 ->
  valid_datetime pickup2 -> valid_datetime dropoff2 ->
  is_int64 vid = true ->
  select_vehicle vid st = vehicle :: others ->
  sql_bindable user1 = true ->
  is_int64 from1 = true -> is_int64 to1 = true ->
  sql_bindable (dict_get driver1 "license_number" JNull) = true ->
  sql_bindable user2 = true ->
  is_int64 from2 = true -> is_int64 to2 = true ->
  sql_bindable (dict_get driver2 "license_number" JNull) = true ->
  exists first st1 second st2 booking1 booking2,
    book_car now1 user1 vid from1 to1 pickup_date1 dropoff_date1 driver1 st
    = (Ok (JObj first), st1)
    /\ lookup "success" first = Some (JBool true)
    /\ book_car now2 user2 vid from2 to2 pickup_date2 dropoff_date2 driver2 st1
       = (Ok (JObj second), st2)
    /\ lookup "success" second = Some (JBool true)
    /\ car_rental_bookings st2 = car_rental_bookings st ++ [booking1; booking2]
    /\ cb_vehicle_id booking1 = vid /\ cb_vehicle_id booking2 = vid
    /\ cb_booking_status booking1 = "CONFIRMED"%string
    /\ cb_booking_status booking2 = "CONFIRMED"%string.
Proof.
  intros Hp1 Hd1 Hp2 Hd2 Hvp1 Hvd1 Hvp2 Hvd2 Hvid Hv Hu1 Hf1 Ht1 Hl1 Hu2 Hf2 Ht2 Hl2.
  pose proof (book_car_existing now1 user1 vid from1 to1 pickup_date1
                dropoff_date1 driver1 st vehicle others pickup1 dropoff1
                Hp1 Hd1 Hvp1 Hvd1 Hvid Hv Hu1 Hf1 Ht1 Hl1) as Hfirst.
  cbv zeta in Hfirst.
  match type of Hfirst with
  | _ = (Ok (JObj ?r), ?s) => set (first := r) in *; set (st1 := s) in *
  end.
  assert (Hv1 : select_vehicle vid st1
                = set_availability_status vehicle "RENTED"
                  :: map (fun v => set_availability_status v "RENTED") others).
  { unfold st1. rewrite select_vehicle_mark_rented.
    change (select_vehicle vid (set_car_rental_bookings st _))
      with (select_vehicle vid st).
    rewrite Hv. reflexivity. }
  pose proof (book_car_existing now2 user2 vid from2 to2 pickup_date2
                dropoff_date2 driver2 st1 _ _ pickup2 dropoff2
                Hp2 Hd2 Hvp2 Hvd2 Hvid Hv1 Hu2 Hf2 Ht2 Hl2) as Hsecond.
  cbv zeta in Hsecond.
  eexists first, st1, _, _, _, _.
  split; [exact Hfirst|]. split; [reflexivity|].
  split; [exact Hsecond|]. split; [reflexivity|].
  split.
  - unfold mark_rented at 1. simpl car_rental_bookings.
    rewrite <- app_assoc. reflexivity.
  - repeat split.
Qed.

(** X21.  The day count floors, so one day is billed for everything short
    of two full days: with timestamps that parse, the dropoff date [n]
    calendar days after the pickup date, and an existing vehicle, the
    booking reports [rental_days = 1] exactly when less than 48 hours lie
    between pickup and dropoff, a dropoff before the pickup included; the
    days billed are never fewer than one. *)
Theorem book_car_bills_one_day_under_48_hours
        (now : datetime) (user_id : json) (vid pickup_id dropoff_id : Z)
        (pickup_date dropoff_date : string) (driver_details : pydict)
        (st : store) (vehicle : vehicle_row) (others : list vehicle_row)
        (pickup dropoff : datetime) (n : Z) :
  strptime pickup_date "%Y-%m-%d %H:%M:%S" = Ok pickup ->
  strptime dropoff_date "%Y-%m-%d %H:%M:%S" = Ok dropoff ->
  valid_datetime pickup ->
  valid_datetime dropoff ->
  days_from (to_date pickup) (to_date dropoff) n ->
  is_int64 vid = true ->
  select_vehicle vid st = vehicle :: others ->
  sql_bindable user_id = true ->
  is_int64 pickup_id = true ->
  is_int64 dropoff_id = true ->
  sql_bindable (dict_get driver_details "license_number" JNull) = true ->
  exists reported st' days,
    book_car now user_id vid pickup_id dropoff_id pickup_date dropoff_date
             driver_details st
    = (Ok (JObj reported), st')
    /\ lookup "rental_days" reported = Some (JInt days)
    /\ lookup "total_price" reported
       = Some (JFloat (float_mul (daily_rate vehicle) (float_of_Z days)))
    /\ 1 <= days
    /\ (days = 1 <->
        n * US_PER_DAY + time_of_day dropoff - time_of_day pickup
        < 2 * US_PER_DAY).
Proof.
  intros Hp Hd Hvp Hvd Hn Hvid Hv Hu Hfrom Hto Hl.
  rewrite (book_car_existing now user_id vid pickup_id dropoff_id pickup_date
             dropoff_date driver_details st vehicle others pickup dropoff)
    by assumption.
  rewrite (rental_days_whole_days pickup dropoff n Hvp Hvd Hn).
  eexists _, _, _. split; [reflexivity|].
  split; [reflexivity|]. split; [reflexivity|].
  pose proof (time_of_day_range pickup (proj2 Hvp)) as Hrp.
  pose proof (time_of_day_range dropoff (proj2 Hvd)) as Hrd.
  unfold whole_days.
  destruct (time_of_day dropoff <? time_of_day pickup) eqn:E;
    [apply Z.ltb_lt in E | apply Z.ltb_ge in E];
    (split; [lia|]); unfold US_PER_DAY in *; lia.
Qed.

(** [book_car] changes the store only by the row it inserts and the status
    it sets. *)
Lemma book_car_store
      (now : datetime) (user_id : json) (vid pickup_id dropoff_id : Z)
      (pickup_date dropoff_date : string) (driver_details : pydict)
      (st : store) :
  let run := book_car now user_id vid pickup_id dropoff_id pickup_date
                      dropoff_date driver_details st in
  (snd run = st
   /\ forall reported, fst run = Ok (JObj reported) ->
                       lookup "success" reported = Some (JBool false))
  \/ exists reported booking,
       fst run = Ok (JObj reported)
       /\ lookup "success" reported = Some (JBool true)
       /\ cb_vehicle_id booking = vid
       /\ snd run = mark_rented vid
                      (set_car_rental_bookings st
                         (car_rental_bookings st ++ [booking])).
Proof.
  unfold book_car, bind, lift, execute_query, ret, raise,
    execute_insert, execute_update, insert_car_booking.
  destruct (strptime pickup_date _) as [pickup|]; simpl.
  2:{ left. split; [reflexivity|]. intros r H. discriminate H. }
  destruct (strptime dropoff_date _) as [dropoff|]; simpl.
  2:{ left. split; [reflexivity|]. intros r H. discriminate H. }
  destruct (bind_param_outcome "1" (JInt vid) st) as [-> | [e ->]]; simpl.
  2:{ left. split; [reflexivity|]. intros r H. discriminate H. }
  destruct (select_vehicle vid st); simpl.
  { left. split; [reflexivity|]. intros r H. inversion H. reflexivity. }
  destruct (py_mul _ _); simpl.
  2:{ left. split; [reflexivity|]. intros r H. discriminate H. }
  destruct (bind_param_outcome "1" user_id st) as [-> | [e ->]]; simpl.
  2:{ left. split; [reflexivity|]. intros r H. discriminate H. }
  destruct (bind_param_outcome "3" (JInt pickup_id) st) as [-> | [e ->]]; simpl.
  2:{ left. split; [reflexivity|]. intros r H. discriminate H. }
  destruct (bind_param_outcome "4" (JInt dropoff_id) st) as [-> | [e ->]]; simpl.
  2:{ left. split; [reflexivity|]. intros r H. discriminate H. }
  destruct (bind_param_outcome
              "8" (JInt (Z.max 1 (datetime_diff_days dropoff pickup))) st)
    as [-> | [e ->]]; simpl.
  2:{ left. split; [reflexivity|]. intros r H. discriminate H. }
  destruct (bind_param_outcome
              "11" (dict_get driver_details "license_number" JNull) st)
    as [-> | [e ->]]; simpl.
  2:{ left. split; [reflexivity|]. intros r H. discriminate H. }
  right. eexists _, _.
  split; [reflexivity|]. split; [reflexivity|]. split; [|reflexivity].
  reflexivity.
Qed.

Lemma select_vehicle_mark_rented_other (vid other : Z) (st : store) :
  other <> vid ->
  select_vehicle other (mark_rented vid st) = select_vehicle other st.
Proof.
  intros Hne. unfold select_vehicle, mark_rented; simpl.
  induction (available_vehicles st) as [|v vs IH]; simpl; [reflexivity|].
  destruct (vehicle_id v =? vid) eqn:E; simpl; rewrite IH; [|reflexivity].
  apply Z.eqb_eq in E.
  destruct (vehicle_id v =? other) eqn:E'; [|reflexivity].
  apply Z.eqb_eq in E'. congruence.
Qed.

(** X22.  A car booking writes only when it succeeds and only where it
    should: either the store is left exactly as it was and the outcome is
    an exception or a [success: false] result, or the result has
    [success: true], one booking of the vehicle has been appended, the
    vehicles of every other id read back unchanged (no status but that of
    the booked id is touched), and the flight and hotel tables are as they
    were. *)
Theorem book_car_writes_only_on_success
        (now : datetime) (user_id : json) (vid pickup_id dropoff_id : Z)
        (pickup_date dropoff_date : string) (driver_details : pydict)
        (st : store) :
  let run := book_car now user_id vid pickup_id dropoff_id pickup_date
                      dropoff_date driver_details st in
  (snd run = st
   /\ forall reported, fst run = Ok (JObj reported) ->
                       lookup "success" reported = Some (JBool false))
  \/ (exists reported booking,
         fst run = Ok (JObj reported)
         /\ lookup "success" reported = Some (JBool true)
         /\ car_rental_bookings (snd run) = car_rental_bookings st ++ [booking]
         /\ cb_vehicle_id booking = vid)
     /\ (forall other, other <> vid ->
                       select_vehicle other (snd run) = select_vehicle other st)
     /\ flights (snd run) = flights st
     /\ flight_bookings (snd run) = flight_bookings st
     /\ room_types (snd run) = room_types st
     /\ hotel_bookings (snd run) = hotel_bookings st.
Proof.
  cbv zeta.
  destruct (book_car_store now user_id vid pickup_id dropoff_id pickup_date
              dropoff_date driver_details st)
    as [Hsame | (reported & booking & Hrun & Hok & Hvid & Hst)];
    [left; exact Hsame|].
  right. rewrite Hst. split.
  - exists reported, booking. repeat split; assumption.
  - split; [|repeat split].
    intros other Hne. rewrite select_vehicle_mark_rented_other by exact Hne.
    reflexivity.
Qed.

(** The handler's path to the service, up to the call of [book_car]. *)
Lemma handle_book_car_reaches_service
      (now : datetime) (params : pydict) (st : store)
      (vid pickup_id dropoff_id : Z) (driver_details : pydict)
      (pickup_date dropoff_date : string) :
  first_missing ["car_id"; "pickup_location_id"; "dropoff_location_id";
                 "pickup_date"; "dropoff_date"; "driver_details"]%string
                params = None ->
  py_int (dict_get params "car_id" JNull) = Ok vid ->
  py_int (dict_get params "pickup_location_id" JNull) = Ok pickup_id ->
  py_int (dict_get params "dropoff_location_id" JNull) = Ok dropoff_id ->
  dict_get params "pickup_date" JNull = JStr pickup_date ->
  dict_get params "dropoff_date" JNull = JStr dropoff_date ->
  parse_passenger_details (dict_get params "driver_details" JNull)
  = Ok (JObj driver_details) ->
  dict_mem "license_number" driver_details = true ->
  handle_book_car now params st
  = guarded true "Car rental booking failed: "
      (booking_result <-
         book_car now (dict_get driver_details "user_id" (JInt 1)) vid pickup_id
                  dropoff_id pickup_date dropoff_date driver_details ;;
       booking <- lift (as_dict booking_result) ;;
       if negb (truthy (dict_get booking "success" JNull)) then ret booking_result
       else
         let reference := dict_get booking "booking_reference" JNull in
         ret (JObj [jsuccess true;
                    ("rental_confirmation"%string,
                     JObj [("booking_id"%string, dict_get booking "booking_id" JNull);
                           ("booking_reference"%string, reference);
                           ("total_price"%string,
                            dict_get booking "total_price" JNull);
                           ("currency"%string, dict_get booking "currency" JNull);
                           ("rental_days"%string,
                            dict_get booking "rental_days" JNull);
                           ("pickup_date"%string, JStr pickup_date);
                           ("dropoff_date"%string, JStr dropoff_date);
                           ("status"%string, JStr "CONFIRMED");
                           ("booking_date"%string, JStr (isoformat now))]);
                    ("pickup_instructions"%string,
                     JObj [("location"%string,
                            JStr "Pickup location details will be provided");
                           ("requirements"%string,
                            JList [JStr "Valid driver's license";
                                   JStr "Credit card in driver's name";
                                   JStr "Proof of insurance (if applicable)"]);
                           ("contact"%string,
                            JStr "Rental location phone number will be provided")]);
                    ("message"%string,
                     JStr ("Car rental successfully booked! Your booking reference is "
                           +++ py_str reference))]))
      st.
Proof.
  intros Hreq Hvid Hfrom Hto Hp Hd Hdetails Hlic.
  unfold handle_book_car. rewrite Hreq.
  unfold guarded. f_equal.
  unfold bind at 1. unfold lift at 1. rewrite Hvid.
  unfold bind at 1. unfold lift at 1. rewrite Hfrom.
  unfold bind at 1. unfold lift at 1. rewrite Hto.
  rewrite Hdetails.
  unfold bind at 1. unfold lift at 1. unfold py_contains. rewrite Hlic.
  simpl negb. cbv iota.
  unfold bind at 1. unfold lift at 1. simpl as_dict. cbv iota beta.
  rewrite Hp, Hd. reflexivity.
Qed.


(** X24.  Unlike the search handler, the booking handler does not compare
    the two dates: with complete parameters, a licence, an existing vehicle
    and a dropoff on the day of the pickup or on an earlier day,
    [handle_book_car] books the car, confirms one rental day at the daily
    rate, and the vehicle is found afterwards with the status RENTED. *)
Theorem handle_book_car_accepts_reversed_dates
        (now : datetime) (params : pydict) (st : store)
        (vid pickup_id dropoff_id : Z) (driver_details : pydict)
        (pickup_date dropoff_date : string) (pickup dropoff : datetime)
        (vehicle : vehicle_row) (others : list vehicle_row) (n : Z) :
  first_missing ["car_id"; "pickup_location_id"; "dropoff_location_id";
                 "pickup_date"; "dropoff_date"; "driver_details"]%string
                params = None ->
  py_int (dict_get params "car_id" JNull) = Ok vid ->
  py_int (dict_get params "pickup_location_id" JNull) = Ok pickup_id ->
  py_int (dict_get params "dropoff_location_id" JNull) = Ok dropoff_id ->
  dict_get params "pickup_date" JNull = JStr pickup_date ->
  dict_get params "dropoff_date" JNull = JStr dropoff_date ->
  parse_passenger_details (dict_get params "driver_details" JNull)
  = Ok (JObj driver_details) ->
  dict_mem "license_number" driver_details = true ->
  strptime pickup_date "%Y-%m-%d %H:%M:%S" = Ok pickup ->
  strptime dropoff_date "%Y-%m-%d %H:%M:%S" = Ok dropoff ->
  valid_datetime pickup ->
  valid_datetime dropoff ->
  days_from (to_date pickup) (to_date dropoff) n ->
  n <= 0 ->
  is_int64 vid = true ->
  is_int64 pickup_id = true ->
  is_int64 dropoff_id = true ->
  select_vehicle vid st = vehicle :: others ->
  sql_bindable (dict_get driver_details "user_id" (JInt 1)) = true ->
  sql_bindable (dict_get driver_details "license_number" JNull) = true ->
  exists reported confirmation st' vehicle' others',
    handle_book_car now params st = (Ok (JObj reported), st')
    /\ lookup "success" reported = Some (JBool true)
    /\ lookup "rental_confirmation" reported = Some confirmation
    /\ field "rental_days" confirmation = Some (JInt 1)
    /\ field "total_price" confirmation
       = Some (JFloat (float_mul (daily_rate vehicle) (float_of_Z 1)))
    /\ select_vehicle vid st' = vehicle' :: others'
    /\ vehicle_id vehicle' = vehicle_id vehicle
    /\ availability_status vehicle' = "RENTED"%string.
Proof.
  intros Hreq Hvid Hfrom Hto Hp Hd Hdetails Hlic Hpick Hdrop Hvp Hvd Hn Hback
         Hfits Hffits Htfits Hv Hu Hl.
  rewrite (handle_book_car_reaches_service now params st vid pickup_id
             dropoff_id driver_details pickup_date dropoff_date)
    by assumption.
  unfold guarded, bind at 1.
  rewrite (book_car_existing now _ vid pickup_id dropoff_id pickup_date
             dropoff_date driver_details st vehicle others pickup dropoff)
    by assumption.
  assert (Hdays : Z.max 1 (datetime_diff_days dropoff pickup) = 1).
  { rewrite (rental_days_whole_days pickup dropoff n Hvp Hvd Hn).
    unfold whole_days. destruct (time_of_day dropoff <? time_of_day pickup); lia. }
  rewrite Hdays.
  unfold bind, lift, ret. simpl.
  eexists _, _, _, _, _. split; [reflexivity|].
  repeat (split; [reflexivity|]).
  rewrite select_vehicle_mark_rented.
  change (select_vehicle vid (set_car_rental_bookings st _))
    with (select_vehicle vid st).
  rewrite Hv. simpl map. split; [reflexivity|]. split; reflexivity.
Qed.

End CarRentalProperties.

(** ** The hotel service and its booking handler *)

Section HotelBookingProperties.
Context `{RT : Runtime}.

(** The handler's path to the service, up to the call of [book_hotel]. *)
Lemma handle_book_hotel_reaches_service
      (now : datetime) (params : pydict) (st : store) (hid rid : Z)
      (guest_details : pydict) (check_in_date check_out_date : string) :
  first_missing ["hotel_id"; "room_type_id"; "check_in_date"; "check_out_date";
                 "guest_details"]%string params = None ->
  py_int (dict_get params "hotel_id" JNull) = Ok hid ->
  py_int (dict_get params "room_type_id" JNull) = Ok rid ->
  dict_get params "check_in_date" JNull = JStr check_in_date ->
  dict_get params "check_out_date" JNull = JStr check_out_date ->
  parse_passenger_details (dict_get params "guest_details" JNull)
  = Ok (JObj guest_details) ->
  handle_book_hotel now params st
  = guarded true "Hotel booking failed: "
      (booking_result <-
         book_hotel now (dict_get guest_details "user_id" (JInt 1)) hid rid
                    check_in_date check_out_date guest_details ;;
       booking <- lift (as_dict booking_result) ;;
       if negb (truthy (dict_get booking "success" JNull)) then ret booking_result
       else
         let reference := dict_get booking "booking_reference" JNull in
         ret (JObj [jsuccess true;
                    ("reservation_confirmation"%string,
                     JObj [("booking_id"%string, dict_get booking "booking_id" JNull);
                           ("booking_reference"%string, reference);
                           ("total_price"%string,
                            dict_get booking "total_price" JNull);
                           ("currency"%string, dict_get booking "currency" JNull);
                           ("nights"%string, dict_get booking "nights" JNull);
                           ("check_in_date"%string, JStr check_in_date);
                           ("check_out_date"%string, JStr check_out_date);
                           ("status"%string, JStr "CONFIRMED");
                           ("booking_date"%string, JStr (isoformat now))]);
                    ("check_in_instructions"%string,
                     JObj [("check_in_time"%string, JStr "15:00");
                           ("check_out_time"%string, JStr "11:00");
                           ("instructions"%string,
                            JStr "Please bring a valid ID and credit card for check-in")]);
                    ("message"%string,
                     JStr ("Hotel successfully booked! Your booking reference is "
                           +++ py_str reference))]))
      st.
Proof.
  intros Hreq Hhid Hrid Hi Ho Hdetails.
  unfold handle_book_hotel. rewrite Hreq.
  unfold guarded. f_equal.
  unfold bind at 1. unfold lift at 1. rewrite Hhid.
  unfold bind at 1. unfold lift at 1. rewrite Hrid.
  rewrite Hdetails.
  unfold bind at 1. unfold lift at 1. simpl as_dict. cbv iota beta.
  rewrite Hi, Ho. reflexivity.
Qed.

(** X25.  The hotel booking handler does not compare the two dates: with
    complete parameters, an existing room type and a check-out on the
    check-in day or on an earlier day, [handle_book_hotel] books the stay
    and confirms a number of nights that is zero or negative, at the total
    price that number of nights multiplies to, and a CONFIRMED row with
    those nights is added to the hotel bookings. *)
Theorem handle_book_hotel_accepts_reversed_dates
        (now : datetime) (params : pydict) (st : store) (hid rid : Z)
        (guest_details : pydict) (check_in_date check_out_date : string)
        (check_in check_out : datetime)
        (room : room_type_row) (others : list room_type_row)
        (guest_count nights : Z) (total : float) :
  first_missing ["hotel_id"; "room_type_id"; "check_in_date"; "check_out_date";
                 "guest_details"]%string params = None ->
  py_int (dict_get params "hotel_id" JNull) = Ok hid ->
  py_int (dict_get params "room_type_id" JNull) = Ok rid ->
  dict_get params "check_in_date" JNull = JStr check_in_date ->
  dict_get params "check_out_date" JNull = JStr check_out_date ->
  parse_passenger_details (dict_get params "guest_details" JNull)
  = Ok (JObj guest_details) ->
  strptime check_in_date "%Y-%m-%d" = Ok check_in ->
  strptime check_out_date "%Y-%m-%d" = Ok check_out ->
  valid_date (to_date check_in) ->
  valid_date (to_date check_out) ->
  days_from (to_date check_in) (to_date check_out) nights ->
  nights <= 0 ->
  is_int64 rid = true ->
  select_room_type rid st = room :: others ->
  py_len (dict_get guest_details "guests" (JList [])) = Ok guest_count ->
  py_mul (float_mul (base_price_per_night room) (float_of_Z nights))
         (dict_get guest_details "room_count" (JInt 1)) = Ok total ->
  sql_bindable (dict_get guest_details "user_id" (JInt 1)) = true ->
  is_int64 hid = true ->
  is_int64 guest_count = true ->
  sql_bindable (dict_get guest_details "room_count" (JInt 1)) = true ->
  exists reported confirmation st' booking,
    handle_book_hotel now params st = (Ok (JObj reported), st')
    /\ lookup "success" reported = Some (JBool true)
    /\ lookup "reservation_confirmation" reported = Some confirmation
    /\ field "nights" confirmation = Some (JInt nights)
    /\ field "total_price" confirmation = Some (JFloat total)
    /\ hotel_bookings st' = hotel_bookings st ++ [booking]
    /\ hb_total_nights booking = nights
    /\ hb_total_price booking = total
    /\ hb_booking_status booking = "CONFIRMED"%string.
Proof.
  intros Hreq Hhid Hrid Hi Ho Hdetails Hin Hout Hvi Hvo Hdays Hback Hrfits Hroom
         Hguests Htotal Hbind Hhfits Hgfits Hrc.
  assert (Hnights : date_diff_days (to_date check_out) (to_date check_in) = nights).
  { unfold date_diff_days.
    apply days_from_toordinal; [apply Hvi|apply Hvo|exact Hdays]. }
  assert (Hrange : is_int64 nights = true).
  { rewrite <- Hnights. apply date_diff_days_int64; assumption. }
  rewrite (handle_book_hotel_reaches_service now params st hid rid guest_details
             check_in_date check_out_date) by assumption.
  unfold guarded, bind at 1.
  rewrite (book_hotel_existing now _ hid rid check_in_date check_out_date
             guest_details st room others check_in check_out guest_count total);
    rewrite ?Hnights; try assumption.
  unfold bind, lift, ret. simpl.
  eexists _, _, _, _. split; [reflexivity|].
  repeat (split; [reflexivity|]). reflexivity.
Qed.

(** X26.  The hotel id of a booking is stored and never checked: the
    outcome of [book_hotel] is the same for any two hotel ids of at most 64
    bits, whether or not a hotel has that id and whether or not the room
    type belongs to it, and on success the row that is added carries the id
    as it was given. *)
Theorem book_hotel_ignores_hotel_id
        (now : datetime) (user_id : json) (hid hid' rid : Z)
        (check_in_date check_out_date : string) (guest_details : pydict)
        (st : store) :
  is_int64 hid = true ->
  is_int64 hid' = true ->
  fst (book_hotel now user_id hid rid check_in_date check_out_date
                  guest_details st)
  = fst (book_hotel now user_id hid' rid check_in_date check_out_date
                    guest_details st)
  /\ forall reported,
       fst (book_hotel now user_id hid rid check_in_date check_out_date
                       guest_details st) = Ok (JObj reported) ->
       lookup "success" reported = Some (JBool true) ->
       exists booking,
         hotel_bookings
           (snd (book_hotel now user_id hid rid check_in_date check_out_date
                            guest_details st))
         = hotel_bookings st ++ [booking]
         /\ hb_hotel_id booking = hid
         /\ hb_room_type_id booking = rid.
Proof.
  intros Hfits Hfits'.
  unfold book_hotel, bind, lift, execute_query, ret, raise,
    execute_insert, insert_hotel_booking.
  destruct (strptime check_in_date _) as [check_in|]; simpl;
    [|split; [reflexivity|intros reported H; discriminate H]].
  destruct (strptime check_out_date _) as [check_out|]; simpl;
    [|split; [reflexivity|intros reported H; discriminate H]].
  destruct (bind_param_outcome "1" (JInt rid) st) as [-> | [e ->]]; simpl;
    [|split; [reflexivity|intros reported H; discriminate H]].
  destruct (select_room_type rid st); simpl.
  { split; [reflexivity|]. intros reported H Hok. inversion H; subst. discriminate Hok. }
  destruct (py_len _) as [guest_count|]; simpl;
    [|split; [reflexivity|intros reported H; discriminate H]].
  destruct (py_mul _ _); simpl;
    [|split; [reflexivity|intros reported H; discriminate H]].
  destruct (py_mul _ _); simpl;
    [|split; [reflexivity|intros reported H; discriminate H]].
  destruct (bind_param_outcome "1" user_id st) as [-> | [e ->]]; simpl;
    [|split; [reflexivity|intros reported H; discriminate H]].
  rewrite (bind_param_int "2" hid st Hfits), (bind_param_int "2" hid' st Hfits').
  simpl.
  destruct (bind_param_outcome "7" (JInt guest_count) st) as [-> | [e ->]]; simpl;
    [|split; [reflexivity|intros reported H; discriminate H]].
  destruct (bind_param_outcome "8" (dict_get guest_details "room_count" (JInt 1)) st)
    as [-> | [e ->]]; simpl;
    [|split; [reflexivity|intros reported H; discriminate H]].
  destruct (bind_param_outcome
              "9" (JInt (date_diff_days (to_date check_out) (to_date check_in))) st)
    as [-> | [e ->]]; simpl;
    [|split; [reflexivity|intros reported H; discriminate H]].
  split; [reflexivity|]. intros reported _ _. eexists. repeat split.
Qed.


End HotelBookingProperties.

(** ** The travel planner service *)

Section PlannerProperties.
Context `{RT : Runtime}.






End PlannerProperties.

(** ** The analysis handler of the supervisor *)

Section SupervisorHandlerProperties.
Context `{RT : Runtime}.


End SupervisorHandlerProperties.

(** ** Worked requests, continued *)

Section WorkedFurther.
Import Reference Sample Scenario.

Local Notation "'computed'" := (ltac:(reflexivity)) (only parsing).
Local Notation "'checked'" :=
  (ltac:(repeat split; vm_compute; first [reflexivity | discriminate]))
  (only parsing).

Lemma book_flight_keeps_seats_in_range_witness :
  flight_ids_unique db0 /\ seats_in_range db0
  /\ seats_in_range (snd (book_flight noon (JInt 1) 1 two_passengers db0)).
Proof.
  assert (Hkey : flight_ids_unique db0) by (repeat constructor; simpl; tauto).
  assert (Hrange : seats_in_range db0) by (intros f [<- | []]; simpl; lia).
  split; [exact Hkey|]. split; [exact Hrange|].
  exact (proj2 (book_flight_keeps_seats_in_range
                  (RT := runtime) noon (JInt 1) 1 two_passengers db0
                  Hkey Hrange)).
Defined.

Lemma book_then_cancel_restores_seats_witness :
  exists booked st1 cancelled st2,
    book_flight noon (JInt 1) 1 two_passengers db0 = (Ok (JObj booked), st1)
    /\ cancel_flight (JStr "FL20240120120000") st1 = (Ok (JObj cancelled), st2)
    /\ lookup "success" cancelled = Some (JBool true)
    /\ lookup "refund_amount" cancelled
       = Some (JFloat (float_mul (dollars 29999) (float_of_Z 2)))
    /\ flights st2 = flights db0.
Proof.
  assert (Hfresh : forall fb, In fb (flight_bookings db0) ->
                              fb_booking_reference fb
                              <> "FL" +++ strftime noon "%Y%m%d%H%M%S").
  { intros fb [<- | [<- | []]]; discriminate. }
  destruct (book_then_cancel_restores_seats
              (RT := runtime) noon (JInt 1) 1 two_passengers db0 aa100 [] 2
              computed computed computed ltac:(simpl; lia) computed computed
              Hfresh)
    as (booked & st1 & cancelled & st2 & booking & Hbook & _ & _ & Hcancel & Hok
        & Hrefund & Hflights & _).
  exists booked, st1, cancelled, st2.
  repeat split; assumption.
Defined.




Lemma search_flights_orders_by_departure_witness :
  exists out back,
    search_flights (JStr "JFK") (JStr "LAX") (JStr "2024-03-01")
                   (JStr "2024-03-05") 2 db_trips
    = (Ok (Found out back), db_trips)
    /\ map (fun r => departure_time (fr_flight r)) out
       = ["2024-03-01 08:00:00"; "2024-03-01 12:45:00"; "2024-03-01 17:00:00"]%string
    /\ map (fun r => departure_time (fr_flight r)) back
       = ["2024-03-05 06:15:00"; "2024-03-05 21:00:00"]%string
    /\ departs_in_order out /\ departs_in_order back.
Proof.
  exists (select_flights 1 2 (JStr "2024-03-01") 2 db_trips),
         (select_flights 2 1 (JStr "2024-03-05") 2 db_trips).
  split; [reflexivity|]. split; [reflexivity|]. split; [reflexivity|].
  exact (search_flights_orders_by_departure
           (RT := runtime) (JStr "JFK") (JStr "LAX") (JStr "2024-03-01")
           (JStr "2024-03-05") 2 db_trips db_trips
           (select_flights 1 2 (JStr "2024-03-01") 2 db_trips)
           (select_flights 2 1 (JStr "2024-03-05") 2 db_trips) computed).
Defined.

Lemma search_flights_return_leg_witness :
  exists out back,
    search_flights (JStr "JFK") (JStr "LAX") (JStr "2024-03-01")
                   (JStr "2024-03-05") 2 db_trips
    = (Ok (Found out back), db_trips)
    /\ map (fun r => flight_number (fr_flight r)) back
       = ["AA103"; "AA101"]%string
    /\ search_flights (JStr "LAX") (JStr "JFK") (JStr "2024-03-05") JNull 2
                      db_trips
       = (Ok (Found back []), db_trips).
Proof.
  exists (select_flights 1 2 (JStr "2024-03-01") 2 db_trips),
         (select_flights 2 1 (JStr "2024-03-05") 2 db_trips).
  split; [reflexivity|]. split; [reflexivity|].
  exact (search_flights_return_leg
           (RT := runtime) (JStr "JFK") (JStr "LAX") (JStr "2024-03-01")
           (JStr "2024-03-05") 2 db_trips db_trips
           (select_flights 1 2 (JStr "2024-03-01") 2 db_trips)
           (select_flights 2 1 (JStr "2024-03-05") 2 db_trips) computed computed).
Defined.

Lemma handle_search_flights_no_results_iff_unknown_airport_witness :
  exists reported,
    handle_search_flights search_params db0 = (Ok (JObj reported), db0)
    /\ (lookup "error_type" reported = Some (JStr "no_results")
        <-> select_airport_ids (str_upper "JFK") ("%" +++ "JFK" +++ "%") db0 = []
            \/ select_airport_ids (str_upper "LAX") ("%" +++ "LAX" +++ "%") db0
               = []).
Proof.
  exact (handle_search_flights_no_results_iff_unknown_airport
           (RT := runtime) search_params db0 "JFK" "LAX" 2
           computed computed computed computed ltac:(lia) computed computed).
Defined.

Lemma handle_book_flight_books_witness :
  exists reported confirmation st' flight' others',
    handle_book_flight noon (book_flight_params "1") db0
    = (Ok (JObj reported), st')
    /\ lookup "booking_confirmation" reported = Some confirmation
    /\ field "total_price" confirmation
       = Some (JFloat (float_mul (dollars 29999) (float_of_Z 2)))
    /\ select_flight 1 st' = flight' :: others'
    /\ available_seats flight' = 150 - 2.
Proof.
  destruct (handle_book_flight_books
              (RT := runtime) noon (book_flight_params "1") db0 1 two_passengers
              aa100 [] 2 computed computed computed computed computed computed
              ltac:(simpl; lia) computed computed)
    as (reported & confirmation & st' & booking & flight' & others' & Hrun & _
        & Hconf & _ & _ & Hprice & _ & _ & _ & Hsel & _ & Hseats).
  exists reported, confirmation, st', flight', others'.
  repeat split; assumption.
Defined.



Lemma build_params_last_wins_witness :
  let first := JObj [("name"%string, JStr "origin"); ("value"%string, JStr "JFK")] in
  let last := [("name"%string, JStr "origin"); ("value"%string, JStr "BOS")] in
  exists params,
    build_params ([first] ++ [JObj last]) [] = Ok params
    /\ lookup "origin" params = Some (JStr "BOS").
Proof.
  intros first last.
  destruct (build_params_last_wins [first] last "origin"
              [("origin"%string, JStr "JFK")] computed computed)
    as (params & Hrun & Hlast & _).
  exists params. split; assumption.
Defined.

Lemma book_car_twice_witness :
  exists first st1 second st2 booking1 booking2,
    book_car noon (JInt 1) 1 1 1 "2024-02-15 10:00:00" "2024-02-18 10:00:00"
             driver db0
    = (Ok (JObj first), st1)
    /\ book_car noon (JInt 2) 1 1 1 "2024-02-15 10:00:00" "2024-02-18 10:00:00"
                driver st1
       = (Ok (JObj second), st2)
    /\ lookup "success" second = Some (JBool true)
    /\ car_rental_bookings st2 = [booking1; booking2].
Proof.
  destruct (book_car_twice
              (RT := runtime) noon noon (JInt 1) (JInt 2) 1 1 1 1 1
              "2024-02-15 10:00:00" "2024-02-18 10:00:00"
              "2024-02-15 10:00:00" "2024-02-18 10:00:00" driver driver db0
              versa [] (Datetime 2024 2 15 10 0 0 0) (Datetime 2024 2 18 10 0 0 0)
              (Datetime 2024 2 15 10 0 0 0) (Datetime 2024 2 18 10 0 0 0)
              computed computed computed computed checked checked checked checked
              computed computed computed computed computed computed computed
              computed computed computed)
    as (first & st1 & second & st2 & b1 & b2 & H1 & _ & H2 & Hok & Hrows & _).
  exists first, st1, second, st2, b1, b2.
  repeat split; assumption.
Defined.

(** From the last day of February 2024 but one to the first of March, an
    hour short of two days. *)
Lemma book_car_bills_one_day_under_48_hours_witness :
  exists reported st',
    book_car noon (JInt 1) 1 1 1 "2024-02-28 10:00:00" "2024-03-01 09:00:00"
             driver db0
    = (Ok (JObj reported), st')
    /\ lookup "rental_days" reported = Some (JInt 1).
Proof.
  destruct (book_car_bills_one_day_under_48_hours
              (RT := runtime) noon (JInt 1) 1 1 1
              "2024-02-28 10:00:00" "2024-03-01 09:00:00" driver db0 versa []
              (Datetime 2024 2 28 10 0 0 0) (Datetime 2024 3 1 9 0 0 0) 2
              computed computed checked checked
              ltac:(left; split; [lia|reflexivity]) computed computed computed
              computed computed computed)
    as (reported & st' & days & Hrun & Hdays & _ & _ & Hone).
  exists reported, st'. split; [exact Hrun|].
  rewrite Hdays. do 2 f_equal. apply Hone. vm_compute. reflexivity.
Defined.


(** A car to be picked up on 2024-03-02 and brought back on 2024-02-27. *)
Lemma handle_book_car_accepts_reversed_dates_witness :
  availability_status corolla = "AVAILABLE"%string
  /\ exists reported confirmation st' vehicle' others',
       handle_book_car noon
                       (car_params_for "2" "2024-03-02 10:00:00"
                                       "2024-02-27 10:00:00" driver)
                       db0
       = (Ok (JObj reported), st')
       /\ lookup "success" reported = Some (JBool true)
       /\ lookup "rental_confirmation" reported = Some confirmation
       /\ field "rental_days" confirmation = Some (JInt 1)
       /\ select_vehicle 2 st' = vehicle' :: others'
       /\ availability_status vehicle' = "RENTED"%string.
Proof.
  split; [reflexivity|].
  destruct (handle_book_car_accepts_reversed_dates
              (RT := runtime) noon
              (car_params_for "2" "2024-03-02 10:00:00" "2024-02-27 10:00:00"
                              driver)
              db0 2 1 1 driver "2024-03-02 10:00:00" "2024-02-27 10:00:00"
              (Datetime 2024 3 2 10 0 0 0) (Datetime 2024 2 27 10 0 0 0)
              corolla [] (-4) computed computed computed computed computed computed
              computed computed computed computed checked checked
              ltac:(right; split; [lia|reflexivity]) ltac:(lia)
              computed computed computed computed computed computed)
    as (reported & confirmation & st' & vehicle' & others' & Hrun & Hok & Hconf
        & Hdays & _ & Hsel & _ & Hstatus).
  exists reported, confirmation, st', vehicle', others'.
  repeat split; assumption.
Defined.

(** A stay from 2024-03-02 to 2024-02-27: minus four nights at 450.00, a
    total of -1800.00. *)
Lemma handle_book_hotel_accepts_reversed_dates_witness :
  exists reported confirmation st',
    handle_book_hotel noon (hotel_params "2024-03-02" "2024-02-27") db0
    = (Ok (JObj reported), st')
    /\ lookup "success" reported = Some (JBool true)
    /\ lookup "reservation_confirmation" reported = Some confirmation
    /\ field "nights" confirmation = Some (JInt (-4))
    /\ field "total_price" confirmation = Some (JFloat (dollars (-180000))).
Proof.
  destruct (handle_book_hotel_accepts_reversed_dates
              (RT := runtime) noon (hotel_params "2024-03-02" "2024-02-27") db0
              1 1 [("guests"%string, JList [JStr "Ann"])]
              "2024-03-02" "2024-02-27"
              (Datetime 2024 3 2 0 0 0 0) (Datetime 2024 2 27 0 0 0 0)
              standard_king [] 1 (-4) (dollars (-180000))
              computed computed computed computed computed computed computed
              computed checked checked
              ltac:(right; split; [lia|reflexivity]) ltac:(lia)
              computed computed computed computed computed computed computed
              computed)
    as (reported & confirmation & st' & booking & Hrun & Hok & Hconf & Hnights
        & Hprice & _).
  exists reported, confirmation, st'.
  repeat split; assumption.
Defined.

(** The standard king booked under hotel 1, which has it, and under hotel
    999, which does not exist: the same answer, and the row carries 999. *)
Lemma book_hotel_ignores_hotel_id_witness :
  let guests := [("guests"%string, JList [JStr "Ann"])] in
  fst (book_hotel noon (JInt 1) 999 1 "2024-02-27" "2024-03-02" guests db0)
  = fst (book_hotel noon (JInt 1) 1 1 "2024-02-27" "2024-03-02" guests db0)
  /\ exists booking,
       hotel_bookings
         (snd (book_hotel noon (JInt 1) 999 1 "2024-02-27" "2024-03-02"
                          guests db0))
       = hotel_bookings db0 ++ [booking]
       /\ hb_hotel_id booking = 999
       /\ hb_room_type_id booking = 1.
Proof.
  intros guests.
  destruct (book_hotel_ignores_hotel_id
              (RT := runtime) noon (JInt 1) 999 1 1 "2024-02-27" "2024-03-02"
              guests db0 computed computed) as [Hsame Hrow].
  split; [exact Hsame|].
  eapply Hrow; vm_compute; reflexivity.
Defined.

End WorkedFurther.
